(** * GraphRAG multi-view retrieval: retrieval graph, entity resolution,
      graph expansion and session memory

    A shallow embedding of
    - [archive/langgraph_implementation/nodes.py] and [graph.py]
      (the U-shaped LangGraph retrieval pipeline),
    - [graphrag/ingestion/resolver.py] (entity resolution),
    - [graphrag/retrieval/graph_expander.py] (multi-view graph expansion),
    - [graphrag/retrieval/pipeline_langgraph.py] (session memory),
    - [graphrag/retrieval/reranker.py] and [graphrag/retrieval/pipeline.py]
      (the reranker and the pipeline behind the session memory),
    followed by the properties of these programs.

    Conventions.  Python [str] is [string] restricted to ASCII text; Python
    [float] scores are exact rationals ([Q]); a call that may raise returns
    an [option] or a sum whose failure branch stands for the exception.
    External gateways (vector store, graph store, language model, embedding
    model, [hashlib], [uuid4]) are fields of an environment record. *)

From stdpp Require Import gmap strings list fin_maps.
From Stdlib Require Import Ascii QArith Qminmax Lqa Sorting.Sorted Permutation DecimalString.

Local Close Scope Q_scope.
#[local] Set Warnings "-clear-no-such-hyp".
Local Open Scope string_scope.

(* ===================================================================== *)
(** * Python string and list primitives *)
(* ===================================================================== *)

Module Py.

(** [str.isspace] on ASCII: TAB, LF, VT, FF, CR, FS, GS, RS, US, SPACE. *)
Definition is_space (c : ascii) : bool :=
  let n := nat_of_ascii c in
  ((9 <=? n)%nat && (n <=? 13)%nat) || ((28 <=? n)%nat && (n <=? 32)%nat).

Definition is_upper (c : ascii) : bool :=
  let n := nat_of_ascii c in (65 <=? n)%nat && (n <=? 90)%nat.

Definition is_lower (c : ascii) : bool :=
  let n := nat_of_ascii c in (97 <=? n)%nat && (n <=? 122)%nat.

Definition is_digit (c : ascii) : bool :=
  let n := nat_of_ascii c in (48 <=? n)%nat && (n <=? 57)%nat.

(** The regular-expression class [\w] on ASCII. *)
Definition is_word (c : ascii) : bool :=
  is_upper c || is_lower c || is_digit c || Ascii.eqb c "_".

Definition lower_char (c : ascii) : ascii :=
  if is_upper c then ascii_of_nat (nat_of_ascii c + 32) else c.

Definition upper_char (c : ascii) : ascii :=
  if is_lower c then ascii_of_nat (nat_of_ascii c - 32) else c.

Fixpoint map_chars (f : ascii -> ascii) (s : string) : string :=
  match s with
  | EmptyString => EmptyString
  | String c s' => String (f c) (map_chars f s')
  end.

(** [s.lower()] and [s.upper()] *)
Definition lower (s : string) : string := map_chars lower_char s.
Definition upper (s : string) : string := map_chars upper_char s.

Definition is_empty (s : string) : bool :=
  match s with EmptyString => true | _ => false end.

Fixpoint lstrip (s : string) : string :=
  match s with
  | String c s' => if is_space c then lstrip s' else s
  | EmptyString => EmptyString
  end.

Fixpoint rstrip (s : string) : string :=
  match s with
  | EmptyString => EmptyString
  | String c s' =>
      let r := rstrip s' in
      if is_space c && is_empty r then EmptyString else String c r
  end.

(** [s.strip()] *)
Definition strip (s : string) : string := rstrip (lstrip s).

(** [s.split()]: maximal runs of non-space characters. *)
Fixpoint split_go (cur : string) (s : string) : list string :=
  match s with
  | EmptyString => if is_empty cur then [] else [cur]
  | String c s' =>
      if is_space c
      then (if is_empty cur then split_go "" s' else cur :: split_go "" s')
      else split_go (cur ++ String c "") s'
  end.

Definition split (s : string) : list string := split_go "" s.

(** [sep.join(parts)] *)
Fixpoint join (sep : string) (parts : list string) : string :=
  match parts with
  | [] => ""
  | [p] => p
  | p :: rest => p ++ sep ++ join sep rest
  end.

Fixpoint startswith (p s : string) : bool :=
  match p, s with
  | EmptyString, _ => true
  | String a p', String b s' => Ascii.eqb a b && startswith p' s'
  | String _ _, EmptyString => false
  end.

(** [needle in hay] *)
Fixpoint contains (needle hay : string) : bool :=
  startswith needle hay
  || match hay with
     | EmptyString => false
     | String _ hay' => contains needle hay'
     end.

(** [any(p in text for p in patterns)] *)
Definition any_in (patterns : list string) (text : string) : bool :=
  existsb (fun p => contains p text) patterns.

(** [s[:n]] *)
Fixpoint take (n : nat) (s : string) : string :=
  match n, s with
  | S n', String c s' => String c (take n' s')
  | _, _ => EmptyString
  end.

(** [s[n:]] *)
Fixpoint drop (n : nat) (s : string) : string :=
  match n, s with
  | S n', String _ s' => drop n' s'
  | _, _ => s
  end.

(** Length of the longest prefix of [s], of at most [hi] characters, whose
  characters all satisfy [p]: a greedy bounded repetition. *)
Fixpoint span (p : ascii -> bool) (hi : nat) (s : string) : nat :=
  match hi, s with
  | S hi', String c s' => if p c then S (span p hi' s') else 0
  | _, _ => 0
  end.

(** [s.replace(a, b)] for single characters. *)
Definition replace_char (a b : ascii) (s : string) : string :=
  map_chars (fun c => if Ascii.eqb c a then b else c) s.

(** [len(s)] *)
Definition len (s : string) : nat := String.length s.

(** [str(n)] for a natural number. *)
Definition str_of_nat (n : nat) : string :=
  NilEmpty.string_of_uint (Nat.to_uint n).

(** [l[-n:]] for [n > 0] *)
Definition last_n {A} (n : nat) (l : list A) : list A :=
  skipn (length l - n) l.

(** [d.get(k, default)] on a literal table. *)
Fixpoint table_get {V} (tbl : list (string * V)) (k : string) (default : V) : V :=
  match tbl with
  | [] => default
  | (k', v) :: rest => if String.eqb k k' then v else table_get rest k default
  end.

(** The idiom
    [for x in l: if key(x) not in seen: out.append(x); seen.add(key(x))]:
    the elements appended and the set left. *)
Fixpoint unseen {A} (key : A -> string) (l : list A) (seen : gset string)
  : list A * gset string :=
  match l with
  | [] => ([], seen)
  | x :: rest =>
      if decide (key x ∈ seen) then unseen key rest seen
      else
        let '(out, seen') := unseen key rest ({[key x]} ∪ seen) in
        (x :: out, seen')
  end.

End Py.

(* ===================================================================== *)
(** * Domain models ([graphrag/core/models.py]) *)
(* ===================================================================== *)

Module QueryIntent.
Inductive t := PROCEDURE | TROUBLESHOOTING | DEFINITION | ASSET_INFO | SAFETY.
Definition value (i : t) : string :=
    match i with
    | PROCEDURE => "procedure"
    | TROUBLESHOOTING => "troubleshooting"
    | DEFINITION => "definition"
    | ASSET_INFO => "asset_info"
    | SAFETY => "safety"
    end.
End QueryIntent.

Module ClassificationLevel.
Inductive t := PUBLIC | INTERNAL | CONFIDENTIAL | RESTRICTED.
Definition value (l : t) : string :=
    match l with
    | PUBLIC => "public"
    | INTERNAL => "internal"
    | CONFIDENTIAL => "confidential"
    | RESTRICTED => "restricted"
    end.
(** [list(ClassificationLevel)]: declaration order. *)
Definition members : list t := [PUBLIC; INTERNAL; CONFIDENTIAL; RESTRICTED].
End ClassificationLevel.

Module EntityType.
Inductive t :=
  | ASSET | COMPONENT | FAILURE_MODE | SYMPTOM | PROCEDURE | TOOL
  | MATERIAL | SAFETY_RULE | TERM | STANDARD | LOCATION | MANUFACTURER.
Definition value (e : t) : string :=
    match e with
    | ASSET => "ASSET"
    | COMPONENT => "COMPONENT"
    | FAILURE_MODE => "FAILURE_MODE"
    | SYMPTOM => "SYMPTOM"
    | PROCEDURE => "PROCEDURE"
    | TOOL => "TOOL"
    | MATERIAL => "MATERIAL"
    | SAFETY_RULE => "SAFETY_RULE"
    | TERM => "TERM"
    | STANDARD => "STANDARD"
    | LOCATION => "LOCATION"
    | MANUFACTURER => "MANUFACTURER"
    end.
Definition eqb (a b : t) : bool := String.eqb (value a) (value b).
End EntityType.

(** An embedding vector. *)
Definition Embedding := list Q.

(** The payload keys the nodes read from [VectorSearchResult.metadata],
    at the types the [Citation] model declares for them. *)
Module Metadata.
Record t := mk {
    doc_type : option string;
    title : option string;
    section : option string;
    page : option Z
  }.
Definition empty : t := mk None None None None.
End Metadata.

Module ExtractedEntity.
Record t := mk {
    name : string;
    type : EntityType.t;
    confidence : Q;
    context : string;
    source_chunk_id : option string
  }.
End ExtractedEntity.

Module ResolvedEntity.
Record t := mk {
    id : string;
    canonical_name : string;
    original_names : list string;
    type : EntityType.t;
    embedding : option Embedding
  }.
End ResolvedEntity.

Module VectorSearchResult.
Record t := mk {
    chunk_id : string;
    doc_id : string;
    content : string;
    score : Q;
    metadata : Metadata.t
  }.
End VectorSearchResult.

(** Node properties returned by the graph store: the two keys read. *)
Module NodeProps.
Record t := mk { name : option string; id : option string }.
End NodeProps.

(** A path as [Neo4jClient.traverse_from_node] returns it. *)
Module GraphPath.
Record t := mk { nodes : list NodeProps.t; relationships : list string }.
End GraphPath.

Module GraphFact.
Record t := mk {
    fact : string;
    source_nodes : list string;
    path : GraphPath.t;
    confidence : Q
  }.
End GraphFact.

Module Citation.
Record t := mk {
    doc_id : string;
    doc_title : option string;
    section : option string;
    page : option Z;
    excerpt : string;
    relevance_score : Q
  }.
End Citation.

(** The dictionaries appended to [safety_rules]. *)
Module SafetyRule.
Record t := mk { content : string; source : string; type : string }.
End SafetyRule.

Module EvidencePack.
Record t := mk {
    passages : list VectorSearchResult.t;
    graph_facts : list GraphFact.t;
    safety_rules : list SafetyRule.t;
    citations : list Citation.t;
    conflicts : list (string * string)
  }.
End EvidencePack.

Module SafetyEscalation.
Record t := mk {
    reason : string;
    severity : string;
    recommended_action : string;
    contact_roles : list string
  }.
End SafetyEscalation.

(** The dictionaries of [fused_evidence]: passages carry ["doc_id"], graph
    facts carry ["nodes"]; an absent key is [None]. *)
Module FusedItem.
Record t := mk {
    content : string;
    score : Q;
    source : string;
    doc_id : option string;
    nodes : option (list string)
  }.
End FusedItem.

(** [metadata_filters] / the [filters] argument of the vector search. *)
Module Filters.
Record t := mk {
    doc_type : option (list string);
    classification : option (list string)
  }.
Definition empty : t := mk None None.
End Filters.

(** [RetrievalState].  [trace_id], [stage_timings] and [error] are
    bookkeeping that no node or routing function reads; they are left out. *)
Module RetrievalState.
Record t := mk {
    query : string;
    user_id : string;
    session_id : string;
    access_level : ClassificationLevel.t;
    normalized_query : string;
    intent : option QueryIntent.t;
    metadata_filters : Filters.t;
    vector_candidates : list VectorSearchResult.t;
    extracted_entities : list ExtractedEntity.t;
    graph_facts : list GraphFact.t;
    expanded_context : list NodeProps.t;
    reranked_evidence : list VectorSearchResult.t;
    evidence_pack : option EvidencePack.t;
    skip_vector : list VectorSearchResult.t;
    skip_graph : list GraphFact.t;
    skip_rerank : list VectorSearchResult.t;
    fused_evidence : list FusedItem.t;
    answer : string;
    citations : list Citation.t;
    confidence : Q;
    safety_escalation : option SafetyEscalation.t
  }.

(** [RetrievalState(query=..., user_id=..., session_id=..., access_level=...)]:
      every other field at its declared default. *)
Definition init (q uid sid : string) (lvl : ClassificationLevel.t) : t :=
    mk q uid sid lvl "" None Filters.empty [] [] [] [] [] None [] [] [] []
       "" [] 0%Q None.

(** Field updates: a node returns a dictionary of the keys it sets, which
      the graph runtime writes over the state. *)
Definition set_normalized_query (v : string) (s : t) : t :=
    mk (query s) (user_id s) (session_id s) (access_level s) v (intent s)
       (metadata_filters s) (vector_candidates s) (extracted_entities s)
       (graph_facts s) (expanded_context s) (reranked_evidence s)
       (evidence_pack s) (skip_vector s) (skip_graph s) (skip_rerank s)
       (fused_evidence s) (answer s) (citations s) (confidence s)
       (safety_escalation s).
Definition set_intent (v : option QueryIntent.t) (s : t) : t :=
    mk (query s) (user_id s) (session_id s) (access_level s)
       (normalized_query s) v
       (metadata_filters s) (vector_candidates s) (extracted_entities s)
       (graph_facts s) (expanded_context s) (reranked_evidence s)
       (evidence_pack s) (skip_vector s) (skip_graph s) (skip_rerank s)
       (fused_evidence s) (answer s) (citations s) (confidence s)
       (safety_escalation s).
Definition set_metadata_filters (v : Filters.t) (s : t) : t :=
    mk (query s) (user_id s) (session_id s) (access_level s)
       (normalized_query s) (intent s)
       v (vector_candidates s) (extracted_entities s)
       (graph_facts s) (expanded_context s) (reranked_evidence s)
       (evidence_pack s) (skip_vector s) (skip_graph s) (skip_rerank s)
       (fused_evidence s) (answer s) (citations s) (confidence s)
       (safety_escalation s).
Definition set_vector_candidates (v : list VectorSearchResult.t) (s : t) : t :=
    mk (query s) (user_id s) (session_id s) (access_level s)
       (normalized_query s) (intent s)
       (metadata_filters s) v (extracted_entities s)
       (graph_facts s) (expanded_context s) (reranked_evidence s)
       (evidence_pack s) (skip_vector s) (skip_graph s) (skip_rerank s)
       (fused_evidence s) (answer s) (citations s) (confidence s)
       (safety_escalation s).
Definition set_extracted_entities (v : list ExtractedEntity.t) (s : t) : t :=
    mk (query s) (user_id s) (session_id s) (access_level s)
       (normalized_query s) (intent s)
       (metadata_filters s) (vector_candidates s) v
       (graph_facts s) (expanded_context s) (reranked_evidence s)
       (evidence_pack s) (skip_vector s) (skip_graph s) (skip_rerank s)
       (fused_evidence s) (answer s) (citations s) (confidence s)
       (safety_escalation s).
Definition set_graph_facts (v : list GraphFact.t) (s : t) : t :=
    mk (query s) (user_id s) (session_id s) (access_level s)
       (normalized_query s) (intent s)
       (metadata_filters s) (vector_candidates s) (extracted_entities s)
       v (expanded_context s) (reranked_evidence s)
       (evidence_pack s) (skip_vector s) (skip_graph s) (skip_rerank s)
       (fused_evidence s) (answer s) (citations s) (confidence s)
       (safety_escalation s).
Definition set_expanded_context (v : list NodeProps.t) (s : t) : t :=
    mk (query s) (user_id s) (session_id s) (access_level s)
       (normalized_query s) (intent s)
       (metadata_filters s) (vector_candidates s) (extracted_entities s)
       (graph_facts s) v (reranked_evidence s)
       (evidence_pack s) (skip_vector s) (skip_graph s) (skip_rerank s)
       (fused_evidence s) (answer s) (citations s) (confidence s)
       (safety_escalation s).
Definition set_reranked_evidence (v : list VectorSearchResult.t) (s : t) : t :=
    mk (query s) (user_id s) (session_id s) (access_level s)
       (normalized_query s) (intent s)
       (metadata_filters s) (vector_candidates s) (extracted_entities s)
       (graph_facts s) (expanded_context s) v
       (evidence_pack s) (skip_vector s) (skip_graph s) (skip_rerank s)
       (fused_evidence s) (answer s) (citations s) (confidence s)
       (safety_escalation s).
Definition set_evidence_pack (v : option EvidencePack.t) (s : t) : t :=
    mk (query s) (user_id s) (session_id s) (access_level s)
       (normalized_query s) (intent s)
       (metadata_filters s) (vector_candidates s) (extracted_entities s)
       (graph_facts s) (expanded_context s) (reranked_evidence s)
       v (skip_vector s) (skip_graph s) (skip_rerank s)
       (fused_evidence s) (answer s) (citations s) (confidence s)
       (safety_escalation s).
Definition set_skip_vector (v : list VectorSearchResult.t) (s : t) : t :=
    mk (query s) (user_id s) (session_id s) (access_level s)
       (normalized_query s) (intent s)
       (metadata_filters s) (vector_candidates s) (extracted_entities s)
       (graph_facts s) (expanded_context s) (reranked_evidence s)
       (evidence_pack s) v (skip_graph s) (skip_rerank s)
       (fused_evidence s) (answer s) (citations s) (confidence s)
       (safety_escalation s).
Definition set_skip_graph (v : list GraphFact.t) (s : t) : t :=
    mk (query s) (user_id s) (session_id s) (access_level s)
       (normalized_query s) (intent s)
       (metadata_filters s) (vector_candidates s) (extracted_entities s)
       (graph_facts s) (expanded_context s) (reranked_evidence s)
       (evidence_pack s) (skip_vector s) v (skip_rerank s)
       (fused_evidence s) (answer s) (citations s) (confidence s)
       (safety_escalation s).
Definition set_skip_rerank (v : list VectorSearchResult.t) (s : t) : t :=
    mk (query s) (user_id s) (session_id s) (access_level s)
       (normalized_query s) (intent s)
       (metadata_filters s) (vector_candidates s) (extracted_entities s)
       (graph_facts s) (expanded_context s) (reranked_evidence s)
       (evidence_pack s) (skip_vector s) (skip_graph s) v
       (fused_evidence s) (answer s) (citations s) (confidence s)
       (safety_escalation s).
Definition set_fused_evidence (v : list FusedItem.t) (s : t) : t :=
    mk (query s) (user_id s) (session_id s) (access_level s)
       (normalized_query s) (intent s)
       (metadata_filters s) (vector_candidates s) (extracted_entities s)
       (graph_facts s) (expanded_context s) (reranked_evidence s)
       (evidence_pack s) (skip_vector s) (skip_graph s) (skip_rerank s)
       v (answer s) (citations s) (confidence s)
       (safety_escalation s).
Definition set_answer (v : string) (s : t) : t :=
    mk (query s) (user_id s) (session_id s) (access_level s)
       (normalized_query s) (intent s)
       (metadata_filters s) (vector_candidates s) (extracted_entities s)
       (graph_facts s) (expanded_context s) (reranked_evidence s)
       (evidence_pack s) (skip_vector s) (skip_graph s) (skip_rerank s)
       (fused_evidence s) v (citations s) (confidence s)
       (safety_escalation s).
Definition set_citations (v : list Citation.t) (s : t) : t :=
    mk (query s) (user_id s) (session_id s) (access_level s)
       (normalized_query s) (intent s)
       (metadata_filters s) (vector_candidates s) (extracted_entities s)
       (graph_facts s) (expanded_context s) (reranked_evidence s)
       (evidence_pack s) (skip_vector s) (skip_graph s) (skip_rerank s)
       (fused_evidence s) (answer s) v (confidence s)
       (safety_escalation s).
Definition set_confidence (v : Q) (s : t) : t :=
    mk (query s) (user_id s) (session_id s) (access_level s)
       (normalized_query s) (intent s)
       (metadata_filters s) (vector_candidates s) (extracted_entities s)
       (graph_facts s) (expanded_context s) (reranked_evidence s)
       (evidence_pack s) (skip_vector s) (skip_graph s) (skip_rerank s)
       (fused_evidence s) (answer s) (citations s) v
       (safety_escalation s).
Definition set_safety_escalation (v : option SafetyEscalation.t) (s : t) : t :=
    mk (query s) (user_id s) (session_id s) (access_level s)
       (normalized_query s) (intent s)
       (metadata_filters s) (vector_candidates s) (extracted_entities s)
       (graph_facts s) (expanded_context s) (reranked_evidence s)
       (evidence_pack s) (skip_vector s) (skip_graph s) (skip_rerank s)
       (fused_evidence s) (answer s) (citations s) (confidence s)
       v.
End RetrievalState.

(* ===================================================================== *)
(** * Exceptions and external gateways *)
(* ===================================================================== *)

Inductive Exn := GatewayError | ValidationError | TypeError | IndexError.

Inductive Result (A : Type) : Type :=
| Ok (a : A)
| Raise (e : Exn).
Arguments Ok {A} a.
Arguments Raise {A} e.

#[global] Instance Result_ret : MRet Result := fun A a => Ok a.
#[global] Instance Result_bind : MBind Result := fun A B k r =>
  match r with
  | Ok a => k a
  | Raise e => Raise e
  end.

(** A gateway call that may raise. *)
Definition call {A} (o : option A) : Result A :=
  match o with
  | Some a => Ok a
  | None => Raise GatewayError
  end.

(** The collaborators of the retrieval graph.  [None] stands for a raised
    exception.  [chat_completion] takes the number of completions already
    requested in this run, so that repeated calls may answer differently;
    [validate_graph_fact] is the model validation run by the [GraphFact]
    constructor. *)
Module Env.
Record t := mk {
  embed_query : string -> Embedding;
  search : Embedding -> nat -> Filters.t -> option (list VectorSearchResult.t);
  structured_output : string -> string -> option (list ExtractedEntity.t);
  get_node_by_id : string -> option (option NodeProps.t);
  traverse_from_node :
    string -> list string -> nat -> nat -> option (list GraphPath.t);
  validate_graph_fact : GraphFact.t -> bool;
  chat_completion : nat -> string -> string -> option string;
  md5_hexdigest : string -> string
}.
End Env.

(* ===================================================================== *)
(** * Sorting: [list.sort(key=..., reverse=True)] *)
(* ===================================================================== *)

(** Python's sort is stable, and [reverse=True] keeps the original order of
    elements with equal keys.  [x] is placed before the first element whose
    key is not larger than its own. *)
Fixpoint insert_desc {A} (key : A -> Q) (x : A) (l : list A) : list A :=
  match l with
  | [] => [x]
  | y :: l' =>
      if Qle_bool (key y) (key x) then x :: y :: l'
      else y :: insert_desc key x l'
  end.

Definition sort_desc {A} (key : A -> Q) (l : list A) : list A :=
  foldr (insert_desc key) [] l.

(* ===================================================================== *)
(** * Pipeline nodes ([archive/langgraph_implementation/nodes.py]) *)
(* ===================================================================== *)

Module Nodes.
Import RetrievalState.

(** ** Down path *)

Definition abbreviations : list (string * string) :=
  [ ("pm", "preventive maintenance");
    ("cm", "corrective maintenance");
    ("rca", "root cause analysis");
    ("mtbf", "mean time between failures");
    ("mttr", "mean time to repair");
    ("sop", "standard operating procedure");
    ("ppe", "personal protective equipment") ].

Definition query_normalizer_node (state : t) : t :=
  let query := Py.strip (query state) in
  let normalized := query in
  let words := Py.split (Py.lower normalized) in
  let expanded_words := map (fun w => Py.table_get abbreviations w w) words in
  let normalized := Py.join " " expanded_words in
  set_normalized_query normalized state.

Definition troubleshooting_patterns : list string :=
  [ "troubleshoot"; "diagnose"; "problem"; "issue"; "failure"; "not working";
    "vibration"; "noise"; "leak"; "overheating"; "alarm"; "fault"; "error" ].

Definition definition_patterns : list string :=
  [ "what is"; "what are"; "define"; "meaning of"; "explain"; "definition" ].

Definition asset_patterns : list string :=
  [ "specification"; "specs"; "rating"; "capacity"; "model"; "manufacturer";
    "serial"; "installed"; "location" ].

Definition safety_patterns : list string :=
  [ "safety"; "hazard"; "ppe"; "lockout"; "tagout"; "permit"; "risk"; "danger" ].

Definition classify (query : string) : QueryIntent.t :=
  let intent := QueryIntent.PROCEDURE in
  let intent :=
    if Py.any_in troubleshooting_patterns query
    then QueryIntent.TROUBLESHOOTING else intent in
  let intent :=
    if Py.any_in definition_patterns query
    then QueryIntent.DEFINITION else intent in
  let intent :=
    if Py.any_in asset_patterns query
    then QueryIntent.ASSET_INFO else intent in
  let intent :=
    if Py.any_in safety_patterns query
    then QueryIntent.SAFETY else intent in
  intent.

Definition doc_type_filter (intent : QueryIntent.t) : option (list string) :=
  match intent with
  | QueryIntent.PROCEDURE => Some ["SOP"; "OEM_MANUAL"; "CHECKLIST"]
  | QueryIntent.TROUBLESHOOTING => Some ["OEM_MANUAL"; "RCA"; "BULLETIN"]
  | QueryIntent.DEFINITION => Some ["STANDARD"; "OEM_MANUAL"]
  | QueryIntent.SAFETY => Some ["SOP"; "STANDARD"]
  | QueryIntent.ASSET_INFO => None
  end.

Definition intent_classifier_node (state : t) : t :=
  let query := Py.lower (normalized_query state) in
  let intent := classify query in
  let metadata_filters := Filters.mk (doc_type_filter intent) None in
  set_metadata_filters metadata_filters (set_intent (Some intent) state).

(** The access-control filter: the user's level followed by every level
    whose value is smaller as a string. *)
Definition classification_filter (lvl : ClassificationLevel.t) : list string :=
  map ClassificationLevel.value
    (lvl :: List.filter
              (fun l => String.ltb (ClassificationLevel.value l)
                                   (ClassificationLevel.value lvl))
              ClassificationLevel.members).

Definition vector_recall_node (env : Env.t) (state : t) : Result t :=
  let query_embedding := Env.embed_query env (normalized_query state) in
  let filters :=
    Filters.mk (Filters.doc_type (metadata_filters state))
               (Some (classification_filter (access_level state))) in
  results ← call (Env.search env query_embedding 50 filters);
  let skip_vector := take 10 results in
  Ok (set_skip_vector skip_vector (set_vector_candidates results state)).

(** The fallback pattern [\b[A-Z]{1,3}-\d{2,4}[A-Z]?\b]. *)
(** [\b] after a word character: the next character is absent or not [\w]. *)
Definition at_word_end (s : string) : bool :=
  match s with
  | EmptyString => true
  | String c _ => negb (Py.is_word c)
  end.

(** Greedy alternatives in the order the matcher tries them. *)
Definition counts_down (hi lo : nat) : list nat :=
  List.filter (fun k => (lo <=? k)%nat) (rev (seq 0 (S hi))).

Definition first_some {A B} (f : A -> option B) (l : list A) : option B :=
  foldr (fun a r => match f a with Some b => Some b | None => r end) None l.

Definition match_suffix (s : string) : option nat :=
  match s with
  | String c s' =>
      if Py.is_upper c && at_word_end s' then Some 1
      else if at_word_end s then Some 0 else None
  | EmptyString => Some 0
  end.

Definition match_digits (s : string) : option nat :=
  first_some
    (fun m => match match_suffix (Py.drop m s) with
              | Some k => Some (m + k)
              | None => None
              end)
    (counts_down (Py.span Py.is_digit 4 s) 2).

Definition match_letters (s : string) : option nat :=
  first_some
    (fun k => match Py.drop k s with
              | String c s' =>
                  if Ascii.eqb c "-"
                  then match match_digits s' with
                       | Some m => Some (k + 1 + m)
                       | None => None
                       end
                  else None
              | EmptyString => None
              end)
    (counts_down (Py.span Py.is_upper 3 s) 1).

(** A match starting here, given the preceding character. *)
Definition match_here (prev : option ascii) (s : string) : option nat :=
  let prev_is_word := match prev with Some c => Py.is_word c | None => false end in
  if prev_is_word then None else match_letters s.

(** [re.finditer]: leftmost matches, scanning on after each one. *)
Fixpoint finditer_go (skip : nat) (prev : option ascii) (s : string) : list string :=
  match s with
  | EmptyString => []
  | String c s' =>
      match skip with
      | S k => finditer_go k (Some c) s'
      | O =>
          match match_here prev s with
          | Some (S k) => Py.take (S k) s :: finditer_go k (Some c) s'
          | _ => finditer_go 0 (Some c) s'
          end
      end
  end.

Definition asset_pattern_finditer (s : string) : list string :=
  finditer_go 0 None s.

Definition extraction_system_prompt : string :=
  "Extract entities from the text. Return JSON with entities array. " ++
  "Each entity has: name, type (ASSET, COMPONENT, FAILURE_MODE, " ++
  "SYMPTOM, PROCEDURE, TOOL, SAFETY_RULE, TERM), confidence (0-1).".

Definition nl2 : string := String (ascii_of_nat 10) (String (ascii_of_nat 10) "").

Definition entity_extractor_node (env : Env.t) (state : t) : t :=
  let context :=
    fold_left
      (fun ctx result => ctx ++ Py.take 500 (VectorSearchResult.content result) ++ nl2)
      (take 5 (vector_candidates state))
      (normalized_query state ++ nl2) in
  let entities :=
    match Env.structured_output env extraction_system_prompt (Py.take 2000 context) with
    | Some entities => entities
    | None =>
        map (fun m => ExtractedEntity.mk m EntityType.ASSET 0.9%Q "" None)
            (asset_pattern_finditer context)
    end in
  set_extracted_entities entities state.

(** ** Graph expansion *)

Definition traversal_config (intent : option QueryIntent.t) : list string * nat :=
  match intent with
  | Some QueryIntent.PROCEDURE | None =>
      (["HAS_PROCEDURE"; "HAS_STEP"; "APPLIES_TO"; "REQUIRES_TOOL"], 2)
  | Some QueryIntent.TROUBLESHOOTING =>
      (["INDICATES"; "CAUSED_BY"; "AFFECTS"; "MITIGATES"], 3)
  | Some QueryIntent.DEFINITION =>
      (["DEFINED_AS"; "SYNONYM_OF"; "IS_A"; "PART_OF"], 2)
  | Some QueryIntent.ASSET_INFO =>
      (["HAS_SUBSYSTEM"; "HAS_COMPONENT"; "INSTALLED_AT"; "MADE_BY"], 2)
  | Some QueryIntent.SAFETY =>
      (["HAS_SAFETY_RULE"; "MITIGATES"; "REQUIRES"], 2)
  end.

(** [n.get('name', n.get('id', ''))] *)
Definition node_label (n : NodeProps.t) : string :=
  match NodeProps.name n with
  | Some s => s
  | None => match NodeProps.id n with Some i => i | None => "" end
  end.

(** [n.get("id", "")] *)
Definition node_id_or_empty (n : NodeProps.t) : string :=
  match NodeProps.id n with Some i => i | None => "" end.

Definition fact_of_path (path : GraphPath.t) : option (GraphFact.t * NodeProps.t) :=
  let nodes := GraphPath.nodes path in
  let rels := GraphPath.relationships path in
  match nodes, List.last (map Some nodes) None with
  | first :: _ :: _, Some final =>
      let fact_text := node_label first ++ " " in
      let fact_text :=
        match rels with
        | r :: _ => fact_text ++ Py.lower (Py.replace_char "_" " " r) ++ " "
        | [] => fact_text
        end in
      let fact_text := fact_text ++ node_label final in
      Some (GraphFact.mk fact_text (map node_id_or_empty nodes) path 0.9%Q, final)
  | _, _ => None
  end.

(** The loop over the paths of one entity.  A [GraphFact] whose validation
    fails raises inside the [try]; what was appended before stays. *)
Fixpoint facts_of_paths (valid : GraphFact.t -> bool) (paths : list GraphPath.t)
  : list (GraphFact.t * NodeProps.t) :=
  match paths with
  | [] => []
  | path :: rest =>
      match fact_of_path path with
      | Some (f, final) =>
          if valid f then (f, final) :: facts_of_paths valid rest else []
      | None => facts_of_paths valid rest
      end
  end.

(** One iteration of the loop over entities; a raised exception or a missing
    node skips the entity. *)
Definition expand_entity (env : Env.t) (config : list string * nat)
    (entity : ExtractedEntity.t) : list (GraphFact.t * NodeProps.t) :=
  match Env.get_node_by_id env (ExtractedEntity.name entity) with
  | Some (Some _) =>
      match Env.traverse_from_node env (ExtractedEntity.name entity)
                                   (fst config) (snd config) 20 with
      | Some paths => facts_of_paths (Env.validate_graph_fact env) paths
      | None => []
      end
  | _ => []
  end.

Definition graph_expander_node (env : Env.t) (state : t) : t :=
  let config := traversal_config (intent state) in
  let found :=
    flat_map (expand_entity env config) (take 10 (extracted_entities state)) in
  let graph_facts := map fst found in
  let expanded_context := map snd found in
  let skip_graph := take 15 graph_facts in
  set_skip_graph skip_graph
    (set_expanded_context expanded_context
       (set_graph_facts graph_facts state)).

(** ** Hybrid reranking *)

Definition authority_map : list (string * Q) :=
  [ ("OEM_MANUAL", 1.0%Q); ("STANDARD", 0.95%Q); ("SOP", 0.9%Q);
    ("BULLETIN", 0.85%Q); ("RCA", 0.8%Q) ].

Definition graph_relevance (result : VectorSearchResult.t)
    (graph_facts : list GraphFact.t) : Q :=
  let result_content_lower := Py.lower (VectorSearchResult.content result) in
  let graph_relevance :=
    fold_left
      (fun acc fact =>
         fold_left
           (fun acc node_id =>
              if Py.contains (Py.lower node_id) result_content_lower
              then (acc + 0.1)%Q else acc)
           (GraphFact.source_nodes fact) acc)
      graph_facts 0%Q in
  Qmin graph_relevance 1.0%Q.

Definition compute_hybrid_score (result : VectorSearchResult.t)
    (graph_facts : list GraphFact.t) : Q :=
  let vector_score := VectorSearchResult.score result in
  let graph_relevance := graph_relevance result graph_facts in
  let recency_score := 0.5%Q in
  let doc_type :=
    match Metadata.doc_type (VectorSearchResult.metadata result) with
    | Some d => d
    | None => ""
    end in
  let authority_score := Py.table_get authority_map doc_type 0.7%Q in
  (0.35 * vector_score + 0.30 * graph_relevance + 0.15 * recency_score
   + 0.20 * authority_score)%Q.

Definition rescore (graph_facts : list GraphFact.t) (result : VectorSearchResult.t)
  : VectorSearchResult.t :=
  VectorSearchResult.mk
    (VectorSearchResult.chunk_id result)
    (VectorSearchResult.doc_id result)
    (VectorSearchResult.content result)
    (compute_hybrid_score result graph_facts)
    (VectorSearchResult.metadata result).

Definition rerank (candidates : list VectorSearchResult.t)
    (graph_facts : list GraphFact.t) : list VectorSearchResult.t :=
  let scored_results := map (rescore graph_facts) candidates in
  let scored_results := sort_desc VectorSearchResult.score scored_results in
  take 10 scored_results.

Definition reranker_node (state : t) : t :=
  let reranked := rerank (vector_candidates state) (graph_facts state) in
  let skip_rerank := take 5 reranked in
  set_skip_rerank skip_rerank (set_reranked_evidence reranked state).

(** ** Evidence assembly *)

Definition ellipsis : string := "...".

Definition excerpt_of (content : string) : string :=
  if (200 <? Py.len content)%nat then Py.take 200 content ++ ellipsis
  else content.

Definition citation_of (passage : VectorSearchResult.t) : Citation.t :=
  Citation.mk
    (VectorSearchResult.doc_id passage)
    (Metadata.title (VectorSearchResult.metadata passage))
    (Metadata.section (VectorSearchResult.metadata passage))
    (Metadata.page (VectorSearchResult.metadata passage))
    (excerpt_of (VectorSearchResult.content passage))
    (VectorSearchResult.score passage).

(** The citation loop, with its [seen_docs] set. *)
Definition build_citations (passages : list VectorSearchResult.t) : list Citation.t :=
  let seen_docs := ∅ in
  map citation_of (fst (Py.unseen VectorSearchResult.doc_id passages seen_docs)).

Definition safety_keywords : list string :=
  [ "warning"; "caution"; "danger"; "ppe"; "lockout"; "hazard" ].

Definition is_safety_passage (passage : VectorSearchResult.t) : bool :=
  Py.any_in safety_keywords (Py.lower (VectorSearchResult.content passage)).

Definition extract_safety_rules (passages : list VectorSearchResult.t)
  : list SafetyRule.t :=
  map (fun passage =>
         SafetyRule.mk (VectorSearchResult.content passage)
                       (VectorSearchResult.doc_id passage) "extracted")
      (List.filter is_safety_passage passages).

Definition assemble (passages : list VectorSearchResult.t)
    (graph_facts_list : list GraphFact.t) : EvidencePack.t :=
  let citations := build_citations passages in
  let safety_rules := extract_safety_rules passages in
  let conflicts := [] in
  EvidencePack.mk passages graph_facts_list safety_rules citations conflicts.

Definition evidence_assembler_node (state : t) : t :=
  set_evidence_pack
    (Some (assemble (reranked_evidence state) (graph_facts state))) state.

(** ** Up path *)

(** [hashlib.md5(content.encode()).hexdigest()[:16]] *)
Definition content_hash (env : Env.t) (content : string) : string :=
  Py.take 16 (Env.md5_hexdigest env content).

Definition weight_vector : Q := 0.3%Q.
Definition weight_graph : Q := 0.4%Q.
Definition weight_rerank : Q := 0.3%Q.

Definition fused_of_vector (item : VectorSearchResult.t) : FusedItem.t :=
  FusedItem.mk (VectorSearchResult.content item)
               (VectorSearchResult.score item * weight_vector)%Q
               "vector" (Some (VectorSearchResult.doc_id item)) None.

Definition fused_of_graph (fact : GraphFact.t) : FusedItem.t :=
  FusedItem.mk (GraphFact.fact fact)
               (GraphFact.confidence fact * weight_graph)%Q
               "graph" None (Some (GraphFact.source_nodes fact)).

Definition fused_of_rerank (item : VectorSearchResult.t) : FusedItem.t :=
  FusedItem.mk (VectorSearchResult.content item)
               (VectorSearchResult.score item * weight_rerank)%Q
               "rerank" (Some (VectorSearchResult.doc_id item)) None.

(** One of the three loops of [skip_fusion_node]: the entries it appends to
    [fused] and the [seen_hashes] set it leaves. *)
Definition fuse_buffer {A} (env : Env.t) (text : A -> string) (entry : A -> FusedItem.t)
    (buffer : list A) (seen_hashes : gset string)
  : list FusedItem.t * gset string :=
  let '(kept, seen_hashes) :=
    Py.unseen (fun item => content_hash env (text item)) buffer seen_hashes in
  (map entry kept, seen_hashes).

(** The merged list before sorting. *)
Definition fuse_merge (env : Env.t) (skip_vector : list VectorSearchResult.t)
    (skip_graph : list GraphFact.t) (skip_rerank : list VectorSearchResult.t)
  : list FusedItem.t :=
  let '(from_vector, seen) :=
    fuse_buffer env VectorSearchResult.content fused_of_vector skip_vector ∅ in
  let '(from_graph, seen) :=
    fuse_buffer env GraphFact.fact fused_of_graph skip_graph seen in
  let '(from_rerank, _) :=
    fuse_buffer env VectorSearchResult.content fused_of_rerank skip_rerank seen in
  from_vector ++ from_graph ++ from_rerank.

Definition skip_fusion (env : Env.t) (skip_vector : list VectorSearchResult.t)
    (skip_graph : list GraphFact.t) (skip_rerank : list VectorSearchResult.t)
  : list FusedItem.t :=
  let fused := fuse_merge env skip_vector skip_graph skip_rerank in
  let fused := sort_desc FusedItem.score fused in
  take 20 fused.

Definition skip_fusion_node (env : Env.t) (state : t) : t :=
  set_fused_evidence
    (skip_fusion env (skip_vector state) (skip_graph state) (skip_rerank state))
    state.

Definition nl : string := String (ascii_of_nat 10) "".
Definition dq : string := String (ascii_of_nat 34) "".

(** [item.get("doc_id", item.get("nodes", ["graph"])[0])]: the default is
    evaluated first, and indexing an empty ["nodes"] list raises. *)
Definition evidence_source (item : FusedItem.t) : Result string :=
  default ←
    match FusedItem.nodes item with
    | Some (n :: _) => Ok n
    | Some [] => Raise IndexError
    | None => Ok "graph"
    end;
  Ok match FusedItem.doc_id item with
     | Some d => d
     | None => default
     end.

(** The numbered evidence block over [enumerate(fused_evidence[:10], 1)]. *)
Fixpoint evidence_block (i : nat) (items : list FusedItem.t) : Result string :=
  match items with
  | [] => Ok ""
  | item :: rest =>
      source ← evidence_source item;
      tail ← evidence_block (S i) rest;
      Ok ("[" ++ Py.str_of_nat i ++ "] Source: " ++ source ++ nl
          ++ FusedItem.content item ++ nl2 ++ tail)
  end.

Definition system_prompt (intent : string) : string :=
  "You are a maintenance assistant for oil & gas operations." ++ nl ++
  "Generate a response based ONLY on the provided evidence." ++ nl ++
  nl ++
  "RULES:" ++ nl ++
  "1. Only state facts that appear in the evidence" ++ nl ++
  "2. Cite every claim with [source number]" ++ nl ++
  "3. If evidence is insufficient, say " ++ dq ++
    "I don't have enough information" ++ dq ++ nl ++
  "4. Include all relevant safety warnings from evidence" ++ nl ++
  "5. For procedures, provide step-by-step guidance matching the source" ++ nl ++
  nl ++
  "INTENT: " ++ intent ++ nl.

(** [min(0.95, len(state.fused_evidence) * 0.1)] *)
Definition estimate_confidence (fused_evidence : list FusedItem.t) : Q :=
  Qmin 0.95%Q (inject_Z (Z.of_nat (length fused_evidence)) * 0.1)%Q.

(** [calls] is the number of chat completions requested so far. *)
Definition answer_synthesizer_node (env : Env.t) (calls : nat) (state : t)
  : Result t :=
  evidence_text ← evidence_block 1 (take 10 (fused_evidence state));
  let system :=
    system_prompt match intent state with
                  | Some i => QueryIntent.value i
                  | None => "general"
                  end in
  let user :=
    "QUERY: " ++ query state ++ nl2 ++ "EVIDENCE:" ++ nl ++ evidence_text in
  response ← call (Env.chat_completion env calls system user);
  let confidence := estimate_confidence (fused_evidence state) in
  Ok (set_confidence confidence (set_answer response state)).

Definition citation_generator_node (state : t) : t :=
  let citations :=
    match evidence_pack state with
    | Some pack => EvidencePack.citations pack
    | None => []
    end in
  set_citations citations state.

Definition hallucination_phrases : list string :=
  [ "i think"; "probably"; "might be"; "i assume"; "generally speaking";
    "in my experience" ].

Definition verify_note : string :=
  nl2 ++ "*Note: Please verify this information with official documentation.*".

(** When the evidence pack holds safety rules the node evaluates
    [any(<bool>)], which raises [TypeError]: a [bool] is not iterable. *)
Definition guardrails_node (state : t) : Result t :=
  let answer := answer state in
  let answer_lower := Py.lower answer in
  let answer :=
    if Py.any_in hallucination_phrases answer_lower
    then answer ++ verify_note else answer in
  match evidence_pack state with
  | Some pack =>
      match EvidencePack.safety_rules pack with
      | _ :: _ => Raise TypeError
      | [] => Ok (set_answer answer state)
      end
  | None => Ok (set_answer answer state)
  end.

End Nodes.

(* ===================================================================== *)
(** * Retrieval graph ([archive/langgraph_implementation/graph.py]) *)
(* ===================================================================== *)

Module Node.
Inductive t :=
| query_normalizer | intent_classifier | vector_recall | entity_extractor
| graph_expander | reranker | evidence_assembler
| skip_fusion | answer_synthesizer | citation_generator | guardrails
| insufficient_evidence | safety_escalation
| END.

Definition eqb (a b : t) : bool :=
  match a, b with
  | query_normalizer, query_normalizer | intent_classifier, intent_classifier
  | vector_recall, vector_recall | entity_extractor, entity_extractor
  | graph_expander, graph_expander | reranker, reranker
  | evidence_assembler, evidence_assembler | skip_fusion, skip_fusion
  | answer_synthesizer, answer_synthesizer
  | citation_generator, citation_generator | guardrails, guardrails
  | insufficient_evidence, insufficient_evidence
  | safety_escalation, safety_escalation | END, END => true
  | _, _ => false
  end.
End Node.

Module Graph.

Inductive SufficiencyRoute := sufficient | insufficient | safety_critical.
Inductive GuardrailRoute := pass | escalate | retry.

Definition bypass_keywords : list string :=
  [ "bypass"; "override"; "shortcut"; "skip"; "disable" ].

Definition is_nil {A} (l : list A) : bool :=
  match l with [] => true | _ => false end.

Definition evidence_sufficiency_check (state : RetrievalState.t) : SufficiencyRoute :=
  match RetrievalState.evidence_pack state with
  | None => insufficient
  | Some evidence =>
      if negb (is_nil (EvidencePack.safety_rules evidence))
         && Py.any_in bypass_keywords (Py.lower (RetrievalState.query state))
      then safety_critical
      else
        let total_evidence :=
          (length (EvidencePack.passages evidence)
           + length (EvidencePack.graph_facts evidence))%nat in
        if (total_evidence <? 2)%nat then insufficient
        else if is_nil (EvidencePack.citations evidence) then insufficient
        else sufficient
  end.

Definition Qlt_bool (a b : Q) : bool := negb (Qle_bool b a).

Definition guardrail_check (state : RetrievalState.t) : GuardrailRoute :=
  match RetrievalState.safety_escalation state with
  | Some _ => escalate
  | None =>
      if Qlt_bool (RetrievalState.confidence state) 0.3%Q then retry
      else if is_nil (RetrievalState.citations state) then retry
      else pass
  end.

Definition insufficient_answer : string :=
  "I don't have enough information in the available documentation to " ++
  "answer this question accurately. Please try:" ++ Nodes.nl ++
  "1. Rephrasing your question with more specific terms" ++ Nodes.nl ++
  "2. Specifying the asset type or equipment name" ++ Nodes.nl ++
  "3. Asking about a specific procedure or maintenance task" ++ Nodes.nl2 ++
  "If this is urgent, please contact your maintenance supervisor or SME.".

Definition insufficient_evidence_node (state : RetrievalState.t) : RetrievalState.t :=
  RetrievalState.set_citations []
    (RetrievalState.set_confidence 0.0%Q
       (RetrievalState.set_answer insufficient_answer state)).

Definition safety_answer : string :=
  "⚠️ **SAFETY NOTICE**" ++ Nodes.nl2 ++
  "Your query involves potentially hazardous operations that require " ++
  "human expert review. This system cannot provide guidance for:" ++ Nodes.nl ++
  "- Bypassing safety interlocks" ++ Nodes.nl ++
  "- Overriding protective systems" ++ Nodes.nl ++
  "- Shortcuts to standard procedures" ++ Nodes.nl2 ++
  "Please contact your HSE representative or maintenance supervisor " ++
  "for guidance on this matter.".

Definition escalation : SafetyEscalation.t :=
  SafetyEscalation.mk
    "Query involves potentially hazardous operations"
    "HIGH"
    "Contact HSE representative"
    ["HSE Representative"; "Maintenance Supervisor"].

Definition safety_escalation_node (state : RetrievalState.t) : RetrievalState.t :=
  RetrievalState.set_safety_escalation (Some escalation)
    (RetrievalState.set_confidence 0.0%Q
       (RetrievalState.set_answer safety_answer state)).

(** The edges of [create_retrieval_graph], read after the node has run. *)
Definition next_node (n : Node.t) (state : RetrievalState.t) : Node.t :=
  match n with
  | Node.query_normalizer => Node.intent_classifier
  | Node.intent_classifier => Node.vector_recall
  | Node.vector_recall => Node.entity_extractor
  | Node.entity_extractor => Node.graph_expander
  | Node.graph_expander => Node.reranker
  | Node.reranker => Node.evidence_assembler
  | Node.evidence_assembler =>
      match evidence_sufficiency_check state with
      | sufficient => Node.skip_fusion
      | insufficient => Node.insufficient_evidence
      | safety_critical => Node.safety_escalation
      end
  | Node.skip_fusion => Node.answer_synthesizer
  | Node.answer_synthesizer => Node.citation_generator
  | Node.citation_generator => Node.guardrails
  | Node.guardrails =>
      match guardrail_check state with
      | pass => Node.END
      | escalate => Node.safety_escalation
      | retry => Node.answer_synthesizer
      end
  | Node.insufficient_evidence => Node.END
  | Node.safety_escalation => Node.END
  | Node.END => Node.END
  end.

(** Running one node: the state it leaves and the number of chat
    completions requested so far. *)
Definition run_node (env : Env.t) (n : Node.t) (calls : nat)
    (state : RetrievalState.t) : Result (RetrievalState.t * nat) :=
  match n with
  | Node.query_normalizer => Ok (Nodes.query_normalizer_node state, calls)
  | Node.intent_classifier => Ok (Nodes.intent_classifier_node state, calls)
  | Node.vector_recall =>
      s ← Nodes.vector_recall_node env state; Ok (s, calls)
  | Node.entity_extractor => Ok (Nodes.entity_extractor_node env state, calls)
  | Node.graph_expander => Ok (Nodes.graph_expander_node env state, calls)
  | Node.reranker => Ok (Nodes.reranker_node state, calls)
  | Node.evidence_assembler => Ok (Nodes.evidence_assembler_node state, calls)
  | Node.skip_fusion => Ok (Nodes.skip_fusion_node env state, calls)
  | Node.answer_synthesizer =>
      s ← Nodes.answer_synthesizer_node env calls state; Ok (s, S calls)
  | Node.citation_generator => Ok (Nodes.citation_generator_node state, calls)
  | Node.guardrails => s ← Nodes.guardrails_node state; Ok (s, calls)
  | Node.insufficient_evidence => Ok (insufficient_evidence_node state, calls)
  | Node.safety_escalation => Ok (safety_escalation_node state, calls)
  | Node.END => Ok (state, calls)
  end.

(** What is known of a run after a number of node executions: it has
    returned, it has raised, or it is about to run [pending]. *)
Inductive Outcome :=
| Finished (trace : list Node.t) (final : RetrievalState.t)
| Failed (trace : list Node.t) (e : Exn)
| Running (trace : list Node.t) (pending : Node.t) (calls : nat)
          (state : RetrievalState.t).

(** [graph.ainvoke]: [fuel] bounds the number of node executions and
    [trace] lists the nodes executed so far, in order.  The source sets no
    step limit of its own; a limit of the graph runtime is a value of [fuel],
    at which a run that is still [Running] has not returned. *)
Fixpoint run_from (env : Env.t) (fuel : nat) (n : Node.t) (calls : nat)
    (state : RetrievalState.t) (trace : list Node.t) : Outcome :=
  match n with
  | Node.END => Finished trace state
  | _ =>
      match fuel with
      | O => Running trace n calls state
      | S fuel' =>
          match run_node env n calls state with
          | Raise e => Failed (trace ++ [n]) e
          | Ok (state', calls') =>
              run_from env fuel' (next_node n state') calls' state' (trace ++ [n])
          end
      end
  end.

Definition run_retrieval (env : Env.t) (fuel : nat) (query user_id session_id : string)
    (access_level : ClassificationLevel.t) : Outcome :=
  let initial_state := RetrievalState.init query user_id session_id access_level in
  run_from env fuel Node.query_normalizer 0 initial_state [].


(** The number of times the edge from [guardrails] back to
    [answer_synthesizer] has been followed. *)
Fixpoint retry_edges (trace : list Node.t) : nat :=
  match trace with
  | [] => 0
  | n :: rest =>
      match n, rest with
      | Node.guardrails, Node.answer_synthesizer :: _ => S (retry_edges rest)
      | _, _ => retry_edges rest
      end
  end.

(** The three terminal outcomes. *)
Inductive Terminal := Success | InsufficientEvidence | SafetyEscalated.

Definition terminal_of (o : Outcome) : option Terminal :=
  match o with
  | Finished trace _ =>
      match List.last (map Some trace) None with
      | Some Node.guardrails => Some Success
      | Some Node.insufficient_evidence => Some InsufficientEvidence
      | Some Node.safety_escalation => Some SafetyEscalated
      | _ => None
      end
  | _ => None
  end.

(** The seven nodes from the entry point to evidence assembly. *)
Definition down_path (env : Env.t) (state : RetrievalState.t) : Result RetrievalState.t :=
  let state := Nodes.query_normalizer_node state in
  let state := Nodes.intent_classifier_node state in
  state ← Nodes.vector_recall_node env state;
  let state := Nodes.entity_extractor_node env state in
  let state := Nodes.graph_expander_node env state in
  let state := Nodes.reranker_node state in
  Ok (Nodes.evidence_assembler_node state).

Definition down_trace : list Node.t :=
  [ Node.query_normalizer; Node.intent_classifier; Node.vector_recall;
    Node.entity_extractor; Node.graph_expander; Node.reranker;
    Node.evidence_assembler ].

(** One pass over answer synthesis, citation generation and guardrails. *)
Definition synthesis_round (env : Env.t) (calls : nat) (state : RetrievalState.t)
  : Result RetrievalState.t :=
  state ← Nodes.answer_synthesizer_node env calls state;
  Nodes.guardrails_node (Nodes.citation_generator_node state).

Definition round_trace : list Node.t :=
  [ Node.answer_synthesizer; Node.citation_generator; Node.guardrails ].

End Graph.

(* ===================================================================== *)
(** * Entity resolution ([graphrag/ingestion/resolver.py]) *)
(* ===================================================================== *)

Module Resolver.

Inductive Action := CREATE | MERGE | LINK.

(** [reasoning] holds the two scores the reasoning text prints. *)
Record ResolutionResult := mkResult {
  action : Action;
  entity_id : string;
  canonical : option ResolvedEntity.t;
  link_to : option string;
  link_type : option string;
  confidence : Q;
  reasoning : option (Q * Q)
}.

(** The constructor arguments of [EntityResolver]. *)
Record EntityResolver := mkResolver {
  merge_threshold : Q;
  link_threshold : Q;
  embedding_weight : Q;
  context_weight : Q
}.

Definition default_resolver : EntityResolver :=
  mkResolver 0.85%Q 0.70%Q 0.6%Q 0.4%Q.

Definition abbreviation_map : list (string * string) :=
  [ ("pm", "preventive maintenance");
    ("cm", "corrective maintenance");
    ("rca", "root cause analysis");
    ("mtbf", "mean time between failures");
    ("mttr", "mean time to repair");
    ("sop", "standard operating procedure");
    ("ppe", "personal protective equipment");
    ("loto", "lockout tagout");
    ("p&id", "piping and instrumentation diagram");
    ("api", "american petroleum institute");
    ("asme", "american society of mechanical engineers") ].

(** A row of the candidate queries; [row_type] is the first label of the
    node.  The fuzzy query returns each row with its edit distance. *)
Record Row := mkRow {
  row_id : string;
  row_name : string;
  row_type : string;
  row_embedding : option Embedding
}.

Record Candidate := mkCandidate {
  cand_row : Row;
  match_type : string;
  cand_score : Q
}.

(** The collaborators of the resolver: the embedding service, the two
    Cypher queries ([None]: the query raised) and the source of [uuid4]
    values, indexed by the number of values drawn before. *)
Record Services := mkServices {
  embed_passage : string -> Embedding;
  cosine_similarity : Embedding -> Embedding -> Q;
  exact_query : string -> option (list Row);
  fuzzy_query : string -> nat -> option (list (Row * nat));
  uuid4 : nat -> string
}.

Fixpoint filter_chars (p : ascii -> bool) (s : string) : string :=
  match s with
  | EmptyString => EmptyString
  | String c s' => if p c then String c (filter_chars p s') else filter_chars p s'
  end.

(** [re.sub(r"[^\w\s\-]", "", name)] *)
Definition remove_special (name : string) : string :=
  filter_chars (fun c => Py.is_word c || Py.is_space c || Ascii.eqb c "-") name.

(** [re.sub(r"\s+", " ", name)] *)
Fixpoint collapse_go (in_run : bool) (s : string) : string :=
  match s with
  | EmptyString => EmptyString
  | String c s' =>
      if Py.is_space c
      then (if in_run then collapse_go true s' else String " " (collapse_go true s'))
      else String c (collapse_go false s')
  end.

Definition collapse_whitespace (name : string) : string := collapse_go false name.

(** [re.match(r"([a-z]+)\s*[-_]?\s*(\d+)\s*([a-z]?)", name)] and the tag
    built from its groups. *)
Definition asset_tag (name : string) : option string :=
  let k := Py.span Py.is_lower (Py.len name) name in
  match k with
  | O => None
  | S _ =>
      let prefix := Py.take k name in
      let rest := Py.lstrip (Py.drop k name) in
      let rest :=
        match rest with
        | String c r => if Ascii.eqb c "-" || Ascii.eqb c "_" then r else rest
        | EmptyString => rest
        end in
      let rest := Py.lstrip rest in
      let m := Py.span Py.is_digit (Py.len rest) rest in
      match m with
      | O => None
      | S _ =>
          let number := Py.take m rest in
          let rest := Py.lstrip (Py.drop m rest) in
          let suffix :=
            match rest with
            | String c _ => if Py.is_lower c then String c "" else ""
            | EmptyString => ""
            end in
          Some (Py.upper prefix ++ "-" ++ number ++ Py.upper suffix)
      end
  end.

Definition canonical_name_of (entity : ExtractedEntity.t) : string :=
  let name := Py.strip (Py.lower (ExtractedEntity.name entity)) in
  let words := Py.split name in
  let expanded := map (fun w => Py.table_get abbreviation_map w w) words in
  let name := Py.join " " expanded in
  let name := remove_special name in
  let name := Py.strip (collapse_whitespace name) in
  match ExtractedEntity.type entity with
  | EntityType.ASSET =>
      match asset_tag name with
      | Some tag => tag
      | None => name
      end
  | _ => name
  end.

Record Normalized := mkNormalized {
  canonical_name : string;
  original_name : string;
  type : EntityType.t;
  embedding : option Embedding
}.

Definition normalize (svc : Services) (entity : ExtractedEntity.t) : Normalized :=
  let name := canonical_name_of entity in
  mkNormalized name (ExtractedEntity.name entity) (ExtractedEntity.type entity)
               (Some (embed_passage svc name)).

(** [1.0 - distance / max(len(name), 1)] *)
Definition fuzzy_score (name : string) (distance : nat) : Q :=
  (1.0 - inject_Z (Z.of_nat distance)
         / inject_Z (Z.of_nat (Nat.max (Py.len name) 1)))%Q.

Definition find_candidates (svc : Services) (normalized : Normalized) (limit : nat)
  : Result (list Candidate) :=
  results ← call (exact_query svc (canonical_name normalized));
  let candidates := map (fun r => mkCandidate r "exact" 1.0%Q) results in
  match candidates with
  | _ :: _ => Ok (take limit candidates)
  | [] =>
      let candidates :=
        match fuzzy_query svc (canonical_name normalized) limit with
        | Some results =>
            map (fun r => mkCandidate (fst r) "fuzzy"
                            (fuzzy_score (canonical_name normalized) (snd r)))
                results
        | None => []
        end in
      Ok (take limit candidates)
  end.

Definition compute_embedding_similarity (svc : Services)
    (embedding1 embedding2 : option Embedding) : Q :=
  match embedding1, embedding2 with
  | Some e1, Some e2 => cosine_similarity svc e1 e2
  | _, _ => 0.0%Q
  end.

Definition compute_context_similarity (normalized : Normalized)
    (candidate : Candidate) : Q :=
  let score := 0.0%Q in
  let score :=
    if String.eqb (EntityType.value (type normalized)) (row_type (cand_row candidate))
    then (score + 0.5)%Q else score in
  Qmin score 1.0%Q.

(** The tuples appended to [scored]. *)
Record Scored := mkScored {
  candidate : Candidate;
  final_score : Q;
  emb_score : Q;
  ctx_score : Q
}.

Definition score_candidate (self : EntityResolver) (svc : Services)
    (normalized : Normalized) (candidate : Candidate) : Scored :=
  let emb_score :=
    compute_embedding_similarity svc (embedding normalized)
                                 (row_embedding (cand_row candidate)) in
  let ctx_score := compute_context_similarity normalized candidate in
  let final_score :=
    (embedding_weight self * emb_score + context_weight self * ctx_score)%Q in
  mkScored candidate final_score emb_score ctx_score.

Definition new_entity (new_id : string) (normalized : Normalized)
    (entity : ExtractedEntity.t) : ResolvedEntity.t :=
  ResolvedEntity.mk new_id (canonical_name normalized)
                    [ExtractedEntity.name entity] (ExtractedEntity.type entity)
                    (embedding normalized).

(** Step 4 of [resolve], on the scored candidates.  [drawn] is the number of
    [uuid4] values drawn before the call; the result carries the number
    drawn after it. *)
Definition decide_action (self : EntityResolver) (svc : Services) (drawn : nat)
    (normalized : Normalized) (entity : ExtractedEntity.t) (scored : list Scored)
  : ResolutionResult * nat :=
  match sort_desc final_score scored with
  | [] =>
      let entity_id := uuid4 svc drawn in
      (mkResult CREATE entity_id (Some (new_entity entity_id normalized entity))
                None None 1.0%Q None, S drawn)
  | best :: _ =>
      let score := final_score best in
      if Qle_bool (merge_threshold self) score then
        (mkResult MERGE (row_id (cand_row (candidate best))) None None None score
                  (Some (emb_score best, ctx_score best)), drawn)
      else if Qle_bool (link_threshold self) score then
        let new_id := uuid4 svc drawn in
        (mkResult LINK new_id (Some (new_entity new_id normalized entity))
                  (Some (row_id (cand_row (candidate best)))) (Some "RELATED_TO")
                  score None, S drawn)
      else
        let new_id := uuid4 svc drawn in
        (mkResult CREATE new_id (Some (new_entity new_id normalized entity))
                  None None 1.0%Q None, S drawn)
  end.

Definition resolve (self : EntityResolver) (svc : Services) (drawn : nat)
    (entity : ExtractedEntity.t) : Result (ResolutionResult * nat) :=
  let normalized := normalize svc entity in
  candidates ← find_candidates svc normalized 5;
  let scored := map (score_candidate self svc normalized) candidates in
  Ok (decide_action self svc drawn normalized entity scored).

(** [batch_resolve]: the entities one after the other. *)
Fixpoint batch_resolve (self : EntityResolver) (svc : Services) (drawn : nat)
    (entities : list ExtractedEntity.t) : Result (list ResolutionResult * nat) :=
  match entities with
  | [] => Ok ([], drawn)
  | entity :: rest =>
      '(result, drawn') ← resolve self svc drawn entity;
      '(results, drawn'') ← batch_resolve self svc drawn' rest;
      Ok (result :: results, drawn'')
  end.

End Resolver.


(* ===================================================================== *)
(** * Multi-view graph expansion ([graphrag/retrieval/graph_expander.py]) *)
(* ===================================================================== *)

Module Expander.

(** [str(v)] of a value that is a string or [None]. *)
Definition py_str (v : option string) : string :=
  match v with Some s => s | None => "None" end.

(** The dictionaries appended to [facts]. *)
Record Fact := mkFact {
  fact : string;
  source_nodes : list (option string);
  confidence : Q;
  hops : nat
}.

(** The dictionaries appended to [all_paths]. *)
Record PathEntry := mkPath { start : string; rel : string; finish : string }.

Record GraphContext := mkContext {
  facts : list Fact;
  nodes : list NodeProps.t;
  paths : list PathEntry;
  total_hops : nat
}.

(** Rows of the three queries of [expand].  A column that may be null is an
    [option]; [rel_type] and [connected_label] are concatenated as strings
    by the code and are strings here. *)
Record EntityRecord := mkEntityRecord { entity : NodeProps.t; labels : list string }.

Record PersonRecord := mkPerson {
  person_name : option string;
  role_name : option string;
  person_id : option string;
  role_id : option string
}.

Record Connection := mkConnection {
  rel_type : string;
  connected_label : string;
  connected_id : option string;
  connected_name : option string
}.

(** The graph session: chunk id to mentioned entities, asset id to the
    people responsible, and label and entity id to the connections.
    [None] stands for a raised exception. *)
Record Session := mkSession {
  mentions : string -> option (list EntityRecord);
  responsible : string -> option (list PersonRecord);
  connections : string -> string -> option (list Connection)
}.

(** The three lists [expand] appends to. *)
Record Acc := mkAcc {
  acc_facts : list Fact;
  acc_nodes : list NodeProps.t;
  acc_paths : list PathEntry
}.

Definition people_facts (entity_id entity_name : string) (acc : Acc)
    (people_results : list PersonRecord) : Acc :=
  fold_left
    (fun acc person_rec =>
       let fact_text :=
         py_str (person_name person_rec) ++ " (" ++ py_str (role_name person_rec)
         ++ ") is responsible for " ++ entity_name in
       mkAcc
         (acc_facts acc
          ++ [mkFact fact_text
                     [person_id person_rec; role_id person_rec; Some entity_id]
                     0.95%Q 2])
         (acc_nodes acc)
         (acc_paths acc
          ++ [mkPath ("Person:" ++ py_str (person_id person_rec))
                     "HAS_ROLE -> RESPONSIBLE_FOR"
                     ("Asset:" ++ entity_id)]))
    people_results acc.

(** [conn.get("connected_name") or conn.get("connected_id", "Unknown")] *)
Definition connected_name_of (conn : Connection) : option string :=
  match connected_name conn with
  | Some (String c s) => Some (String c s)
  | _ => connected_id conn
  end.

(** The loop over the connections of one entity, with its [seen_facts]. *)
Fixpoint connection_facts (ent : NodeProps.t) (entity_id entity_name entity_label : string)
    (seen_facts : gset string) (acc : Acc) (conns : list Connection) : Acc :=
  match conns with
  | [] => acc
  | conn :: rest =>
      if String.eqb (connected_label conn) "Chunk"
      then connection_facts ent entity_id entity_name entity_label seen_facts acc rest
      else
        let fact_text :=
          entity_name ++ " "
          ++ Py.replace_char "_" " " (Py.lower (rel_type conn))
          ++ " " ++ py_str (connected_name_of conn) in
        if decide (fact_text ∈ seen_facts)
        then connection_facts ent entity_id entity_name entity_label seen_facts acc rest
        else
          connection_facts ent entity_id entity_name entity_label
            ({[fact_text]} ∪ seen_facts)
            (mkAcc
               (acc_facts acc
                ++ [mkFact fact_text [Some entity_id; connected_id conn] 0.9%Q 1])
               (acc_nodes acc ++ [ent])
               (acc_paths acc
                ++ [mkPath (entity_label ++ ":" ++ entity_id)
                           (rel_type conn)
                           (connected_label conn ++ ":"
                            ++ py_str (connected_id conn))]))
            rest
  end.

(** One entity record.  The flag is [false] when a query raised, which
    leaves the [try] block of the chunk. *)
Definition expand_entity (session : Session) (intent : string) (acc : Acc)
    (entity_record : EntityRecord) : Acc * bool :=
  let ent := entity entity_record in
  match NodeProps.id ent with
  | None | Some EmptyString => (acc, true)
  | Some entity_id =>
      let entity_name :=
        match NodeProps.name ent with Some n => n | None => entity_id end in
      let entity_label :=
        match labels entity_record with l :: _ => l | [] => "Entity" end in
      let people :=
        if String.eqb intent "people" && String.eqb entity_label "Asset"
        then match responsible session entity_id with
             | Some people_results =>
                 Some (people_facts entity_id entity_name acc people_results)
             | None => None
             end
        else Some acc in
      match people with
      | None => (acc, false)
      | Some acc =>
          match connections session entity_label entity_id with
          | None => (acc, false)
          | Some conns =>
              (connection_facts ent entity_id entity_name entity_label ∅ acc conns,
               true)
          end
      end
  end.

Fixpoint expand_entities (session : Session) (intent : string) (acc : Acc)
    (entities : list EntityRecord) : Acc :=
  match entities with
  | [] => acc
  | entity_record :: rest =>
      match expand_entity session intent acc entity_record with
      | (acc', true) => expand_entities session intent acc' rest
      | (acc', false) => acc'
      end
  end.

Definition expand_chunk (session : Session) (intent : string) (acc : Acc)
    (chunk_id : string) : Acc :=
  match mentions session chunk_id with
  | Some entities => expand_entities session intent acc entities
  | None => acc
  end.

(** The final loop of [expand], with its [seen_fact_texts]. *)
Definition unique_facts (facts : list Fact) : list Fact :=
  let seen_fact_texts := ∅ in
  fst (Py.unseen fact facts seen_fact_texts).

(** All facts appended during traversal, in the order of discovery. *)
Definition discovered (session : Session) (seed_chunks : list string) (intent : string)
  : Acc :=
  fold_left (expand_chunk session intent) (take 5 seed_chunks) (mkAcc [] [] []).

Definition expand (session : Session) (seed_chunks : list string) (intent : string)
    (max_hops : nat) : GraphContext :=
  let acc := discovered session seed_chunks intent in
  mkContext (take 30 (unique_facts (acc_facts acc)))
            (take 50 (acc_nodes acc))
            (take 20 (acc_paths acc))
            max_hops.

End Expander.

(* ===================================================================== *)
(** * Session memory ([graphrag/retrieval/pipeline_langgraph.py]) *)
(* ===================================================================== *)

Module Session.

(** The dictionaries stored per exchange. *)
Module Exchange.
Record t := mk { query : string; answer : string; intent : string }.
End Exchange.

(** What the wrapped pipeline returns: the fields stored. *)
Record RetrievalResult := mkRetrievalResult {
  result_answer : string;
  result_intent : string
}.

Definition reference_words : list string :=
  [ "he"; "she"; "it"; "they"; "his"; "her"; "their"; "this"; "that";
    "these"; "those" ].

Definition in_list (w : string) (l : list string) : bool :=
  existsb (String.eqb w) l.

Definition enhance_query (query : string) (history : list Exchange.t) : string :=
  match history with
  | [] => query
  | _ :: _ =>
      let query_lower := Py.lower query in
      if existsb (fun word => in_list word (Py.split query_lower)) reference_words
      then
        let recent :=
          if (2 <=? length history)%nat then Py.last_n 2 history else history in
        let context :=
          Py.join Nodes.nl
            (map (fun ex => "Previous: " ++ Exchange.query ex ++ " -> "
                            ++ Py.take 100 (Exchange.answer ex)) recent) in
        "Context: " ++ context ++ Nodes.nl2 ++ "Current question: " ++ query
      else query
  end.

(** [run_full_retrieval] over the module-level [_session_store].
    [pipeline] is the wrapped retrieval pipeline; [None] stands for an
    exception it raised, which leaves the session initialised and returns
    no result. *)
Definition run_full_retrieval
    (pipeline : string -> string -> option RetrievalResult)
    (query session_id : string) (_session_store : gmap string (list Exchange.t))
  : gmap string (list Exchange.t) * option RetrievalResult :=
  let _session_store :=
    match _session_store !! session_id with
    | Some _ => _session_store
    | None => <[session_id := []]> _session_store
    end in
  let history := default [] (_session_store !! session_id) in
  let enhanced_query := enhance_query query history in
  match pipeline enhanced_query session_id with
  | None => (_session_store, None)
  | Some result =>
      let appended :=
        (history ++ [Exchange.mk query (result_answer result) (result_intent result)])%list in
      let _session_store := <[session_id := appended]> _session_store in
      let _session_store :=
        if (10 <? length appended)%nat
        then <[session_id := Py.last_n 10 appended]> _session_store
        else _session_store in
      (_session_store, Some result)
  end.

(** [_session_store.get(session_id, [])] *)
Definition get_session_history (session_id : string)
    (_session_store : gmap string (list Exchange.t)) : list Exchange.t :=
  default [] (_session_store !! session_id).

Definition clear_session (session_id : string)
    (_session_store : gmap string (list Exchange.t)) : gmap string (list Exchange.t) :=
  delete session_id _session_store.

(** A sequence of calls, each with the pipeline it meets, from a store. *)
Record Call := mkCall {
  call_pipeline : string -> string -> option RetrievalResult;
  call_query : string;
  call_session : string
}.

Definition run_calls (calls : list Call) (_session_store : gmap string (list Exchange.t))
  : gmap string (list Exchange.t) :=
  fold_left
    (fun store c =>
       fst (run_full_retrieval (call_pipeline c) (call_query c) (call_session c) store))
    calls _session_store.

End Session.

(* ===================================================================== *)
(** * LLM reranking ([graphrag/retrieval/reranker.py]) *)
(* ===================================================================== *)

Module Reranker.

(** The candidate dictionaries: the keys [rerank] reads, an absent key
    being [None]. *)
Module Candidate.
Record t := mk {
    content : option string;
    text : option string;
    score : option Q;
    chunk_id : option string;
    id : option string
  }.
End Candidate.

Module RankedChunk.
Record t := mk {
    chunk_id : string;
    content : string;
    score : Q;
    original_score : Q
  }.
End RankedChunk.

(** The relevance model, asked about a query and the first 500 characters
    of a content: the ["score"] entry of its JSON answer to the [n]-th
    request of a call of [rerank].  [Some None]: the answer has no such
    entry; [None]: the request or the parsing of its answer raised. *)
Definition Llm := nat -> string -> string -> option (option Q).

(** [set(s.lower().split())] *)
Definition words (s : string) : gset string := list_to_set (Py.split (Py.lower s)).

(** The fallback of [_score_relevance]. *)
Definition keyword_overlap (query content : string) : Q :=
  let query_words := words query in
  let content_words := words content in
  let overlap := size (query_words ∩ content_words) in
  Qmin (inject_Z (Z.of_nat overlap)
        / inject_Z (Z.of_nat (Nat.max (size query_words) 1)))%Q
       1.0%Q.

Definition _score_relevance (llm : Llm) (n : nat) (query content : string) : Q :=
  match llm n query (Py.take 500 content) with
  | Some (Some score) => score
  | Some None => 0.5%Q
  | None => keyword_overlap query content
  end.

(** The body of the loop of [rerank] for one candidate. *)
Definition rank_candidate (llm : Llm) (n : nat) (query : string)
    (candidate : Candidate.t) : RankedChunk.t :=
  let content :=
    match Candidate.content candidate with
    | Some c => c
    | None => match Candidate.text candidate with Some t => t | None => "" end
    end in
  let original_score :=
    match Candidate.score candidate with Some s => s | None => 0.0%Q end in
  let chunk_id :=
    match Candidate.chunk_id candidate with
    | Some c => c
    | None => match Candidate.id candidate with Some i => i | None => "" end
    end in
  let relevance_score := _score_relevance llm n query content in
  let final_score := (0.4 * original_score + 0.6 * relevance_score)%Q in
  RankedChunk.mk chunk_id content final_score original_score.

(** The loop of [rerank], from its [n]-th request on. *)
Fixpoint rank_all (llm : Llm) (n : nat) (query : string)
    (candidates : list Candidate.t) : list RankedChunk.t :=
  match candidates with
  | [] => []
  | candidate :: rest =>
      rank_candidate llm n query candidate :: rank_all llm (S n) query rest
  end.

Definition rerank (llm : Llm) (query : string) (candidates : list Candidate.t)
    (top_k : nat) : list RankedChunk.t :=
  match candidates with
  | [] => []
  | _ :: _ =>
      let reranked := rank_all llm 0 query (take 20 candidates) in
      let reranked := sort_desc RankedChunk.score reranked in
      take top_k reranked
  end.

End Reranker.

(* ===================================================================== *)
(** * The retrieval pipeline behind the session memory
      ([graphrag/retrieval/pipeline.py]) *)
(* ===================================================================== *)

Module Pipeline.

(** A point of the vector store's answer: the keys read, [point_id] as
    [str] prints it. *)
Record Point := mkPoint {
  point_id : option string;
  payload_text : option string;
  payload_content : option string;
  point_score : option Q;
  payload_document_id : option string;
  payload_doc_id : option string
}.

(** The dictionaries of [vector_candidates]. *)
Record VectorCandidate := mkVectorCandidate {
  chunk_id : string;
  content : string;
  score : Q;
  document_id : string
}.

Definition candidate_of_point (point : Point) : VectorCandidate :=
  mkVectorCandidate
    (Expander.py_str (point_id point))
    match payload_text point with
    | Some t => t
    | None => match payload_content point with Some c => c | None => "" end
    end
    match point_score point with Some s => s | None => 0.0%Q end
    match payload_document_id point with
    | Some d => d
    | None => match payload_doc_id point with Some d => d | None => "" end
    end.

(** The dictionary as [Reranker.rerank] reads it. *)
Definition as_candidate (c : VectorCandidate) : Reranker.Candidate.t :=
  Reranker.Candidate.mk (Some (content c)) None (Some (score c)) (Some (chunk_id c)) None.

(** The dictionaries of [fused_evidence] and of [sources]. *)
Record Evidence := mkEvidence {
  evidence_content : string;
  evidence_source : string;
  weight : Q
}.

Record Source := mkSource {
  source_chunk_id : string;
  source_text : string;
  source_score : Q
}.

(** [retrieval_steps], the timed trace of the stages, is left out. *)
Record RetrievalResult := mkRetrievalResult {
  answer : string;
  sources : list Source;
  intent : string;
  confidence : Q;
  graph_facts : list string
}.

(** The collaborators: the intent classifier, the embedding model with the
    vector store (asked with the text embedded and the limit), the graph
    session, the relevance model of the reranker and the chat completion
    (system and user message).  [None] stands for a raised exception; for
    [generate] also for a completion without text, which the result model
    rejects.  Closing the graph driver, in the [finally] clause, is taken not
    to raise. *)
Record Services := mkServices {
  classify : string -> option string;
  search : string -> nat -> option (list Point);
  graph : option Expander.Session;
  relevance : Reranker.Llm;
  generate : string -> string -> option string
}.

(** Stage 5: the three loops over the skip connections, with their
    [seen_content] set. *)
Definition graph_key (fact : Expander.Fact) : string := Expander.fact fact.
Definition rerank_key (item : Reranker.RankedChunk.t) : string :=
  Py.take 300 (Reranker.RankedChunk.content item).
Definition vector_key (item : VectorCandidate) : string := Py.take 300 (content item).

Definition fuse (skip_graph : list Expander.Fact)
    (skip_rerank : list Reranker.RankedChunk.t) (skip_vector : list VectorCandidate)
  : list Evidence :=
  let seen_content := ∅ in
  let '(from_graph, seen_content) := Py.unseen graph_key skip_graph seen_content in
  let '(from_rerank, seen_content) := Py.unseen rerank_key skip_rerank seen_content in
  let '(from_vector, _) := Py.unseen vector_key skip_vector seen_content in
  (map (fun fact => mkEvidence (graph_key fact) "graph" 0.4%Q) from_graph
   ++ map (fun item => mkEvidence (rerank_key item) "rerank" 0.35%Q) from_rerank
   ++ map (fun item => mkEvidence (vector_key item) "vector" 0.25%Q) from_vector)%list.

(** [f"[{i}] {evidence['content']}"] over [enumerate(..., i)] *)
Fixpoint context_parts (i : nat) (evidence : list Evidence) : list string :=
  match evidence with
  | [] => []
  | e :: rest =>
      ("[" ++ Py.str_of_nat i ++ "] " ++ evidence_content e) :: context_parts (S i) rest
  end.

Definition system_prompt (intent : string) : string :=
  "You are a helpful oil & gas maintenance assistant with access to a "
  ++ "multi-view knowledge graph." ++ Nodes.nl2
  ++ "The user's query has been classified as: " ++ intent ++ Nodes.nl2
  ++ "Answer based on the provided context which includes:" ++ Nodes.nl
  ++ "- Document chunks (from maintenance manuals)" ++ Nodes.nl
  ++ "- Graph facts (from equipment, people, and maintenance records)" ++ Nodes.nl
  ++ "- Reranked evidence (most relevant information)" ++ Nodes.nl2
  ++ "**Important guidelines:**" ++ Nodes.nl
  ++ "- Match your answer's detail level to the question's complexity" ++ Nodes.nl
  ++ "- For simple factual questions (who/what/where), provide direct, "
  ++ "concise answers" ++ Nodes.nl
  ++ "- For complex questions (how-to/troubleshooting), provide comprehensive "
  ++ "step-by-step guidance" ++ Nodes.nl
  ++ "- Only include context that directly answers the question - avoid "
  ++ "tangential information" ++ Nodes.nl
  ++ "- Cite sources by number [1], [2], etc." ++ Nodes.nl
  ++ "- If the context doesn't contain sufficient information, say so clearly"
  ++ Nodes.nl2
  ++ "Think: Does this question need a paragraph or just a sentence?".

Definition source_of (item : Reranker.RankedChunk.t) : Source :=
  mkSource (Reranker.RankedChunk.chunk_id item)
           (Nodes.excerpt_of (Reranker.RankedChunk.content item))
           (Reranker.RankedChunk.score item).

(** [sum(scores)] *)
Definition sum (scores : list Q) : Q := fold_left Qplus scores 0%Q.

Definition overall_confidence (vector_candidates : list VectorCandidate)
    (reranked : list Reranker.RankedChunk.t) (facts : list Expander.Fact) : Q :=
  let avg_vector_score :=
    match vector_candidates with
    | [] => 0%Q
    | _ :: _ => (sum (map score (take 5 vector_candidates)) / 5)%Q
    end in
  let avg_rerank_score :=
    match reranked with
    | [] => 0%Q
    | _ :: _ => (sum (map Reranker.RankedChunk.score (take 5 reranked)) / 5)%Q
    end in
  let graph_coverage :=
    Qmin (inject_Z (Z.of_nat (length facts)) / 10)%Q 1.0%Q in
  (0.3 * avg_vector_score + 0.4 * avg_rerank_score + 0.3 * graph_coverage)%Q.

(** [run_full_retrieval]; [session_id] is not read. *)
Definition run_full_retrieval (svc : Services) (query session_id : string)
  : Result RetrievalResult :=
  intent ← call (classify svc query);
  points ← call (search svc ("query: " ++ query) 20);
  let vector_candidates := map candidate_of_point points in
  let skip_vector := take 5 vector_candidates in
  let chunk_ids := map chunk_id (take 10 vector_candidates) in
  session ← call (graph svc);
  let graph_context := Expander.expand session chunk_ids intent 2 in
  let skip_graph := take 10 (Expander.facts graph_context) in
  let reranked :=
    Reranker.rerank (relevance svc) query (map as_candidate vector_candidates) 10 in
  let skip_rerank := take 5 reranked in
  let fused_evidence := fuse skip_graph skip_rerank skip_vector in
  let context := Py.join Nodes.nl2 (context_parts 1 (take 15 fused_evidence)) in
  answer ←
    call (generate svc (system_prompt intent)
            ("Context:" ++ Nodes.nl ++ context ++ Nodes.nl2 ++ "Question: " ++ query));
  let sources := map source_of (take 5 reranked) in
  let confidence :=
    overall_confidence vector_candidates reranked (Expander.facts graph_context) in
  Ok (mkRetrievalResult answer sources intent confidence
        (map Expander.fact (take 10 (Expander.facts graph_context)))).

(** The pipeline as the session memory wraps it. *)
Definition for_session (svc : Services) (query session_id : string)
  : option Session.RetrievalResult :=
  match run_full_retrieval svc query session_id with
  | Ok result => Some (Session.mkRetrievalResult (answer result) (intent result))
  | Raise _ => None
  end.

End Pipeline.

(* ===================================================================== *)
(** * Specification-side notions *)
(* ===================================================================== *)

Module Spec.

(** Descending order of a key. *)
Definition descending {A} (key : A -> Q) (a b : A) : Prop := (key b <= key a)%Q.

(** The elements whose key equals [q], in list order. *)
Definition with_key {A} (key : A -> Q) (q : Q) (l : list A) : list A :=
  List.filter (fun a => Qeq_bool (key a) q) l.

(** [out] is [l] sorted by descending key, elements of equal key keeping
    their relative order. *)
Definition stable_descending_sort {A} (key : A -> Q) (l out : list A) : Prop :=
  Permutation out l
  /\ StronglySorted (descending key) out
  /\ forall q, with_key key q out = with_key key q l.

(** The elements of [l] that are the first with their key, in list order:
    the head, then the first occurrences of the tail with another key. *)
Fixpoint first_occurrences {A} (key : A -> string) (l : list A) : list A :=
  match l with
  | [] => []
  | x :: rest =>
      x :: List.filter (fun y => negb (String.eqb (key y) (key x)))
                       (first_occurrences key rest)
  end.

(** The first element of [l] whose key is [k]. *)
Definition first_with {A} (key : A -> string) (k : string) (l : list A) : option A :=
  List.find (fun a => String.eqb (key a) k) l.



(** The deduplication key of a passage, a graph fact and a fused entry. *)
Definition passage_hash (env : Env.t) (x : VectorSearchResult.t) : string :=
  Nodes.content_hash env (VectorSearchResult.content x).
Definition fact_hash (env : Env.t) (f : GraphFact.t) : string :=
  Nodes.content_hash env (GraphFact.fact f).
Definition entry_hash (env : Env.t) (e : FusedItem.t) : string :=
  Nodes.content_hash env (FusedItem.content e).

End Spec.

(* ===================================================================== *)
(** * Concrete inputs *)
(* ===================================================================== *)

Module Examples.

(** Two passages of two documents. *)
Definition seal : VectorSearchResult.t :=
  VectorSearchResult.mk "c1" "D1" "Check the valve seal." 0.9%Q Metadata.empty.
Definition gasket : VectorSearchResult.t :=
  VectorSearchResult.mk "c2" "D2" "Replace the gasket." 0.8%Q Metadata.empty.

(** The MD5 digests of the passages used below. *)
Definition md5_table : list (string * string) :=
  [ ("Check the valve seal.", "82776c9c2e9b69efa6d406c8469fcb9c");
    ("Replace the gasket.", "c4dc11efe79362a9af55d378abf9e729");
    ("Torque the bolts to 40 Nm.", "384a36aa895f3bf42c7b36eb40a626ab");
    ("Apply lockout before opening valve V-201.",
     "6cd55c6ab35ff23cebe30a687898ce24") ].

(** Gateways that always answer: the vector store returns [results], no
    entity is extracted, the graph is empty, the language model answers
    every completion. *)
Definition env_with (results : list VectorSearchResult.t) : Env.t :=
  Env.mk (fun _ => [])
         (fun _ _ _ => Some results)
         (fun _ _ => Some [])
         (fun _ => Some None)
         (fun _ _ _ _ => Some [])
         (fun _ => true)
         (fun _ _ _ => Some "Checked.")
         (fun content => Py.table_get md5_table content "").

Definition env : Env.t := env_with [seal; gasket].

Definition question : string := "how to check the valve".

Definition torque : VectorSearchResult.t :=
  VectorSearchResult.mk "c3" "D1" "Torque the bolts to 40 Nm." 0.7%Q Metadata.empty.
Definition lockout : VectorSearchResult.t :=
  VectorSearchResult.mk "c4" "D3" "Apply lockout before opening valve V-201."
                        0.6%Q Metadata.empty.

Definition initial : RetrievalState.t :=
  RetrievalState.init question "anonymous" "session-1" ClassificationLevel.INTERNAL.

(** The state in which answer synthesis is first reached. *)
Definition fused : RetrievalState.t :=
  match Graph.down_path env initial with
  | Ok state => Nodes.skip_fusion_node env state
  | Raise _ => initial
  end.

End Examples.

Module ResolverExamples.

(** The dot product, which is the cosine similarity of unit vectors. *)
Fixpoint dot (a b : Embedding) : Q :=
  match a, b with
  | x :: a', y :: b' => (x * y + dot a' b')%Q
  | _, _ => 0%Q
  end.

Definition unit_x : Embedding := [1%Q; 0%Q].

(** The labels the candidate queries admit. *)
Definition cypher_labels : list string :=
  [ "Asset"; "Component"; "FailureMode"; "Symptom"; "Procedure"; "Tool";
    "Material"; "SafetyRule"; "Term"; "Standard"; "Location"; "Manufacturer" ].

(** A graph holding one asset, P-101, stored with the embedding of its
    canonical name. *)
Definition pump : Resolver.Row :=
  Resolver.mkRow "asset-1" "P-101" "Asset" (Some unit_x).

Definition svc : Resolver.Services :=
  Resolver.mkServices
    (fun _ => unit_x)
    dot
    (fun name => Some (if String.eqb name "P-101" then [pump] else []))
    (fun _ _ => Some [])
    (fun n => "uuid-" ++ Py.str_of_nat n).

Definition mention : ExtractedEntity.t :=
  ExtractedEntity.mk "p-101" EntityType.ASSET 0.9%Q "" None.

End ResolverExamples.

Module ExpanderExamples.

(** Three chunks, each mentioning one pump with ten components. *)
Definition pump_of (chunk_id : string) : NodeProps.t :=
  NodeProps.mk (Some ("pump " ++ chunk_id)) (Some ("P-" ++ chunk_id)).

Definition components : list Expander.Connection :=
  map (fun n => Expander.mkConnection "HAS_COMPONENT" "Component"
                  (Some ("K-" ++ Py.str_of_nat n))
                  (Some ("part " ++ Py.str_of_nat n)))
      (seq 0 10).

Definition session : Expander.Session :=
  Expander.mkSession
    (fun chunk_id => Some [Expander.mkEntityRecord (pump_of chunk_id) ["Asset"]])
    (fun _ => Some [])
    (fun _ _ => Some components).

Definition seeds : list string := ["1"; "2"; "3"].

End ExpanderExamples.

(* ===================================================================== *)
(** * Shapes of strings *)
(* ===================================================================== *)

Module Shape.

(** Every character of [s] satisfies [p]. *)
Fixpoint all_chars (p : ascii -> bool) (s : string) : bool :=
  match s with
  | EmptyString => true
  | String c s' => p c && all_chars p s'
  end.

Definition not_upper (c : ascii) : bool := negb (Py.is_upper c).
Definition not_space (c : ascii) : bool := negb (Py.is_space c).

(** The characters of a canonical entity name: [\w], the space and the
    hyphen. *)
Definition name_char (c : ascii) : bool :=
  Py.is_word c || Ascii.eqb c " " || Ascii.eqb c "-".

(** A token as [str.split] produces it: not empty, no whitespace. *)
Definition is_token (s : string) : bool :=
  negb (Py.is_empty s) && all_chars not_space s.

End Shape.

(* ===================================================================== *)
(** * Further concrete inputs *)
(* ===================================================================== *)

Module FallbackExamples.

(** A language model that fails on structured output; the vector store
    returns one passage naming the valve V-201. *)
Definition env : Env.t :=
  Env.mk (fun _ => [])
         (fun _ _ _ => Some [Examples.lockout])
         (fun _ _ => None)
         (fun _ => Some None)
         (fun _ _ _ _ => Some [])
         (fun _ => true)
         (fun _ _ _ => Some "Checked.")
         (fun content => Py.table_get Examples.md5_table content "").

(** The state in which entity extraction runs for a query naming P-101. *)
Definition state : RetrievalState.t :=
  RetrievalState.set_vector_candidates [Examples.lockout]
    (RetrievalState.init "Check pump P-101 before start" "anonymous" "session-1"
                         ClassificationLevel.INTERNAL).

End FallbackExamples.

Module BoundedExamples.

(** The services of [ResolverExamples], with a similarity that never
    exceeds 1. *)
Definition svc : Resolver.Services :=
  Resolver.mkServices
    (fun _ => ResolverExamples.unit_x)
    (fun a b => Qmin (ResolverExamples.dot a b) 1)
    (fun name => Some (if String.eqb name "P-101" then [ResolverExamples.pump] else []))
    (fun _ _ => Some [])
    (fun n => "uuid-" ++ Py.str_of_nat n).

End BoundedExamples.

Module PipelineExamples.

(** Two points, the second with its text under the [content] key; a
    relevance model that is down; the graph of [ExpanderExamples]. *)
Definition points : list Pipeline.Point :=
  [ Pipeline.mkPoint (Some "1") (Some "Check the valve seal.") None (Some 0.9%Q)
                     (Some "D1") None;
    Pipeline.mkPoint (Some "2") None (Some "Replace the gasket.") (Some 0.8%Q)
                     None (Some "D2") ].

Definition svc : Pipeline.Services :=
  Pipeline.mkServices
    (fun _ => Some "procedure")
    (fun _ _ => Some points)
    (Some ExpanderExamples.session)
    (fun _ _ _ => None)
    (fun _ _ => Some "Checked.").

Definition candidates : list Pipeline.VectorCandidate :=
  map Pipeline.candidate_of_point points.

Definition reranked : list Reranker.RankedChunk.t :=
  Reranker.rerank (Pipeline.relevance svc) "how to check the valve seal"
                  (map Pipeline.as_candidate candidates) 10.

End PipelineExamples.

(* ===================================================================== *)
(** * Facts about the primitives *)
(* ===================================================================== *)

Section SortFacts.
Context {A : Type} (key : A -> Q).

Lemma insert_desc_perm (x : A) (l : list A) :
  Permutation (insert_desc key x l) (x :: l).
Proof.
  induction l as [|y l IH]; simpl; [reflexivity|].
  destruct (Qle_bool (key y) (key x)); [reflexivity|].
  rewrite IH. apply perm_swap.
Qed.

Lemma sort_desc_perm (l : list A) : Permutation (sort_desc key l) l.
Proof.
  induction l as [|x l IH]; simpl; [reflexivity|].
  unfold sort_desc in *. simpl. rewrite insert_desc_perm. now rewrite IH.
Qed.

Lemma insert_desc_sorted (x : A) (l : list A) :
  StronglySorted (Spec.descending key) l ->
  StronglySorted (Spec.descending key) (insert_desc key x l).
Proof.
  induction 1 as [|y l Hs IH Hall]; simpl.
  - repeat constructor.
  - destruct (Qle_bool (key y) (key x)) eqn:E.
    + apply Qle_bool_iff in E.
      constructor; [now constructor|].
      constructor; [exact E|].
      eapply Forall_impl; [exact Hall|].
      intros z Hz. unfold Spec.descending in *. now apply Qle_trans with (key y).
    + constructor; [exact IH|].
      assert (Hlt : (key x < key y)%Q).
      { apply Qnot_le_lt. intros H. apply Qle_bool_iff in H. congruence. }
      rewrite (insert_desc_perm x l).
      constructor; [|exact Hall].
      unfold Spec.descending. now apply Qlt_le_weak.
Qed.

Lemma sort_desc_sorted (l : list A) :
  StronglySorted (Spec.descending key) (sort_desc key l).
Proof.
  induction l as [|x l IH]; [constructor|].
  unfold sort_desc in *. simpl. now apply insert_desc_sorted.
Qed.

Lemma insert_desc_with_key (q : Q) (x : A) (l : list A) :
  Spec.with_key key q (insert_desc key x l) = Spec.with_key key q (x :: l).
Proof.
  unfold Spec.with_key.
  induction l as [|y l IH]; simpl; [reflexivity|].
  destruct (Qle_bool (key y) (key x)) eqn:E; [reflexivity|].
  simpl in *. rewrite IH.
  destruct (Qeq_bool (key x) q) eqn:Ex; [|reflexivity].
  destruct (Qeq_bool (key y) q) eqn:Ey; [|reflexivity].
  exfalso.
  apply Qeq_bool_iff in Ex. apply Qeq_bool_iff in Ey.
  assert (H : Qle_bool (key y) (key x) = true).
  { apply Qle_bool_iff. rewrite Ex, Ey. apply Qle_refl. }
  congruence.
Qed.

Lemma sort_desc_with_key (q : Q) (l : list A) :
  Spec.with_key key q (sort_desc key l) = Spec.with_key key q l.
Proof.
  induction l as [|x l IH]; [reflexivity|].
  unfold sort_desc in *. simpl. rewrite insert_desc_with_key.
  unfold Spec.with_key in *. simpl. now rewrite IH.
Qed.

Lemma sort_desc_stable (l : list A) :
  Spec.stable_descending_sort key l (sort_desc key l).
Proof.
  split; [apply sort_desc_perm|].
  split; [apply sort_desc_sorted|].
  intros q. apply sort_desc_with_key.
Qed.

End SortFacts.

Section UnseenFacts.
Context {A : Type} (key : A -> string).

Lemma filter_sublist (f : A -> bool) (l : list A) : List.filter f l `sublist_of` l.
Proof.
  induction l as [|x l IH]; simpl; [constructor|].
  destruct (f x); now constructor.
Qed.

Lemma filter_filter_and (f g : A -> bool) (l : list A) :
  List.filter f (List.filter g l) = List.filter (fun x => f x && g x) l.
Proof.
  induction l as [|x l IH]; simpl; [reflexivity|].
  destruct (g x); simpl; rewrite ?andb_true_r, ?andb_false_r.
  - destruct (f x); now rewrite IH.
  - exact IH.
Qed.

Lemma first_occurrences_sublist (l : list A) :
  Spec.first_occurrences key l `sublist_of` l.
Proof.
  induction l as [|x l IH]; simpl; [constructor|].
  constructor. etransitivity; [apply filter_sublist|exact IH].
Qed.

Lemma first_occurrences_NoDup (l : list A) :
  NoDup (map key (Spec.first_occurrences key l)).
Proof.
  induction l as [|x l IH]; simpl; [constructor|].
  constructor.
  - intros Hin. apply list_elem_of_In, in_map_iff in Hin.
    destruct Hin as (y & Hk & Hy). apply filter_In in Hy as [_ Hy].
    rewrite Hk, String.eqb_refl in Hy. discriminate.
  - eapply sublist_NoDup; [exact IH|].
    apply fmap_sublist, filter_sublist.
Qed.

Lemma first_occurrences_find (l : list A) (x : A) :
  In x (Spec.first_occurrences key l) -> Spec.first_with key (key x) l = Some x.
Proof.
  unfold Spec.first_with.
  induction l as [|y l IH]; simpl; [tauto|].
  intros [->|Hin].
  - now rewrite String.eqb_refl.
  - apply filter_In in Hin as [Hin Hne].
    apply negb_true_iff in Hne. rewrite String.eqb_sym in Hne. rewrite Hne.
    now apply IH.
Qed.

Lemma first_occurrences_keys (l : list A) (k : string) :
  In k (map key (Spec.first_occurrences key l)) <-> In k (map key l).
Proof.
  split.
  - intros Hin. apply list_elem_of_In. apply list_elem_of_In in Hin.
    eapply elem_of_sublist; [exact Hin|].
    apply fmap_sublist, first_occurrences_sublist.
  - induction l as [|y l IH]; simpl; [tauto|].
    destruct (String.eqb_spec (key y) k) as [->|Hne]; [now left|].
    intros [Heq|Hin]; [now left|]. right.
    apply IH, in_map_iff in Hin. destruct Hin as (z & <- & Hz).
    apply in_map. apply filter_In. split; [exact Hz|].
    apply negb_true_iff, String.eqb_neq. congruence.
Qed.

Lemma unseen_fst (l : list A) (seen : gset string) :
  fst (Py.unseen key l seen)
  = List.filter (fun x => negb (bool_decide (key x ∈ seen)))
                (Spec.first_occurrences key l).
Proof.
  revert seen. induction l as [|x l IH]; intros seen; simpl; [reflexivity|].
  destruct (decide (key x ∈ seen)) as [Hin|Hnin].
  - rewrite bool_decide_eq_true_2 by exact Hin. simpl.
    rewrite IH, filter_filter_and. apply filter_ext_in. intros y _.
    destruct (bool_decide (key y ∈ seen)) eqn:E; simpl; [reflexivity|].
    apply bool_decide_eq_false in E.
    symmetry. apply negb_true_iff, String.eqb_neq. congruence.
  - rewrite bool_decide_eq_false_2 by exact Hnin. simpl.
    specialize (IH ({[key x]} ∪ seen)).
    destruct (Py.unseen key l ({[key x]} ∪ seen)) as [out seen'] eqn:E.
    simpl in *. rewrite IH, filter_filter_and. f_equal.
    apply filter_ext_in. intros y _.
    destruct (String.eqb_spec (key y) (key x)) as [Heq|Hne]; simpl.
    + rewrite andb_false_r. apply negb_false_iff, bool_decide_eq_true.
      rewrite Heq. set_solver.
    + rewrite andb_true_r. f_equal. apply bool_decide_ext. set_solver.
Qed.

Lemma unseen_snd (l : list A) (seen : gset string) :
  snd (Py.unseen key l seen) = list_to_set (map key l) ∪ seen.
Proof.
  revert seen. induction l as [|x l IH]; intros seen; simpl; [set_solver|].
  destruct (decide (key x ∈ seen)) as [Hin|Hnin].
  - rewrite IH. set_solver.
  - specialize (IH ({[key x]} ∪ seen)).
    destruct (Py.unseen key l ({[key x]} ∪ seen)) as [out seen'] eqn:E.
    simpl in *. rewrite IH. set_solver.
Qed.

Lemma unseen_empty (l : list A) :
  fst (Py.unseen key l ∅) = Spec.first_occurrences key l.
Proof.
  rewrite unseen_fst.
  rewrite <- (filter_ext_in (fun _ => true)).
  - induction (Spec.first_occurrences key l) as [|x k IH]; simpl; congruence.
  - intros a _. symmetry. apply negb_true_iff, bool_decide_eq_false. set_solver.
Qed.

End UnseenFacts.

(* ===================================================================== *)
(** * Hybrid reranking *)
(* ===================================================================== *)







(* ===================================================================== *)
(** * Evidence assembly *)
(* ===================================================================== *)

Lemma build_citations_first_occurrences (passages : list VectorSearchResult.t) :
  Nodes.build_citations passages
  = map Nodes.citation_of
        (Spec.first_occurrences VectorSearchResult.doc_id passages).
Proof. unfold Nodes.build_citations. now rewrite unseen_empty. Qed.

Lemma citation_doc_ids (l : list VectorSearchResult.t) :
  map Citation.doc_id (map Nodes.citation_of l) = map VectorSearchResult.doc_id l.
Proof. induction l; simpl; congruence. Qed.

(** C7.  The evidence pack built by evidence assembly cites each document
    at most once; the citations follow the reranked passages in first-seen
    order (they are the citations of the passages that are the first with
    their document id, in passage order, and every document is cited); and
    the excerpt of a citation is the content of that first passage, cut to
    200 characters with the ellipsis marker appended exactly when the
    content is longer than 200 characters. *)
Theorem citations_one_per_document_first_seen (state : RetrievalState.t) :
  let passages := RetrievalState.reranked_evidence state in
  exists pack,
    RetrievalState.evidence_pack (Nodes.evidence_assembler_node state) = Some pack
    /\ EvidencePack.passages pack = passages
    /\ NoDup (map Citation.doc_id (EvidencePack.citations pack))
    /\ map Citation.doc_id (EvidencePack.citations pack)
       = map VectorSearchResult.doc_id
             (Spec.first_occurrences VectorSearchResult.doc_id passages)
    /\ map Citation.doc_id (EvidencePack.citations pack)
         `sublist_of` map VectorSearchResult.doc_id passages
    /\ (forall d, In d (map VectorSearchResult.doc_id passages)
                  <-> In d (map Citation.doc_id (EvidencePack.citations pack)))
    /\ (forall c, In c (EvidencePack.citations pack) ->
          exists p,
            Spec.first_with VectorSearchResult.doc_id (Citation.doc_id c) passages
            = Some p
            /\ Citation.doc_id c = VectorSearchResult.doc_id p
            /\ Citation.relevance_score c = VectorSearchResult.score p
            /\ (Py.len (VectorSearchResult.content p) <= 200 ->
                Citation.excerpt c = VectorSearchResult.content p)
            /\ (200 < Py.len (VectorSearchResult.content p) ->
                Citation.excerpt c
                = Py.take 200 (VectorSearchResult.content p) ++ "...")).
Proof.
  intros passages. eexists. split; [reflexivity|].
  cbn [Nodes.assemble EvidencePack.passages EvidencePack.citations].
  fold passages. rewrite build_citations_first_occurrences, citation_doc_ids.
  split; [reflexivity|].
  split; [apply first_occurrences_NoDup|].
  split; [reflexivity|].
  split; [apply fmap_sublist, first_occurrences_sublist|].
  split; [intros d; symmetry; apply first_occurrences_keys|].
  intros c Hc. apply in_map_iff in Hc as (p & <- & Hp).
  exists p. split; [exact (first_occurrences_find VectorSearchResult.doc_id passages p Hp)|].
  split; [reflexivity|]. split; [reflexivity|].
  cbn [Nodes.citation_of Citation.excerpt]. unfold Nodes.excerpt_of, Nodes.ellipsis.
  split; intros Hlen.
  - destruct (Nat.ltb_spec 200 (Py.len (VectorSearchResult.content p))); [lia|reflexivity].
  - destruct (Nat.ltb_spec 200 (Py.len (VectorSearchResult.content p))); [reflexivity|lia].
Qed.

(* ===================================================================== *)
(** * Substring tests *)
(* ===================================================================== *)

Lemma startswith_spec (p s : string) :
  Py.startswith p s = true <-> exists post, s = p ++ post.
Proof.
  revert s. induction p as [|a p IH]; intros s; simpl.
  - split; [intros _; now exists s|reflexivity].
  - destruct s as [|b s]; simpl.
    + split; [discriminate|intros [post H]; discriminate].
    + rewrite andb_true_iff, IH, Ascii.eqb_eq. split.
      * intros [-> [post ->]]. now exists post.
      * intros [post H]. injection H as -> ->. split; [reflexivity|now exists post].
Qed.

Lemma contains_spec (needle hay : string) :
  Py.contains needle hay = true <-> exists pre post, hay = pre ++ needle ++ post.
Proof.
  induction hay as [|c hay IH]; simpl.
  - rewrite orb_false_r, startswith_spec. split.
    + intros [post H]. now exists "", post.
    + intros (pre & post & H). destruct pre; simpl in H; [now exists post|discriminate].
  - rewrite orb_true_iff, startswith_spec, IH. split.
    + intros [[post H]|(pre & post & H)].
      * now exists "", post.
      * exists (String c pre), post. simpl. now rewrite H.
    + intros (pre & post & H). destruct pre as [|c' pre]; simpl in H.
      * left. now exists post.
      * right. injection H as -> ->. now exists pre, post.
Qed.

Lemma any_in_spec (patterns : list string) (text : string) :
  Py.any_in patterns text = true
  <-> exists kw pre post, In kw patterns /\ text = pre ++ kw ++ post.
Proof.
  unfold Py.any_in. rewrite existsb_exists. split.
  - intros (kw & Hin & H). apply contains_spec in H as (pre & post & H).
    now exists kw, pre, post.
  - intros (kw & pre & post & Hin & H). exists kw. split; [exact Hin|].
    apply contains_spec. now exists pre, post.
Qed.

(* ===================================================================== *)
(** * Routing *)
(* ===================================================================== *)

Lemma is_nil_true {A} (l : list A) : Graph.is_nil l = true <-> l = [].
Proof. destruct l; simpl; split; congruence. Qed.

(** C3.  The sufficiency gate returns the first that applies of:
    (1) no evidence pack: [insufficient];
    (2) a safety rule is present and the raw query, lowercased as the check
        does, contains one of bypass, override, shortcut, skip, disable:
        [safety_critical];
    (3) passages plus graph facts number less than 2, or there is no
        citation: [insufficient];
    (4) otherwise: [sufficient]. *)
Theorem sufficiency_gate_first_applicable (state : RetrievalState.t) :
  let asks_to_bypass :=
    exists kw pre post,
      In kw ["bypass"; "override"; "shortcut"; "skip"; "disable"]
      /\ Py.lower (RetrievalState.query state) = pre ++ kw ++ post in
  (RetrievalState.evidence_pack state = None ->
   Graph.evidence_sufficiency_check state = Graph.insufficient)
  /\ forall evidence,
       RetrievalState.evidence_pack state = Some evidence ->
       let safety := EvidencePack.safety_rules evidence <> [] /\ asks_to_bypass in
       let short :=
         length (EvidencePack.passages evidence)
         + length (EvidencePack.graph_facts evidence) < 2
         \/ EvidencePack.citations evidence = [] in
       (safety -> Graph.evidence_sufficiency_check state = Graph.safety_critical)
       /\ (~ safety -> short ->
           Graph.evidence_sufficiency_check state = Graph.insufficient)
       /\ (~ safety -> ~ short ->
           Graph.evidence_sufficiency_check state = Graph.sufficient).
Proof.
  intros asks.
  split; [unfold Graph.evidence_sufficiency_check; intros ->; reflexivity|].
  intros evidence Hpack safety short.
  unfold Graph.evidence_sufficiency_check. rewrite Hpack.
  assert (Hs : negb (Graph.is_nil (EvidencePack.safety_rules evidence))
               && Py.any_in Graph.bypass_keywords
                            (Py.lower (RetrievalState.query state)) = true
               <-> safety).
  { rewrite andb_true_iff, negb_true_iff, any_in_spec.
    unfold safety, asks, Graph.bypass_keywords.
    rewrite <- not_true_iff_false, is_nil_true. tauto. }
  assert (Hshort : short <->
            (length (EvidencePack.passages evidence)
             + length (EvidencePack.graph_facts evidence) <? 2)%nat = true
            \/ Graph.is_nil (EvidencePack.citations evidence) = true).
  { unfold short. now rewrite Nat.ltb_lt, is_nil_true. }
  destruct (negb _ && _) eqn:E.
  - split; [reflexivity|]. split; intros Hn; exfalso; apply Hn, Hs; reflexivity.
  - assert (Hns : ~ safety) by (rewrite <- Hs; discriminate).
    split; [tauto|].
    destruct (_ <? 2)%nat eqn:E1.
    + split; [reflexivity|]. intros _ Hn. exfalso. apply Hn, Hshort. now left.
    + destruct (Graph.is_nil (EvidencePack.citations evidence)) eqn:E2.
      * split; [reflexivity|]. intros _ Hn. exfalso. apply Hn, Hshort. now right.
      * split; [|reflexivity]. intros _ Hsh. apply Hshort in Hsh as [?|?]; discriminate.
Qed.

(* ===================================================================== *)
(** * Running the retrieval graph *)
(* ===================================================================== *)

Section RunFacts.
Context (env : Env.t).

Lemma run_from_END (fuel calls : nat) (s : RetrievalState.t) (tr : list Node.t) :
  Graph.run_from env fuel Node.END calls s tr = Graph.Finished tr s.
Proof. destruct fuel; reflexivity. Qed.

Lemma run_from_step (fuel calls calls' : nat) (n : Node.t)
    (s s' : RetrievalState.t) (tr : list Node.t) :
  n <> Node.END ->
  Graph.run_node env n calls s = Ok (s', calls') ->
  Graph.run_from env (S fuel) n calls s tr
  = Graph.run_from env fuel (Graph.next_node n s') calls' s' (tr ++ [n]).
Proof.
  intros Hn Hrun. destruct n; try congruence; cbn [Graph.run_from]; now rewrite Hrun.
Qed.

Lemma run_from_raise (fuel calls : nat) (n : Node.t) (e : Exn)
    (s : RetrievalState.t) (tr : list Node.t) :
  n <> Node.END ->
  Graph.run_node env n calls s = Raise e ->
  Graph.run_from env (S fuel) n calls s tr = Graph.Failed (tr ++ [n]) e.
Proof.
  intros Hn Hrun. destruct n; try congruence; cbn [Graph.run_from]; now rewrite Hrun.
Qed.

(** More fuel continues a run from where it stood. *)
Lemma run_from_add (a b : nat) :
  forall n calls s tr tr' n' calls' s',
    Graph.run_from env a n calls s tr = Graph.Running tr' n' calls' s' ->
    Graph.run_from env (a + b) n calls s tr = Graph.run_from env b n' calls' s' tr'.
Proof.
  induction a as [|a IH]; intros n calls s tr tr' n' calls' s' H.
  - destruct n; simpl in H; try discriminate; now injection H as <- <- <- <-.
  - destruct (Node.eqb n Node.END) eqn:En.
    + destruct n; discriminate.
    + assert (Hn : n <> Node.END) by (intros ->; discriminate).
      destruct (Graph.run_node env n calls s) as [[s1 c1]|e] eqn:Hrun.
      * rewrite (run_from_step _ _ _ _ _ _ _ Hn Hrun) in H.
        change (S a + b) with (S (a + b)).
        rewrite (run_from_step _ _ _ _ _ _ _ Hn Hrun). now apply IH.
      * rewrite (run_from_raise _ _ _ _ _ _ Hn Hrun) in H. discriminate.
Qed.

(** A completed synthesis round takes three node executions. *)
Lemma run_round (fuel calls : nat) (s s3 : RetrievalState.t) (tr : list Node.t) :
  Graph.synthesis_round env calls s = Ok s3 ->
  Graph.run_from env (3 + fuel) Node.answer_synthesizer calls s tr
  = Graph.run_from env fuel (Graph.next_node Node.guardrails s3) (S calls) s3
      (tr ++ Graph.round_trace).
Proof.
  unfold Graph.synthesis_round. intros H.
  destruct (Nodes.answer_synthesizer_node env calls s) as [s1|e] eqn:H1;
    [|discriminate].
  cbn in H.
  rewrite (run_from_step (2 + fuel) calls (S calls) Node.answer_synthesizer s s1);
    [|discriminate|cbn; now rewrite H1].
  rewrite (run_from_step (1 + fuel) (S calls) (S calls) Node.citation_generator
             s1 (Nodes.citation_generator_node s1)); [|discriminate|reflexivity].
  rewrite (run_from_step fuel (S calls) (S calls) Node.guardrails
             (Nodes.citation_generator_node s1) s3);
    [|discriminate|cbn; now rewrite H].
  cbn [Graph.next_node]. now rewrite <- !app_assoc.
Qed.

(** What a synthesis round reads and what it leaves. *)
Lemma round_leaves (calls : nat) (s s3 : RetrievalState.t) :
  Graph.synthesis_round env calls s = Ok s3 ->
  RetrievalState.fused_evidence s3 = RetrievalState.fused_evidence s
  /\ RetrievalState.evidence_pack s3 = RetrievalState.evidence_pack s
  /\ RetrievalState.safety_escalation s3 = RetrievalState.safety_escalation s
  /\ RetrievalState.intent s3 = RetrievalState.intent s
  /\ RetrievalState.query s3 = RetrievalState.query s
  /\ RetrievalState.confidence s3
     = Nodes.estimate_confidence (RetrievalState.fused_evidence s)
  /\ RetrievalState.citations s3
     = match RetrievalState.evidence_pack s with
       | Some pack => EvidencePack.citations pack
       | None => []
       end.
Proof.
  unfold Graph.synthesis_round, Nodes.answer_synthesizer_node. intros H.
  destruct (Nodes.evidence_block 1 _) as [text|e]; [|discriminate]. cbn in H.
  destruct (Env.chat_completion env calls _ _) as [response|]; [|discriminate].
  cbn in H. unfold Nodes.guardrails_node in H. cbn in H.
  destruct (RetrievalState.evidence_pack s) as [pack|] eqn:Hp.
  - destruct (EvidencePack.safety_rules pack); [|discriminate].
    injection H as <-. cbn. now rewrite Hp.
  - injection H as <-. cbn. now rewrite Hp.
Qed.

Lemma guardrail_check_reads (s s' : RetrievalState.t) :
  RetrievalState.safety_escalation s' = RetrievalState.safety_escalation s ->
  RetrievalState.confidence s' = RetrievalState.confidence s ->
  RetrievalState.citations s' = RetrievalState.citations s ->
  Graph.guardrail_check s' = Graph.guardrail_check s.
Proof. unfold Graph.guardrail_check. now intros -> -> ->. Qed.

(** The language model answers every completion. *)
Hypothesis llm_answers :
  forall calls system user, Env.chat_completion env calls system user <> None.

(** After a completed round, every later round completes as well and the
    guardrail check decides as before. *)
Lemma round_again (calls calls' : nat) (s s3 : RetrievalState.t) :
  Graph.synthesis_round env calls s = Ok s3 ->
  exists s3',
    Graph.synthesis_round env calls' s3 = Ok s3'
    /\ Graph.guardrail_check s3' = Graph.guardrail_check s3.
Proof.
  intros H. pose proof (round_leaves _ _ _ H) as (Hf & Hp & He & Hi & Hq & Hc & Hcit).
  assert (Hround : exists s3', Graph.synthesis_round env calls' s3 = Ok s3').
  { revert H. unfold Graph.synthesis_round, Nodes.answer_synthesizer_node.
    rewrite Hf, Hi, Hq.
    destruct (Nodes.evidence_block 1 _) as [text|e]; [|discriminate]. cbn.
    destruct (Env.chat_completion env calls _ _) as [response|]; [|discriminate].
    destruct (Env.chat_completion env calls' _ _) as [response'|] eqn:E;
      [|now apply llm_answers in E].
    cbn. unfold Nodes.guardrails_node. cbn. rewrite Hp.
    destruct (RetrievalState.evidence_pack s) as [pack|].
    - destruct (EvidencePack.safety_rules pack); [|discriminate]. eauto.
    - eauto. }
  destruct Hround as [s3' H']. exists s3'. split; [exact H'|].
  pose proof (round_leaves _ _ _ H') as (Hf' & Hp' & He' & _ & _ & Hc' & Hcit').
  apply guardrail_check_reads.
  - congruence.
  - now rewrite Hc', Hf, Hc.
  - now rewrite Hcit', Hp, Hcit.
Qed.

Lemma retry_rounds (k : nat) :
  forall calls s s3 tr,
    Graph.synthesis_round env calls s = Ok s3 ->
    Graph.guardrail_check s3 = Graph.retry ->
    exists s' s3',
      Graph.run_from env (3 * k) Node.answer_synthesizer calls s tr
      = Graph.Running (tr ++ concat (replicate k Graph.round_trace))
                      Node.answer_synthesizer (k + calls) s'
      /\ Graph.synthesis_round env (k + calls) s' = Ok s3'
      /\ Graph.guardrail_check s3' = Graph.retry.
Proof.
  induction k as [|k IH]; intros calls s s3 tr H Hretry.
  - exists s, s3. cbn. now rewrite app_nil_r.
  - replace (3 * S k) with (3 + 3 * k) by lia.
    rewrite (run_round _ _ _ _ _ H). cbn [Graph.next_node]. rewrite Hretry.
    destruct (round_again calls (S calls) s s3 H) as (s4 & H4 & Hg).
    rewrite Hretry in Hg.
    destruct (IH (S calls) s3 s4 (tr ++ Graph.round_trace)%list H4 Hg) as (s' & s3' & Hr & Hs & Hc).
    exists s', s3'. replace (S k + calls) with (k + S calls) by lia.
    split; [|now split]. rewrite Hr. f_equal. cbn [replicate concat].
    now rewrite <- app_assoc.
Qed.

(** When the first guardrail check says retry, no amount of fuel ends the
    run. *)
Lemma retry_never_returns (calls : nat) (s s3 : RetrievalState.t) (tr : list Node.t) :
  Graph.synthesis_round env calls s = Ok s3 ->
  Graph.guardrail_check s3 = Graph.retry ->
  forall fuel, exists tr' n' calls' s',
    Graph.run_from env fuel Node.answer_synthesizer calls s tr
    = Graph.Running tr' n' calls' s'.
Proof.
  intros H Hretry fuel.
  pose proof (Nat.div_mod_eq fuel 3) as Hfuel.
  assert (Hlt : fuel mod 3 < 3) by (apply Nat.mod_upper_bound; lia).
  set (q := fuel / 3) in *. set (r := fuel mod 3) in *. clearbody q r. subst fuel.
  destruct (retry_rounds q calls s s3 tr H Hretry) as (s' & s3' & Hr & Hs & _).
  rewrite (run_from_add _ r _ _ _ _ _ _ _ _ Hr).
  unfold Graph.synthesis_round in Hs.
  destruct (Nodes.answer_synthesizer_node env (q + calls) s') as [s1|] eqn:H1;
    [|discriminate].
  destruct r as [|[|[|r]]]; [| | |lia].
  - cbn. eauto.
  - cbn. rewrite H1. cbn. eauto.
  - cbn. rewrite H1. cbn. eauto.
Qed.




End RunFacts.

(* ===================================================================== *)
(** * The retry edge *)
(* ===================================================================== *)

Lemma Qlt_bool_iff (a b : Q) : Graph.Qlt_bool a b = true <-> (a < b)%Q.
Proof.
  unfold Graph.Qlt_bool. rewrite negb_true_iff, <- not_true_iff_false, Qle_bool_iff.
  split; [apply Qnot_le_lt|apply Qlt_not_le].
Qed.



Lemma example_round :
  exists s3,
    Graph.synthesis_round Examples.env 0 Examples.fused = Ok s3
    /\ Graph.guardrail_check s3 = Graph.retry.
Proof. eexists. split; vm_compute; reflexivity. Qed.

Lemma example_reaches_synthesis :
  Graph.run_from Examples.env 8 Node.query_normalizer 0 Examples.initial []
  = Graph.Running (Graph.down_trace ++ [Node.skip_fusion])%list
                  Node.answer_synthesizer 0 Examples.fused.
Proof. vm_compute. reflexivity. Qed.

Lemma example_llm_answers :
  forall k system user, Env.chat_completion Examples.env k system user <> None.
Proof. intros k system user. discriminate. Qed.





(* ===================================================================== *)
(** * Terminal outcomes *)
(* ===================================================================== *)

Lemma Node_eqb_eq (a b : Node.t) : Node.eqb a b = true <-> a = b.
Proof. destruct a, b; simpl; split; congruence. Qed.

Lemma last_snoc {A} (l : list A) (x : A) :
  List.last (map Some (l ++ [x])%list) None = Some x.
Proof. rewrite map_app. simpl. apply last_last. Qed.

Section TerminalFacts.
Context (env : Env.t).

(** Only the safety-escalation node writes [safety_escalation]. *)
Lemma node_keeps_escalation (n : Node.t) (calls calls' : nat) (s s' : RetrievalState.t) :
  n <> Node.safety_escalation ->
  Graph.run_node env n calls s = Ok (s', calls') ->
  RetrievalState.safety_escalation s' = RetrievalState.safety_escalation s.
Proof.
  intros Hn H. destruct n; try congruence; cbn in H;
    try (injection H as <- <-; reflexivity).
  - unfold Nodes.vector_recall_node in H.
    destruct (Env.search env _ _ _); cbn in H; [|discriminate].
    injection H as <- <-. reflexivity.
  - unfold Nodes.answer_synthesizer_node in H.
    destruct (Nodes.evidence_block 1 _); cbn in H; [|discriminate].
    destruct (Env.chat_completion env calls _ _); cbn in H; [|discriminate].
    injection H as <- <-. reflexivity.
  - unfold Nodes.guardrails_node in H.
    destruct (RetrievalState.evidence_pack s) as [pack|].
    + destruct (EvidencePack.safety_rules pack); cbn in H; [|discriminate].
      injection H as <- <-. reflexivity.
    + cbn in H. injection H as <- <-. reflexivity.
Qed.

(** A run that returns has ended in one of three ways. *)
Lemma finished_run_classified (fuel : nat) :
  forall n calls s tr trace final,
    n <> Node.END ->
    RetrievalState.safety_escalation s = None ->
    Graph.run_from env fuel n calls s tr = Graph.Finished trace final ->
    (exists pre,
        trace = (pre ++ [Node.guardrails])%list
        /\ Graph.guardrail_check final = Graph.pass)
    \/ (exists pre s',
           trace = (pre ++ [Node.insufficient_evidence])%list
           /\ final = Graph.insufficient_evidence_node s'
           /\ RetrievalState.safety_escalation s' = None)
    \/ (exists pre s',
           trace = (pre ++ [Node.safety_escalation])%list
           /\ final = Graph.safety_escalation_node s').
Proof.
  induction fuel as [|fuel IH]; intros n calls s tr trace final Hn Hesc H.
  - destruct n; try discriminate; congruence.
  - destruct (Graph.run_node env n calls s) as [[s1 c1]|e] eqn:Hrun.
    2: { rewrite (run_from_raise _ _ _ _ _ _ _ Hn Hrun) in H. discriminate. }
    rewrite (run_from_step _ _ _ _ _ _ _ _ Hn Hrun) in H.
    destruct (Node.eqb (Graph.next_node n s1) Node.END) eqn:Hnext.
    + apply Node_eqb_eq in Hnext. rewrite Hnext, run_from_END in H.
      injection H as <- <-.
      destruct n; cbn in Hnext; try discriminate.
      * destruct (Graph.evidence_sufficiency_check s1); discriminate.
      * left. exists tr. split; [reflexivity|].
        destruct (Graph.guardrail_check s1); try discriminate. reflexivity.
      * right. left. cbn in Hrun. injection Hrun as <- <-. now exists tr, s.
      * right. right. cbn in Hrun. injection Hrun as <- <-. now exists tr, s.
      * congruence.
    + assert (Hne : Graph.next_node n s1 <> Node.END).
      { intros Heq. apply Node_eqb_eq in Heq. congruence. }
      apply (IH _ _ _ _ _ _ Hne) in H; [exact H|].
      rewrite <- Hesc. apply (node_keeps_escalation n calls c1).
      * intros ->. now cbn in Hne.
      * exact Hrun.
Qed.

(** The first seven nodes, when the vector store answers. *)
Lemma run_down_path (fuel : nat) (s s7 : RetrievalState.t) :
  Graph.down_path env s = Ok s7 ->
  Graph.run_from env (7 + fuel) Node.query_normalizer 0 s []
  = Graph.run_from env fuel (Graph.next_node Node.evidence_assembler s7) 0 s7
                   Graph.down_trace.
Proof.
  unfold Graph.down_path. intros H.
  destruct (Nodes.vector_recall_node env _) as [s3|e] eqn:H3; [|discriminate].
  cbn in H. injection H as <-.
  cbn [Nat.add].
  do 2 (erewrite run_from_step; [|discriminate|reflexivity]; cbn [Graph.next_node]).
  erewrite run_from_step; [|discriminate|cbn; rewrite H3; reflexivity].
  cbn [Graph.next_node].
  do 4 (erewrite run_from_step; [|discriminate|reflexivity]; cbn [Graph.next_node]).
  reflexivity.
Qed.

End TerminalFacts.

(** C4 (as the code has it).  A run that returns has reached exactly one of
    the three terminal outcomes, and its final state never has both a
    confidence above 0 and a safety escalation: the success outcome leaves no
    escalation, the insufficient-evidence terminal leaves the fixed fallback
    answer, no citation, confidence 0.0 and no escalation, and the
    safety-escalation terminal leaves confidence 0.0 and the populated
    escalation.  When the vector store answers and the sufficiency gate says
    insufficient or safety_critical, the run does return, through that
    terminal; when it says sufficient and the first guardrail check
    passes, it returns through the success outcome. *)
Theorem returned_run_has_one_terminal
    (env : Env.t) (query user_id session_id : string)
    (access_level : ClassificationLevel.t) :
  let run fuel :=
    Graph.run_retrieval env fuel query user_id session_id access_level in
  let initial := RetrievalState.init query user_id session_id access_level in
  (forall fuel trace final,
      run fuel = Graph.Finished trace final ->
      ~ ((0 < RetrievalState.confidence final)%Q
         /\ RetrievalState.safety_escalation final <> None)
      /\ exists t,
           Graph.terminal_of (run fuel) = Some t
           /\ match t with
              | Graph.Success =>
                  Graph.guardrail_check final = Graph.pass
                  /\ RetrievalState.safety_escalation final = None
              | Graph.InsufficientEvidence =>
                  RetrievalState.answer final = Graph.insufficient_answer
                  /\ RetrievalState.citations final = []
                  /\ (RetrievalState.confidence final == 0)%Q
                  /\ RetrievalState.safety_escalation final = None
              | Graph.SafetyEscalated =>
                  (RetrievalState.confidence final == 0)%Q
                  /\ RetrievalState.safety_escalation final = Some Graph.escalation
              end)
  /\ (forall s7,
         Graph.down_path env initial = Ok s7 ->
         match Graph.evidence_sufficiency_check s7 with
         | Graph.insufficient =>
             forall fuel,
               run (8 + fuel)
               = Graph.Finished (Graph.down_trace ++ [Node.insufficient_evidence])%list
                                (Graph.insufficient_evidence_node s7)
         | Graph.safety_critical =>
             forall fuel,
               run (8 + fuel)
               = Graph.Finished (Graph.down_trace ++ [Node.safety_escalation])%list
                                (Graph.safety_escalation_node s7)
         | Graph.sufficient =>
             forall s3,
               Graph.synthesis_round env 0 (Nodes.skip_fusion_node env s7) = Ok s3 ->
               Graph.guardrail_check s3 = Graph.pass ->
               forall fuel,
                 run (11 + fuel)
                 = Graph.Finished
                     (Graph.down_trace ++ [Node.skip_fusion] ++ Graph.round_trace)%list
                     s3
         end).
Proof.
  intros run initial. split.
  - intros fuel trace final H.
    assert (Hcases := H). unfold run, Graph.run_retrieval in Hcases.
    apply finished_run_classified in Hcases; [|discriminate|reflexivity].
    rewrite H.
    destruct Hcases as [(pre & -> & Hpass)|[(pre & s' & -> & -> & Hesc)
                                           |(pre & s' & -> & ->)]].
    + assert (Hnone : RetrievalState.safety_escalation final = None).
      { unfold Graph.guardrail_check in Hpass.
        destruct (RetrievalState.safety_escalation final); [discriminate|reflexivity]. }
      split; [intros [_ Hsome]; congruence|].
      exists Graph.Success. cbn [Graph.terminal_of]. rewrite last_snoc. now split.
    + split; [intros [_ Hsome]; now apply Hsome|].
      exists Graph.InsufficientEvidence. cbn [Graph.terminal_of]. rewrite last_snoc.
      repeat split; try reflexivity. exact Hesc.
    + split; [intros [Hpos _]; revert Hpos; cbn; unfold Qlt; cbn; lia|].
      exists Graph.SafetyEscalated. cbn [Graph.terminal_of]. rewrite last_snoc.
      repeat split; reflexivity.
  - intros s7 Hdown. unfold run, Graph.run_retrieval. fold initial.
    destruct (Graph.evidence_sufficiency_check s7) eqn:Hgate.
    + intros s3 Hround Hpass fuel. change (11 + fuel) with (7 + (1 + (3 + fuel))).
      rewrite (run_down_path env _ _ _ Hdown). cbn [Graph.next_node]. rewrite Hgate.
      erewrite run_from_step; [|discriminate|reflexivity]. cbn [Graph.next_node].
      rewrite (run_round _ _ _ _ _ _ Hround). cbn [Graph.next_node]. rewrite Hpass.
      now rewrite run_from_END, <- app_assoc.
    + intros fuel. change (8 + fuel) with (7 + (1 + fuel)).
      rewrite (run_down_path env _ _ _ Hdown). cbn [Graph.next_node]. rewrite Hgate.
      erewrite run_from_step; [|discriminate|reflexivity]. cbn [Graph.next_node].
      now rewrite run_from_END.
    + intros fuel. change (8 + fuel) with (7 + (1 + fuel)).
      rewrite (run_down_path env _ _ _ Hdown). cbn [Graph.next_node]. rewrite Hgate.
      erewrite run_from_step; [|discriminate|reflexivity]. cbn [Graph.next_node].
      now rewrite run_from_END.
Qed.

Lemma example_never_returns (fuel : nat) :
  exists tr n calls st,
    Graph.run_retrieval Examples.env fuel Examples.question
                        "anonymous" "session-1" ClassificationLevel.INTERNAL
    = Graph.Running tr n calls st.
Proof.
  unfold Graph.run_retrieval. fold Examples.initial.
  destruct (le_lt_dec 8 fuel) as [Hle|Hlt].
  - replace fuel with (8 + (fuel - 8)) by lia.
    rewrite (run_from_add _ _ _ _ _ _ _ _ _ _ _ example_reaches_synthesis).
    destruct example_round as (s3 & Hround & Hretry).
    apply (retry_never_returns Examples.env example_llm_answers 0 Examples.fused s3 _
             Hround Hretry).
  - do 8 (destruct fuel as [|fuel]; [vm_compute; eauto|]). lia.
Qed.

(** C4, as stated, fails: the run of the example reaches none of the three
    terminal outcomes, whatever the number of steps. *)
Lemma example_run_reaches_no_terminal :
  ~ exists fuel t,
      Graph.terminal_of
        (Graph.run_retrieval Examples.env fuel Examples.question
                             "anonymous" "session-1" ClassificationLevel.INTERNAL)
      = Some t.
Proof.
  intros (fuel & t & H).
  destruct (example_never_returns fuel) as (tr & n & calls & st & Hrun).
  rewrite Hrun in H. discriminate.
Qed.

(* ===================================================================== *)
(** * Skip-connection fusion *)
(* ===================================================================== *)

Section UnseenParts.
Context {A : Type} (key : A -> string).

(** What one loop keeps: the first occurrences whose key was not seen. *)
Lemma kept_keys_NoDup (l : list A) (seen : gset string) :
  NoDup (map key (fst (Py.unseen key l seen))).
Proof.
  rewrite unseen_fst.
  eapply sublist_NoDup; [apply (first_occurrences_NoDup key l)|].
  apply fmap_sublist, filter_sublist.
Qed.

Lemma kept_key_in (l : list A) (seen : gset string) (k : string) :
  In k (map key (fst (Py.unseen key l seen))) <-> In k (map key l) /\ k ∉ seen.
Proof.
  rewrite unseen_fst, <- (first_occurrences_keys key l k), !in_map_iff.
  split.
  - intros (x & <- & Hx). apply filter_In in Hx as [Hx Hns].
    apply negb_true_iff, bool_decide_eq_false in Hns. split; [|exact Hns].
    now exists x.
  - intros [(x & <- & Hx) Hns]. exists x. split; [reflexivity|].
    apply filter_In. split; [exact Hx|].
    now apply negb_true_iff, bool_decide_eq_false.
Qed.

Lemma kept_is_first (l : list A) (seen : gset string) (x : A) :
  In x (fst (Py.unseen key l seen)) -> Spec.first_with key (key x) l = Some x.
Proof.
  rewrite unseen_fst. intros Hx. apply filter_In in Hx as [Hx _].
  now apply first_occurrences_find.
Qed.


End UnseenParts.

Section FusionFacts.
Context (env : Env.t).

Local Abbreviation hv := (Spec.passage_hash env).
Local Abbreviation hg := (Spec.fact_hash env).
Local Abbreviation he := (Spec.entry_hash env).

(** The three parts of the merged list. *)
Lemma fuse_merge_parts (sv : list VectorSearchResult.t) (sg : list GraphFact.t)
    (sr : list VectorSearchResult.t) :
  let s1 : gset string := list_to_set (map hv sv) ∪ ∅ in
  let s2 : gset string := list_to_set (map hg sg) ∪ s1 in
  Nodes.fuse_merge env sv sg sr
  = (map Nodes.fused_of_vector (fst (Py.unseen hv sv ∅))
     ++ map Nodes.fused_of_graph (fst (Py.unseen hg sg s1))
     ++ map Nodes.fused_of_rerank (fst (Py.unseen hv sr s2)))%list.
Proof.
  intros s1 s2. unfold Nodes.fuse_merge, Nodes.fuse_buffer.
  change (fun item : VectorSearchResult.t =>
            Nodes.content_hash env (VectorSearchResult.content item))
    with (Spec.passage_hash env).
  change (fun item : GraphFact.t =>
            Nodes.content_hash env (GraphFact.fact item))
    with (Spec.fact_hash env).
  pose proof (unseen_snd hv sv ∅) as H1.
  destruct (Py.unseen hv sv ∅) as [kv t1]. cbn [fst snd] in *. subst t1. fold s1.
  pose proof (unseen_snd hg sg s1) as H2.
  destruct (Py.unseen hg sg s1) as [kg t2]. cbn [fst snd] in *. subst t2. fold s2.
  destruct (Py.unseen hv sr s2) as [kr t3]. reflexivity.
Qed.


Lemma in_s1 (sv : list VectorSearchResult.t) (h : string) :
  h ∈ (list_to_set (map hv sv) ∪ ∅ : gset string) <-> In h (map hv sv).
Proof. rewrite <- list_elem_of_In. set_solver. Qed.

Lemma in_s2 (sv : list VectorSearchResult.t) (sg : list GraphFact.t) (h : string) :
  h ∈ (list_to_set (map hg sg) ∪ (list_to_set (map hv sv) ∪ ∅) : gset string)
  <-> In h (map hg sg) \/ In h (map hv sv).
Proof. rewrite <- !list_elem_of_In. set_solver. Qed.



(** Where an entry of the merged list comes from. *)
Lemma fused_entry_origin (sv : list VectorSearchResult.t) (sg : list GraphFact.t)
    (sr : list VectorSearchResult.t) (e : FusedItem.t) :
  In e (Nodes.fuse_merge env sv sg sr) ->
  (exists x, Spec.first_with hv (he e) sv = Some x /\ e = Nodes.fused_of_vector x)
  \/ (~ In (he e) (map hv sv)
      /\ exists f, Spec.first_with hg (he e) sg = Some f /\ e = Nodes.fused_of_graph f)
  \/ (~ In (he e) (map hv sv) /\ ~ In (he e) (map hg sg)
      /\ exists x, Spec.first_with hv (he e) sr = Some x /\ e = Nodes.fused_of_rerank x).
Proof.
  rewrite fuse_merge_parts. intros Hin.
  apply in_app_or in Hin as [Hin|Hin]; [|apply in_app_or in Hin as [Hin|Hin]];
    apply in_map_iff in Hin as (x & <- & Hx).
  - left. exists x. split; [|reflexivity]. exact (kept_is_first hv _ _ _ Hx).
  - right. left.
    assert (Hk : In (hg x) (map hg (fst (Py.unseen hg sg (list_to_set (map hv sv) ∪ ∅)))))
      by now apply in_map.
    apply kept_key_in in Hk as [_ Hk]. rewrite in_s1 in Hk.
    split; [exact Hk|]. exists x. split; [|reflexivity].
    exact (kept_is_first hg _ _ _ Hx).
  - right. right.
    assert (Hk : In (hv x)
                    (map hv (fst (Py.unseen hv sr
                       (list_to_set (map hg sg) ∪ (list_to_set (map hv sv) ∪ ∅))))))
      by now apply in_map.
    apply kept_key_in in Hk as [_ Hk]. rewrite in_s2 in Hk.
    split; [tauto|]. split; [tauto|]. exists x. split; [|reflexivity].
    exact (kept_is_first hv _ _ _ Hx).
Qed.

End FusionFacts.


(* ===================================================================== *)
(** * Entity resolution *)
(* ===================================================================== *)

Section ResolverFacts.
Context (self : Resolver.EntityResolver) (svc : Resolver.Services).

Lemma sort_desc_head {A} (key : A -> Q) (l : list A) (best : A) (rest : list A) :
  sort_desc key l = best :: rest ->
  In best l
  /\ (forall c, In c l -> (key c <= key best)%Q)
  /\ hd_error (Spec.with_key key (key best) l) = Some best.
Proof.
  intros Hs. destruct (sort_desc_stable key l) as (Hperm & Hsorted & Hstable).
  rewrite Hs in *. split; [|split].
  - apply (Permutation_in best Hperm). now left.
  - intros c Hc. apply (Permutation_in c (Permutation_sym Hperm)) in Hc.
    destruct Hc as [<-|Hc]; [apply Qle_refl|].
    apply StronglySorted_inv in Hsorted as [_ Hall].
    rewrite Forall_forall in Hall. apply Hall, list_elem_of_In, Hc.
  - rewrite <- Hstable. unfold Spec.with_key. simpl.
    now rewrite (proj2 (Qeq_bool_iff _ _) (Qeq_refl _)).
Qed.

Lemma resolve_unfold (drawn : nat) (entity : ExtractedEntity.t)
    (candidates : list Resolver.Candidate) :
  Resolver.find_candidates svc (Resolver.normalize svc entity) 5 = Ok candidates ->
  Resolver.resolve self svc drawn entity
  = Ok (Resolver.decide_action self svc drawn (Resolver.normalize svc entity) entity
          (map (Resolver.score_candidate self svc (Resolver.normalize svc entity))
               candidates)).
Proof. unfold Resolver.resolve. now intros ->. Qed.

End ResolverFacts.

(** C8.  The decision uses the single best-scored candidate (the first one
    in candidate order among those of highest score): its score at least
    the merge threshold gives MERGE into that candidate and draws no new id;
    otherwise its score at least the link threshold gives LINK, with a newly
    drawn entity id and a RELATED_TO link to that candidate; otherwise the
    result is CREATE with a newly drawn id; and with no candidate at all the
    result is CREATE as well.  The default thresholds are 0.85 and 0.70. *)
Theorem resolve_decides_on_best_candidate
    (self : Resolver.EntityResolver) (svc : Resolver.Services) (drawn : nat)
    (entity : ExtractedEntity.t) (candidates : list Resolver.Candidate) :
  let normalized := Resolver.normalize svc entity in
  let scored := map (Resolver.score_candidate self svc normalized) candidates in
  Resolver.find_candidates svc normalized 5 = Ok candidates ->
  Resolver.merge_threshold Resolver.default_resolver = 0.85%Q
  /\ Resolver.link_threshold Resolver.default_resolver = 0.70%Q
  /\ exists result drawn',
       Resolver.resolve self svc drawn entity = Ok (result, drawn')
       /\ (candidates = [] ->
           Resolver.action result = Resolver.CREATE
           /\ Resolver.entity_id result = Resolver.uuid4 svc drawn
           /\ Resolver.link_to result = None
           /\ drawn' = S drawn)
       /\ (candidates <> [] ->
           exists best,
             In best scored
             /\ (forall c, In c scored ->
                   (Resolver.final_score c <= Resolver.final_score best)%Q)
             /\ hd_error (Spec.with_key Resolver.final_score
                                         (Resolver.final_score best) scored)
                = Some best
             /\ ((Resolver.merge_threshold self <= Resolver.final_score best)%Q ->
                 Resolver.action result = Resolver.MERGE
                 /\ Resolver.entity_id result
                    = Resolver.row_id (Resolver.cand_row (Resolver.candidate best))
                 /\ Resolver.canonical result = None
                 /\ Resolver.link_to result = None
                 /\ drawn' = drawn)
             /\ (~ (Resolver.merge_threshold self <= Resolver.final_score best)%Q ->
                 (Resolver.link_threshold self <= Resolver.final_score best)%Q ->
                 Resolver.action result = Resolver.LINK
                 /\ Resolver.entity_id result = Resolver.uuid4 svc drawn
                 /\ Resolver.link_to result
                    = Some (Resolver.row_id (Resolver.cand_row (Resolver.candidate best)))
                 /\ Resolver.link_type result = Some "RELATED_TO"
                 /\ drawn' = S drawn)
             /\ (~ (Resolver.merge_threshold self <= Resolver.final_score best)%Q ->
                 ~ (Resolver.link_threshold self <= Resolver.final_score best)%Q ->
                 Resolver.action result = Resolver.CREATE
                 /\ Resolver.entity_id result = Resolver.uuid4 svc drawn
                 /\ Resolver.link_to result = None
                 /\ drawn' = S drawn)).
Proof.
  intros normalized scored Hfind.
  split; [reflexivity|]. split; [reflexivity|].
  rewrite (resolve_unfold self svc drawn entity candidates Hfind).
  fold normalized. fold scored. eexists _, _. split; [f_equal; apply surjective_pairing|].
  unfold Resolver.decide_action.
  destruct (sort_desc Resolver.final_score scored) as [|best rest] eqn:Hsort.
  - split; [intros _; cbn; now repeat split|].
    intros Hne. exfalso. apply Hne.
    assert (Hlen : length (sort_desc Resolver.final_score scored) = length candidates).
    { rewrite (Permutation_length (sort_desc_perm _ scored)). apply length_map. }
    rewrite Hsort in Hlen. now destruct candidates.
  - split.
    { intros ->. subst scored. discriminate. }
    intros _. exists best.
    destruct (sort_desc_head _ _ _ _ Hsort) as (Hin & Hmax & Hfirst).
    split; [exact Hin|]. split; [exact Hmax|]. split; [exact Hfirst|].
    destruct (Qle_bool (Resolver.merge_threshold self) (Resolver.final_score best))
      eqn:Em.
    + apply Qle_bool_iff in Em. split; [intros _; cbn; now repeat split|].
      split; intros Hn; now exfalso.
    + assert (Hnm : ~ (Resolver.merge_threshold self <= Resolver.final_score best)%Q)
        by (rewrite <- Qle_bool_iff; congruence).
      split; [intros Hm; now exfalso|].
      destruct (Qle_bool (Resolver.link_threshold self) (Resolver.final_score best))
        eqn:El.
      * apply Qle_bool_iff in El. split; [intros _ _; cbn; now repeat split|].
        intros _ Hn. now exfalso.
      * assert (Hnl : ~ (Resolver.link_threshold self <= Resolver.final_score best)%Q)
          by (rewrite <- Qle_bool_iff; congruence).
        split; [intros _ Hl; now exfalso|]. intros _ _. cbn. now repeat split.
Qed.

Lemma resolve_decides_on_best_candidate_witness :
  Resolver.find_candidates ResolverExamples.svc
    (Resolver.normalize ResolverExamples.svc ResolverExamples.mention) 5
  = Ok [Resolver.mkCandidate ResolverExamples.pump "exact" 1.0%Q]
  /\ exists result drawn',
       Resolver.resolve (Resolver.mkResolver 0.5%Q 0.4%Q 0.6%Q 0.4%Q)
                        ResolverExamples.svc 0 ResolverExamples.mention
       = Ok (result, drawn').
Proof.
  assert (Hfind :
    Resolver.find_candidates ResolverExamples.svc
      (Resolver.normalize ResolverExamples.svc ResolverExamples.mention) 5
    = Ok [Resolver.mkCandidate ResolverExamples.pump "exact" 1.0%Q])
    by reflexivity.
  split; [exact Hfind|].
  destruct (resolve_decides_on_best_candidate
              (Resolver.mkResolver 0.5%Q 0.4%Q 0.6%Q 0.4%Q)
              ResolverExamples.svc 0 ResolverExamples.mention _ Hfind)
    as (_ & _ & result & drawn' & Hres & _).
  exists result, drawn'. exact Hres.
Defined.

(** With a merge threshold of 0.5 the known asset is merged into. *)
Example lowered_threshold_merges :
  exists result,
    Resolver.resolve (Resolver.mkResolver 0.5%Q 0.4%Q 0.6%Q 0.4%Q)
                     ResolverExamples.svc 0 ResolverExamples.mention
    = Ok (result, 0)
    /\ Resolver.action result = Resolver.MERGE
    /\ Resolver.entity_id result = "asset-1".
Proof. eexists. split; [vm_compute; reflexivity|]. split; reflexivity. Qed.

(** The type test compares the value of an [EntityType] with a node label:
    no label the candidate queries admit equals such a value. *)
Lemma labels_never_match (t : EntityType.t) (label : string) :
  In label ResolverExamples.cypher_labels -> EntityType.value t <> label.
Proof.
  unfold ResolverExamples.cypher_labels. simpl.
  intros H. repeat (destruct H as [<-|H]; [destruct t; discriminate|]). contradiction.
Qed.

Lemma context_similarity_bound (normalized : Resolver.Normalized)
    (candidate : Resolver.Candidate) :
  (Resolver.compute_context_similarity normalized candidate <= 0.5)%Q.
Proof.
  unfold Resolver.compute_context_similarity.
  destruct (String.eqb _ _); vm_compute; discriminate.
Qed.

(** Under the default thresholds and weights no candidate can be merged
    into: a cosine similarity is at most 1 and the context similarity at most
    0.5, so the score is at most 0.8, below 0.85. *)
Lemma default_resolver_never_merges (svc : Resolver.Services) (drawn drawn' : nat)
    (entity : ExtractedEntity.t) (result : Resolver.ResolutionResult) :
  (forall a b, (Resolver.cosine_similarity svc a b <= 1)%Q) ->
  Resolver.resolve Resolver.default_resolver svc drawn entity = Ok (result, drawn') ->
  Resolver.action result <> Resolver.MERGE.
Proof.
  intros Hcos. unfold Resolver.resolve.
  destruct (Resolver.find_candidates svc _ 5) as [candidates|e]; [|discriminate].
  cbn. intros H. injection H as H. unfold Resolver.decide_action in H.
  destruct (sort_desc _ _) as [|best rest] eqn:Hsort.
  - injection H as <- _. discriminate.
  - destruct (sort_desc_head _ _ _ _ Hsort) as (Hin & _ & _).
    apply in_map_iff in Hin as (c & <- & _).
    assert (Hlow : Qle_bool 0.85 (Resolver.final_score
                     (Resolver.score_candidate Resolver.default_resolver svc
                        (Resolver.normalize svc entity) c)) = false).
    { apply not_true_iff_false. rewrite Qle_bool_iff. apply Qlt_not_le.
      cbn [Resolver.score_candidate Resolver.final_score
           Resolver.embedding_weight Resolver.context_weight
           Resolver.default_resolver].
      pose proof (context_similarity_bound (Resolver.normalize svc entity) c) as Hctx.
      assert (Hemb : (Resolver.compute_embedding_similarity svc
                        (Resolver.embedding (Resolver.normalize svc entity))
                        (Resolver.row_embedding (Resolver.cand_row c)) <= 1)%Q).
      { unfold Resolver.compute_embedding_similarity.
        destruct (Resolver.embedding _); [|discriminate].
        destruct (Resolver.row_embedding _); [apply Hcos|discriminate]. }
      lra. }
    cbn [Resolver.merge_threshold Resolver.default_resolver] in H.
    rewrite Hlow in H.
    destruct (Qle_bool _ _); injection H as <- _; discriminate.
Qed.

(** C2 fails on the code.  The graph holds the asset P-101 under the
    canonical name of the mention, with the very embedding of that name, and
    nothing is written between the two calls; under the default
    configuration both calls answer CREATE, each with a newly drawn id,
    instead of MERGE into the asset. *)
Theorem resolving_known_name_twice_creates_twice :
  Resolver.canonical_name_of ResolverExamples.mention = "P-101"
  /\ Resolver.exact_query ResolverExamples.svc "P-101" = Some [ResolverExamples.pump]
  /\ exists first second,
       Resolver.resolve Resolver.default_resolver ResolverExamples.svc 0
                        ResolverExamples.mention = Ok (first, 1)
       /\ Resolver.resolve Resolver.default_resolver ResolverExamples.svc 1
                           ResolverExamples.mention = Ok (second, 2)
       /\ Resolver.action first = Resolver.CREATE
       /\ Resolver.action second = Resolver.CREATE
       /\ Resolver.entity_id first = "uuid-0"
       /\ Resolver.entity_id second = "uuid-1".
Proof.
  split; [reflexivity|]. split; [reflexivity|].
  eexists _, _. split; [vm_compute; reflexivity|].
  split; [vm_compute; reflexivity|]. repeat split; reflexivity.
Qed.

(* ===================================================================== *)
(** * Graph expansion *)
(* ===================================================================== *)

(** C9 (as the code has it).  [GraphExpander.expand] returns at most 30
    facts per run; they are deduplicated by exact fact text with the first
    occurrence kept, the deduplication coming before the cap; and they appear
    in discovery order. *)
Theorem expand_dedups_then_caps_at_30
    (session : Expander.Session) (seed_chunks : list string) (intent : string)
    (max_hops : nat) :
  let found := Expander.acc_facts (Expander.discovered session seed_chunks intent) in
  let facts := Expander.facts (Expander.expand session seed_chunks intent max_hops) in
  length facts <= 30
  /\ NoDup (map Expander.fact facts)
  /\ facts `sublist_of` found
  /\ facts = take 30 (Spec.first_occurrences Expander.fact found)
  /\ (forall f, In f facts ->
        Spec.first_with Expander.fact (Expander.fact f) found = Some f)
  /\ (length (Spec.first_occurrences Expander.fact found) <= 30 ->
      forall text, In text (map Expander.fact found)
                   <-> In text (map Expander.fact facts)).
Proof.
  intros found facts.
  assert (Hfacts : facts = take 30 (Spec.first_occurrences Expander.fact found)).
  { unfold facts, Expander.expand. cbn [Expander.facts].
    unfold Expander.unique_facts. now rewrite unseen_empty. }
  split; [rewrite Hfacts, length_take; lia|].
  split.
  { rewrite Hfacts. eapply sublist_NoDup; [apply (first_occurrences_NoDup Expander.fact found)|].
    apply fmap_sublist, sublist_take. }
  split.
  { rewrite Hfacts. etransitivity; [apply sublist_take|apply first_occurrences_sublist]. }
  split; [exact Hfacts|]. split.
  - intros f Hf. apply first_occurrences_find. rewrite Hfacts in Hf.
    apply list_elem_of_In. apply list_elem_of_In in Hf.
    eapply elem_of_sublist; [exact Hf|apply sublist_take].
  - intros Hlen text. rewrite Hfacts, take_ge by exact Hlen.
    symmetry. apply first_occurrences_keys.
Qed.

(** C9, as stated, fails: three chunks with ten components each give 30
    facts, more than 20. *)
Lemma expand_returns_more_than_20_facts :
  ~ length (Expander.facts
              (Expander.expand ExpanderExamples.session ExpanderExamples.seeds
                               "procedure" 2))
    <= 20.
Proof. vm_compute. lia. Qed.

(* ===================================================================== *)
(** * Session memory *)
(* ===================================================================== *)

Lemma last_n_short {A} (n : nat) (l : list A) : length l <= n -> Py.last_n n l = l.
Proof. intros H. unfold Py.last_n. now replace (length l - n) with 0 by lia. Qed.

Lemma last_n_length {A} (n : nat) (l : list A) : length (Py.last_n n l) <= n.
Proof. unfold Py.last_n. rewrite length_skipn. lia. Qed.

(** The history of every session after one call. *)
Lemma history_after_call
    (pipeline : string -> string -> option Session.RetrievalResult)
    (query session_id other : string)
    (store : gmap string (list Session.Exchange.t)) :
  Session.get_session_history other
    (fst (Session.run_full_retrieval pipeline query session_id store))
  = if decide (other = session_id)
    then
      match pipeline (Session.enhance_query query
                        (Session.get_session_history session_id store)) session_id with
      | Some result =>
          Py.last_n 10
            (Session.get_session_history session_id store
             ++ [Session.Exchange.mk query (Session.result_answer result)
                                     (Session.result_intent result)])%list
      | None => Session.get_session_history session_id store
      end
    else Session.get_session_history other store.
Proof.
  unfold Session.run_full_retrieval, Session.get_session_history.
  set (store0 := match store !! session_id with
                 | Some _ => store
                 | None => <[session_id := []]> store
                 end).
  assert (H0 : forall k, default [] (store0 !! k) = default [] (store !! k)).
  { intros k. subst store0. destruct (store !! session_id) eqn:E; [reflexivity|].
    destruct (decide (k = session_id)) as [->|Hne].
    - now rewrite lookup_insert_eq, E.
    - now rewrite lookup_insert_ne by congruence. }
  rewrite (H0 session_id).
  destruct (pipeline _ session_id) as [result|]; cbn [fst].
  - set (appended := (default [] (store !! session_id) ++ _)%list).
    destruct (decide (other = session_id)) as [->|Hne].
    + destruct (Nat.ltb_spec 10 (length appended)).
      * now rewrite lookup_insert_eq.
      * rewrite lookup_insert_eq. cbn. now rewrite last_n_short.
    + destruct (10 <? length appended)%nat;
        rewrite ?lookup_insert_ne by congruence; apply H0.
  - destruct (decide (other = session_id)) as [->|Hne]; apply H0.
Qed.

(** C10.  After any sequence of calls to the session-based
    [run_full_retrieval], starting from the empty store, the history returned
    by [get_session_history] holds at most 10 exchanges for every session.
    A call that gets a result appends its exchange and keeps the last 10: on
    a history of 10 the oldest exchange is dropped; other sessions are left
    as they were. *)
Theorem session_history_keeps_last_10 :
  (forall calls session_id,
      length (Session.get_session_history session_id (Session.run_calls calls ∅))
      <= 10)
  /\ (forall pipeline query session_id store result,
        pipeline (Session.enhance_query query
                    (Session.get_session_history session_id store)) session_id
        = Some result ->
        let history := Session.get_session_history session_id store in
        let exchange :=
          Session.Exchange.mk query (Session.result_answer result)
                              (Session.result_intent result) in
        let store' :=
          fst (Session.run_full_retrieval pipeline query session_id store) in
        Session.get_session_history session_id store'
        = Py.last_n 10 (history ++ [exchange])%list
        /\ (length history < 10 ->
            Session.get_session_history session_id store'
            = (history ++ [exchange])%list)
        /\ (length history = 10 ->
            Session.get_session_history session_id store'
            = (tail history ++ [exchange])%list)
        /\ (forall other, other <> session_id ->
              Session.get_session_history other store'
              = Session.get_session_history other store)).
Proof.
  split.
  - intros calls session_id.
    assert (Hinv : forall store,
               (forall sid, length (Session.get_session_history sid store) <= 10) ->
               forall sid,
                 length (Session.get_session_history sid (Session.run_calls calls store))
                 <= 10).
    { induction calls as [|c calls IH]; intros store Hstore sid; [apply Hstore|].
      unfold Session.run_calls in *. cbn [fold_left]. apply IH. intros sid'.
      rewrite history_after_call. destruct (decide (sid' = _)); [|apply Hstore].
      destruct (Session.call_pipeline c _ _); [apply last_n_length|apply Hstore]. }
    apply Hinv. intros sid. unfold Session.get_session_history.
    rewrite lookup_empty. cbn. lia.
  - intros pipeline query session_id store result Hres history exchange store'.
    assert (Hsame : Session.get_session_history session_id store'
                    = Py.last_n 10 (history ++ [exchange])%list).
    { unfold store'. rewrite history_after_call.
      rewrite decide_True by reflexivity. now rewrite Hres. }
    split; [exact Hsame|]. split; [|split].
    + intros Hlt. rewrite Hsame. apply last_n_short. rewrite length_app. cbn. lia.
    + intros Hlen. rewrite Hsame. unfold Py.last_n. rewrite length_app. cbn.
      replace (length history + 1 - 10) with 1 by lia.
      destruct history; [discriminate|reflexivity].
    + intros other Hne. unfold store'. rewrite history_after_call.
      now rewrite decide_False by exact Hne.
Qed.

(* ===================================================================== *)
(** * Worked runs *)
(* ===================================================================== *)

(** An empty vector recall and no graph fact: the insufficient-evidence
    terminal. *)
Example empty_recall_is_insufficient :
  exists final,
    Graph.run_retrieval (Examples.env_with []) 8 Examples.question
                        "anonymous" "session-1" ClassificationLevel.INTERNAL
    = Graph.Finished (Graph.down_trace ++ [Node.insufficient_evidence])%list final
    /\ RetrievalState.answer final = Graph.insufficient_answer
    /\ RetrievalState.citations final = [].
Proof. eexists. split; [vm_compute; reflexivity|]. split; reflexivity. Qed.

(** A query asking to bypass an interlock, with a passage that mentions
    lockout: the safety-escalation terminal. *)
Example bypass_query_is_escalated :
  exists final,
    Graph.run_retrieval
      (Examples.env_with [Examples.seal; Examples.gasket; Examples.lockout]) 8
      "how to bypass the interlock" "anonymous" "session-1"
      ClassificationLevel.INTERNAL
    = Graph.Finished (Graph.down_trace ++ [Node.safety_escalation])%list final
    /\ RetrievalState.safety_escalation final = Some Graph.escalation.
Proof. eexists. split; [vm_compute; reflexivity|]. reflexivity. Qed.

(** Three distinct passages and no safety rule: confidence 0.3, the success
    outcome. *)
Example three_passages_pass :
  exists final,
    Graph.run_retrieval
      (Examples.env_with [Examples.seal; Examples.gasket; Examples.torque]) 11
      Examples.question "anonymous" "session-1" ClassificationLevel.INTERNAL
    = Graph.Finished (Graph.down_trace ++ [Node.skip_fusion] ++ Graph.round_trace)%list
                     final
    /\ RetrievalState.answer final = "Checked."
    /\ RetrievalState.confidence final = 0.3%Q.
Proof. eexists. split; [vm_compute; reflexivity|]. split; reflexivity. Qed.

(** The same with a passage that mentions lockout and a harmless query: the
    guardrails node raises. *)
Example safety_rule_breaks_guardrails :
  Graph.run_retrieval
    (Examples.env_with [Examples.seal; Examples.gasket; Examples.lockout]) 11
    Examples.question "anonymous" "session-1" ClassificationLevel.INTERNAL
  = Graph.Failed (Graph.down_trace ++ [Node.skip_fusion] ++ Graph.round_trace)%list
                 TypeError.
Proof. vm_compute. reflexivity. Qed.

(** A passage held by the vector and the rerank buffer is fused once, as a
    vector entry. *)
Example shared_passage_is_attributed_to_vector :
  map (fun e => (FusedItem.content e, FusedItem.source e))
      (Nodes.skip_fusion Examples.env [Examples.seal; Examples.gasket] []
                         [Examples.gasket; Examples.torque])
  = [ ("Check the valve seal.", "vector");
      ("Replace the gasket.", "vector");
      ("Torque the bolts to 40 Nm.", "rerank") ].
Proof. vm_compute. reflexivity. Qed.

(** The fallback extraction of asset tags. *)
Example asset_tags_found :
  Nodes.asset_pattern_finditer
    "see P-101A and XV-20, not ABCD-12 or P-1, PUMP P-12345 K-9999Z."
  = ["P-101A"; "XV-20"; "K-9999Z"].
Proof. vm_compute. reflexivity. Qed.

(** Canonical names. *)
Example canonical_names :
  map (fun n => Resolver.canonical_name_of
                  (ExtractedEntity.mk n EntityType.ASSET 1%Q "" None))
      ["P-101a"; "  Pump 12 station"; "valve V-201"; "p&id 7"; "P - 101"]
  = ["P-101A"; "PUMP-12S"; "valve v-201";
     "piping and instrumentation diagram 7"; "P-101"].
Proof. vm_compute. reflexivity. Qed.

(* ===================================================================== *)
(** * Further properties of the retrieval nodes *)
(* ===================================================================== *)

Lemma inject_nat_lt (n k : nat) :
  (inject_Z (Z.of_nat n) * 0.1 < inject_Z (Z.of_nat k) * 0.1)%Q <-> n < k.
Proof. unfold Qlt. cbn. lia. Qed.

(** X1.  The confidence set by answer synthesis lies between 0 and 0.95, is
    0.95 from ten fused items on, and is below the guardrail threshold 0.30
    exactly when fewer than three items were fused, whatever the language
    model answered. *)
Theorem synthesis_confidence_counts_fused_items
    (env : Env.t) (calls : nat) (state state' : RetrievalState.t) :
  Nodes.answer_synthesizer_node env calls state = Ok state' ->
  let n := length (RetrievalState.fused_evidence state) in
  (0 <= RetrievalState.confidence state' <= 0.95)%Q
  /\ ((RetrievalState.confidence state' < 0.3)%Q <-> n < 3)
  /\ (n <= 9 -> (RetrievalState.confidence state' == inject_Z (Z.of_nat n) * 0.1)%Q)
  /\ (10 <= n -> (RetrievalState.confidence state' == 0.95)%Q).
Proof.
  intros H n. unfold Nodes.answer_synthesizer_node in H.
  destruct (Nodes.evidence_block 1 _) as [text|]; [|discriminate]. cbn in H.
  destruct (Env.chat_completion env calls _ _) as [response|]; [|discriminate].
  cbn in H. injection H as <-. cbn [RetrievalState.confidence RetrievalState.set_confidence].
  unfold Nodes.estimate_confidence. fold n.
  assert (Hn : (0 <= inject_Z (Z.of_nat n) * 0.1)%Q).
  { unfold Qle. cbn. lia. }
  split; [split|split; [|split]].
  - apply Q.min_glb; [discriminate|exact Hn].
  - apply Q.le_min_l.
  - rewrite Q.min_lt_iff. change 0.3%Q with (inject_Z (Z.of_nat 3) * 0.1)%Q at 2.
    rewrite inject_nat_lt. split; [intros [H|H]; [discriminate H|exact H]|tauto].
  - intros Hle. apply Q.min_r. unfold Qle. cbn. lia.
  - intros Hge. apply Q.min_l. unfold Qle. cbn. lia.
Qed.

Lemma synthesis_confidence_counts_fused_items_witness :
  exists state',
    Nodes.answer_synthesizer_node Examples.env 0 Examples.fused = Ok state'
    /\ (RetrievalState.confidence state' < 0.3)%Q.
Proof.
  assert (H : exists state',
             Nodes.answer_synthesizer_node Examples.env 0 Examples.fused = Ok state')
    by (eexists; vm_compute; reflexivity).
  destruct H as [state' H]. exists state'. split; [exact H|].
  apply (synthesis_confidence_counts_fused_items Examples.env 0 Examples.fused state' H).
  vm_compute. lia.
Defined.

(* ===================================================================== *)
(** * Runs that return *)
(* ===================================================================== *)

Section ReturnFacts.
Context (env : Env.t).

(** A run that has returned returns the same with more fuel. *)
Lemma run_from_finished_add (a b : nat) :
  forall n calls s tr trace final,
    Graph.run_from env a n calls s tr = Graph.Finished trace final ->
    Graph.run_from env (a + b) n calls s tr = Graph.Finished trace final.
Proof.
  induction a as [|a IH]; intros n calls s tr trace final H.
  - destruct n; simpl in H; try discriminate. now rewrite run_from_END.
  - destruct (Node.eqb n Node.END) eqn:En.
    + apply Node_eqb_eq in En. subst n. now rewrite run_from_END in *.
    + assert (Hn : n <> Node.END) by (intros ->; discriminate).
      destruct (Graph.run_node env n calls s) as [[s1 c1]|e] eqn:Hrun.
      * rewrite (run_from_step _ _ _ _ _ _ _ _ Hn Hrun) in H.
        change (S a + b) with (S (a + b)).
        rewrite (run_from_step _ _ _ _ _ _ _ _ Hn Hrun). now apply IH.
      * rewrite (run_from_raise _ _ _ _ _ _ _ Hn Hrun) in H. discriminate.
Qed.

(** The guardrail check after a round reads only what no round changes. *)
Lemma round_decision (calls calls' : nat) (s s3 s3' : RetrievalState.t) :
  Graph.synthesis_round env calls s = Ok s3 ->
  Graph.synthesis_round env calls' s3 = Ok s3' ->
  Graph.guardrail_check s3' = Graph.guardrail_check s3.
Proof.
  intros H H'.
  pose proof (round_leaves _ _ _ _ H) as (Hf & Hp & He & _ & _ & Hc & Hcit).
  pose proof (round_leaves _ _ _ _ H') as (Hf' & Hp' & He' & _ & _ & Hc' & Hcit').
  apply guardrail_check_reads.
  - exact He'.
  - now rewrite Hc', Hf, Hc.
  - now rewrite Hcit', Hp, Hcit.
Qed.

(** Once the guardrail check says retry, the run never returns, whether or
    not the language model goes on answering. *)
Lemma retry_never_finishes (fuel : nat) :
  forall calls s tr trace final,
    (forall c s3, Graph.synthesis_round env c s = Ok s3 ->
                  Graph.guardrail_check s3 = Graph.retry) ->
    Graph.run_from env fuel Node.answer_synthesizer calls s tr
    <> Graph.Finished trace final.
Proof.
  induction fuel as [fuel IH] using lt_wf_ind.
  intros calls s tr trace final Hretry.
  destruct fuel as [|[|[|fuel]]]; cbn [Graph.run_from Graph.run_node].
  - discriminate.
  - destruct (Nodes.answer_synthesizer_node env calls s); cbn; discriminate.
  - destruct (Nodes.answer_synthesizer_node env calls s); cbn; discriminate.
  - destruct (Nodes.answer_synthesizer_node env calls s) as [s1|e] eqn:H1;
      cbn; [|discriminate].
    destruct (Nodes.guardrails_node (Nodes.citation_generator_node s1))
      as [s3|e] eqn:H3; cbn; [|discriminate].
    assert (Hround : Graph.synthesis_round env calls s = Ok s3).
    { unfold Graph.synthesis_round. rewrite H1. exact H3. }
    rewrite (Hretry _ _ Hround). apply IH; [lia|].
    intros c s3' H'. rewrite (round_decision _ _ _ _ _ Hround H').
    now apply (Hretry calls).
Qed.

(** A round completes only when the evidence pack holds no safety rule. *)
Lemma round_needs_no_safety_rule (calls : nat) (s s3 : RetrievalState.t)
    (pack : EvidencePack.t) :
  Graph.synthesis_round env calls s = Ok s3 ->
  RetrievalState.evidence_pack s = Some pack ->
  EvidencePack.safety_rules pack = [].
Proof.
  unfold Graph.synthesis_round, Nodes.answer_synthesizer_node. intros H Hp.
  destruct (Nodes.evidence_block 1 _) as [text|e]; [|discriminate]. cbn in H.
  destruct (Env.chat_completion env calls _ _) as [response|]; [|discriminate].
  cbn in H. unfold Nodes.guardrails_node in H. cbn in H. rewrite Hp in H.
  destruct (EvidencePack.safety_rules pack); [reflexivity|discriminate].
Qed.

(** A round that raises ends the run in failure. *)
Lemma round_raise_not_finished (fuel calls : nat) (s : RetrievalState.t) (e : Exn)
    (tr trace : list Node.t) (final : RetrievalState.t) :
  Graph.synthesis_round env calls s = Raise e ->
  Graph.run_from env fuel Node.answer_synthesizer calls s tr
  <> Graph.Finished trace final.
Proof.
  unfold Graph.synthesis_round. intros H.
  destruct fuel as [|[|[|fuel]]]; cbn [Graph.run_from Graph.run_node];
    try discriminate;
    destruct (Nodes.answer_synthesizer_node env calls s) as [s1|e1]; cbn;
    try discriminate.
  cbn in H. rewrite H. cbn. discriminate.
Qed.

(** What the down path leaves of the fields the later nodes read. *)
(** The state the down path leaves: evidence assembly and reranking over the
    state left by graph expansion. *)
Lemma down_path_shape (s s7 : RetrievalState.t) :
  Graph.down_path env s = Ok s7 ->
  exists s4,
    s7 = Nodes.evidence_assembler_node
           (Nodes.reranker_node (Nodes.graph_expander_node env s4))
    /\ RetrievalState.safety_escalation s4 = RetrievalState.safety_escalation s
    /\ RetrievalState.query s4 = RetrievalState.query s
    /\ RetrievalState.skip_vector s4 = take 10 (RetrievalState.vector_candidates s4).
Proof.
  unfold Graph.down_path. intros H.
  destruct (Nodes.vector_recall_node env _) as [s3|e] eqn:H3; [|discriminate].
  change (Ok (Nodes.evidence_assembler_node
                (Nodes.reranker_node
                   (Nodes.graph_expander_node env
                      (Nodes.entity_extractor_node env s3)))) = Ok s7) in H.
  injection H as <-. exists (Nodes.entity_extractor_node env s3).
  split; [reflexivity|].
  unfold Nodes.vector_recall_node in H3.
  destruct (Env.search env _ _ _) as [results|]; [|discriminate].
  injection H3 as <-. repeat split.
Qed.

Lemma after_expansion_leaves (s5 : RetrievalState.t) :
  let s7 := Nodes.evidence_assembler_node (Nodes.reranker_node s5) in
  RetrievalState.safety_escalation s7 = RetrievalState.safety_escalation s5
  /\ RetrievalState.query s7 = RetrievalState.query s5
  /\ RetrievalState.skip_vector s7 = RetrievalState.skip_vector s5
  /\ RetrievalState.vector_candidates s7 = RetrievalState.vector_candidates s5
  /\ RetrievalState.skip_graph s7 = RetrievalState.skip_graph s5
  /\ RetrievalState.graph_facts s7 = RetrievalState.graph_facts s5
  /\ RetrievalState.reranked_evidence s7
     = Nodes.rerank (RetrievalState.vector_candidates s5)
                    (RetrievalState.graph_facts s5)
  /\ RetrievalState.skip_rerank s7
     = take 5 (Nodes.rerank (RetrievalState.vector_candidates s5)
                            (RetrievalState.graph_facts s5))
  /\ RetrievalState.evidence_pack s7
     = Some (Nodes.assemble
               (Nodes.rerank (RetrievalState.vector_candidates s5)
                             (RetrievalState.graph_facts s5))
               (RetrievalState.graph_facts s5)).
Proof. repeat split. Qed.

Lemma expansion_leaves (s4 : RetrievalState.t) :
  let s5 := Nodes.graph_expander_node env s4 in
  RetrievalState.safety_escalation s5 = RetrievalState.safety_escalation s4
  /\ RetrievalState.query s5 = RetrievalState.query s4
  /\ RetrievalState.skip_vector s5 = RetrievalState.skip_vector s4
  /\ RetrievalState.vector_candidates s5 = RetrievalState.vector_candidates s4
  /\ RetrievalState.skip_graph s5 = take 15 (RetrievalState.graph_facts s5).
Proof. repeat split. Qed.

End ReturnFacts.

(** X2.  Whatever the fuel, a run of the retrieval graph that returns
    has executed the seven down-path nodes once and then either one terminal
    node (8 nodes) or skip fusion and a single synthesis round whose guardrail
    check passed (11 nodes): it never followed the retry edge.  In the second case the evidence pack holds no safety rule and at
    least three items were fused. *)
Theorem returned_run_took_no_retry
    (env : Env.t) (fuel : nat) (query user_id session_id : string)
    (access_level : ClassificationLevel.t)
    (trace : list Node.t) (final : RetrievalState.t) :
  Graph.run_retrieval env fuel query user_id session_id access_level
  = Graph.Finished trace final ->
  Graph.retry_edges trace = 0
  /\ exists s7,
       Graph.down_path env
         (RetrievalState.init query user_id session_id access_level) = Ok s7
       /\ ((Graph.evidence_sufficiency_check s7 = Graph.insufficient
            /\ trace = (Graph.down_trace ++ [Node.insufficient_evidence])%list
            /\ final = Graph.insufficient_evidence_node s7)
           \/ (Graph.evidence_sufficiency_check s7 = Graph.safety_critical
               /\ trace = (Graph.down_trace ++ [Node.safety_escalation])%list
               /\ final = Graph.safety_escalation_node s7)
           \/ (Graph.evidence_sufficiency_check s7 = Graph.sufficient
               /\ trace
                  = (Graph.down_trace ++ [Node.skip_fusion] ++ Graph.round_trace)%list
               /\ Graph.synthesis_round env 0 (Nodes.skip_fusion_node env s7) = Ok final
               /\ Graph.guardrail_check final = Graph.pass
               /\ (exists pack,
                      RetrievalState.evidence_pack final = Some pack
                      /\ EvidencePack.safety_rules pack = [])
               /\ 3 <= length (RetrievalState.fused_evidence final))).
Proof.
  unfold Graph.run_retrieval. intros H.
  set (initial := RetrievalState.init query user_id session_id access_level) in *.
  apply (run_from_finished_add env fuel 11) in H.
  destruct (Graph.down_path env initial) as [s7|e] eqn:Hdown.
  2: { exfalso. revert H. replace (fuel + 11) with (3 + (fuel + 8)) by lia.
       cbn [Nat.add].
       do 2 (erewrite run_from_step; [|discriminate|reflexivity]; cbn [Graph.next_node]).
       unfold Graph.down_path in Hdown.
       destruct (Nodes.vector_recall_node env _) as [s3|e3] eqn:H3; [discriminate|].
       erewrite run_from_raise; [discriminate|discriminate|cbn; rewrite H3; reflexivity]. }
  destruct (down_path_shape env _ _ Hdown) as (s4 & Hs7 & Hesc4 & _ & _).
  pose proof (after_expansion_leaves (Nodes.graph_expander_node env s4))
    as (Hesc & _ & _ & _ & _ & _ & _ & _ & Hpack).
  cbv zeta in Hesc, Hpack. rewrite <- Hs7 in Hesc, Hpack.
  pose proof (expansion_leaves env s4) as (Hesc5 & _). cbv zeta in Hesc5.
  rewrite Hesc5, Hesc4 in Hesc. change (RetrievalState.safety_escalation initial)
    with (@None SafetyEscalation.t) in Hesc. clear Hs7 Hesc4 Hesc5.
  replace (fuel + 11) with (7 + (1 + (fuel + 3))) in H by lia.
  rewrite (run_down_path env _ _ _ Hdown) in H. cbn [Graph.next_node] in H.
  destruct (Graph.evidence_sufficiency_check s7) eqn:Hgate.
  - erewrite run_from_step in H; [|discriminate|reflexivity].
    cbn [Graph.next_node] in H.
    set (s8 := Nodes.skip_fusion_node env s7) in *.
    destruct (Graph.synthesis_round env 0 s8) as [s3|e] eqn:Hround.
    2: { exfalso. revert H. now apply (round_raise_not_finished env _ _ _ e). }
    pose proof (round_leaves env _ _ _ Hround) as (Hf & Hp & He & _ & _ & Hc & _).
    replace (fuel + 3) with (3 + fuel) in H by lia.
    rewrite (run_round env _ _ _ _ _ Hround) in H. cbn [Graph.next_node] in H.
    destruct (Graph.guardrail_check s3) eqn:Hg.
    + rewrite run_from_END in H. injection H as <- <-.
      split; [reflexivity|]. exists s7. split; [reflexivity|]. right. right.
      split; [exact Hgate|]. split; [reflexivity|].
      split; [exact Hround|]. split; [exact Hg|]. split.
      * rewrite Hp. change (RetrievalState.evidence_pack s8)
          with (RetrievalState.evidence_pack s7). rewrite Hpack.
        eexists. split; [reflexivity|].
        apply (round_needs_no_safety_rule env 0 s8 s3 _ Hround).
        change (RetrievalState.evidence_pack s8)
          with (RetrievalState.evidence_pack s7). exact Hpack.
      * rewrite Hf. unfold Graph.guardrail_check in Hg.
        destruct (RetrievalState.safety_escalation s3); [discriminate|].
        destruct (Graph.Qlt_bool _ _) eqn:E; [discriminate|].
        rewrite Hc in E. unfold Nodes.estimate_confidence in E.
        destruct (le_lt_dec 3 (length (RetrievalState.fused_evidence s8)))
          as [Hle|Hlt]; [exact Hle|].
        exfalso. rewrite <- not_true_iff_false, Qlt_bool_iff in E. apply E.
        apply Q.min_lt_iff. right.
        change 0.3%Q with (inject_Z (Z.of_nat 3) * 0.1)%Q.
        now apply inject_nat_lt.
    + exfalso. unfold Graph.guardrail_check in Hg. rewrite He in Hg.
      change (RetrievalState.safety_escalation s8)
        with (RetrievalState.safety_escalation s7) in Hg.
      rewrite Hesc in Hg. cbn in Hg.
      destruct (Graph.Qlt_bool _ _); [discriminate|].
      destruct (Graph.is_nil _); discriminate.
    + exfalso. revert H. apply retry_never_finishes.
      intros c s3' H'. now rewrite (round_decision env _ _ _ _ _ Hround H').
  - erewrite run_from_step in H; [|discriminate|reflexivity].
    cbn [Graph.next_node] in H. rewrite run_from_END in H. injection H as <- <-.
    split; [reflexivity|]. exists s7. split; [reflexivity|]. left.
    split; [exact Hgate|]. split; reflexivity.
  - erewrite run_from_step in H; [|discriminate|reflexivity].
    cbn [Graph.next_node] in H. rewrite run_from_END in H. injection H as <- <-.
    split; [reflexivity|]. exists s7. split; [reflexivity|]. right. left.
    split; [exact Hgate|]. split; reflexivity.
Qed.

Lemma returned_run_took_no_retry_witness :
  exists trace final,
    Graph.run_retrieval
      (Examples.env_with [Examples.seal; Examples.gasket; Examples.torque]) 11
      Examples.question "anonymous" "session-1" ClassificationLevel.INTERNAL
    = Graph.Finished trace final
    /\ Graph.retry_edges trace = 0.
Proof.
  assert (H : exists trace final,
             Graph.run_retrieval
               (Examples.env_with [Examples.seal; Examples.gasket; Examples.torque]) 11
               Examples.question "anonymous" "session-1" ClassificationLevel.INTERNAL
             = Graph.Finished trace final)
    by (do 2 eexists; vm_compute; reflexivity).
  destruct H as (trace & final & H). exists trace, final. split; [exact H|].
  exact (proj1 (returned_run_took_no_retry _ _ _ _ _ _ _ _ H)).
Defined.

(* ===================================================================== *)
(** * The down path *)
(* ===================================================================== *)


(** X4.  The intent classifier lets the last matching pattern group
    win: safety over asset information over definition over troubleshooting,
    and procedure when no pattern occurs in the lowercased normalized query.
    It sets no document-type filter exactly for asset information. *)
Theorem intent_precedence (state : RetrievalState.t) :
  let query := Py.lower (RetrievalState.normalized_query state) in
  let mentions patterns :=
    exists kw pre post, In kw patterns /\ query = pre ++ kw ++ post in
  let state' := Nodes.intent_classifier_node state in
  let intent := RetrievalState.intent state' in
  (intent = Some QueryIntent.SAFETY <-> mentions Nodes.safety_patterns)
  /\ (intent = Some QueryIntent.ASSET_INFO
      <-> ~ mentions Nodes.safety_patterns /\ mentions Nodes.asset_patterns)
  /\ (intent = Some QueryIntent.DEFINITION
      <-> ~ mentions Nodes.safety_patterns /\ ~ mentions Nodes.asset_patterns
          /\ mentions Nodes.definition_patterns)
  /\ (intent = Some QueryIntent.TROUBLESHOOTING
      <-> ~ mentions Nodes.safety_patterns /\ ~ mentions Nodes.asset_patterns
          /\ ~ mentions Nodes.definition_patterns
          /\ mentions Nodes.troubleshooting_patterns)
  /\ (intent = Some QueryIntent.PROCEDURE
      <-> ~ mentions Nodes.safety_patterns /\ ~ mentions Nodes.asset_patterns
          /\ ~ mentions Nodes.definition_patterns
          /\ ~ mentions Nodes.troubleshooting_patterns)
  /\ (Filters.doc_type (RetrievalState.metadata_filters state') = None
      <-> intent = Some QueryIntent.ASSET_INFO)
  /\ Filters.classification (RetrievalState.metadata_filters state') = None.
Proof.
  intros query mentions state' intent.
  assert (Hm : forall patterns, mentions patterns <-> Py.any_in patterns query = true).
  { intros patterns. unfold mentions. now rewrite any_in_spec. }
  rewrite !Hm. clear Hm.
  subst intent state'. unfold Nodes.intent_classifier_node. fold query.
  cbn [RetrievalState.intent RetrievalState.metadata_filters
       RetrievalState.set_intent RetrievalState.set_metadata_filters
       Filters.doc_type Filters.classification].
  unfold Nodes.classify.
  destruct (Py.any_in Nodes.safety_patterns query),
           (Py.any_in Nodes.asset_patterns query),
           (Py.any_in Nodes.definition_patterns query),
           (Py.any_in Nodes.troubleshooting_patterns query); cbn;
    repeat split; try discriminate; try reflexivity; try tauto;
    try (intros H; decompose [and] H; congruence);
    try (intros H; exfalso; apply H; reflexivity).
Qed.

(** X5.  The access-control filter of the vector search compares the
    names of the classification levels as strings.  It therefore grants a
    PUBLIC user internal and confidential documents, an INTERNAL user
    confidential ones, a CONFIDENTIAL user nothing beyond confidential, and a
    RESTRICTED user everything. *)
Theorem classification_filter_compares_names :
  (forall lvl m,
      In (ClassificationLevel.value m) (Nodes.classification_filter lvl)
      <-> m = lvl
          \/ String.ltb (ClassificationLevel.value m) (ClassificationLevel.value lvl)
             = true)
  /\ Nodes.classification_filter ClassificationLevel.PUBLIC
     = ["public"; "internal"; "confidential"]
  /\ Nodes.classification_filter ClassificationLevel.INTERNAL
     = ["internal"; "confidential"]
  /\ Nodes.classification_filter ClassificationLevel.CONFIDENTIAL
     = ["confidential"]
  /\ Nodes.classification_filter ClassificationLevel.RESTRICTED
     = ["restricted"; "public"; "internal"; "confidential"].
Proof.
  split; [|repeat split].
  intros lvl m. destruct lvl, m; vm_compute; split;
    try (intros _; tauto);
    try (intros H; repeat (destruct H as [H|H]; try discriminate H); tauto);
    try (intros [H|H]; discriminate H).
Qed.

(* ===================================================================== *)
(** * Scores, guardrails and the sufficiency check after assembly *)
(* ===================================================================== *)




(** X7.  The guardrails node raises a type error exactly when the
    evidence pack holds a safety rule.  Otherwise it returns the state with
    only the answer changed: the verification note is appended, once, when
    the lowercased answer contains one of the six hedging phrases, and the
    answer is kept as it is when it contains none. *)
Theorem guardrails_node_raises_on_safety_rules (state : RetrievalState.t) :
  let rules :=
    match RetrievalState.evidence_pack state with
    | Some pack => EvidencePack.safety_rules pack
    | None => []
    end in
  let hedges :=
    exists phrase pre post,
      In phrase Nodes.hallucination_phrases
      /\ Py.lower (RetrievalState.answer state) = pre ++ phrase ++ post in
  (rules <> [] <-> Nodes.guardrails_node state = Raise TypeError)
  /\ (rules = [] <->
      exists answer,
        Nodes.guardrails_node state = Ok (RetrievalState.set_answer answer state)
        /\ (hedges -> answer = RetrievalState.answer state ++ Nodes.verify_note)
        /\ (~ hedges -> answer = RetrievalState.answer state)).
Proof.
  intros rules hedges.
  assert (Hh : hedges <-> Py.any_in Nodes.hallucination_phrases
                            (Py.lower (RetrievalState.answer state)) = true).
  { unfold hedges. now rewrite any_in_spec. }
  unfold Nodes.guardrails_node. subst rules.
  destruct (RetrievalState.evidence_pack state) as [pack|].
  - destruct (EvidencePack.safety_rules pack) as [|r rules].
    + split; [split; [congruence|discriminate]|].
      split; [intros _|reflexivity]. eexists. split; [reflexivity|].
      destruct (Py.any_in _ _); split; intros H; try reflexivity;
        first [apply Hh in H; discriminate|exfalso; apply H, Hh; reflexivity].
    + split; [split; [reflexivity|discriminate]|].
      split; [discriminate|]. intros (answer & H & _). discriminate.
  - split; [split; [congruence|discriminate]|].
    split; [intros _|reflexivity]. eexists. split; [reflexivity|].
    destruct (Py.any_in _ _); split; intros H; try reflexivity;
      first [apply Hh in H; discriminate|exfalso; apply H, Hh; reflexivity].
Qed.

Lemma build_citations_nil (passages : list VectorSearchResult.t) :
  Nodes.build_citations passages = [] <-> passages = [].
Proof.
  rewrite build_citations_first_occurrences.
  destruct passages; simpl; split; congruence.
Qed.

Lemma extract_safety_rules_nil (passages : list VectorSearchResult.t) :
  Nodes.extract_safety_rules passages = []
  <-> forall p, In p passages -> Nodes.is_safety_passage p = false.
Proof.
  unfold Nodes.extract_safety_rules.
  induction passages as [|p passages IH]; simpl.
  - split; [tauto|reflexivity].
  - destruct (Nodes.is_safety_passage p) eqn:E; simpl.
    + split; [discriminate|]. intros H. specialize (H p (or_introl eq_refl)). congruence.
    + rewrite IH. split.
      * intros H q [<-|Hq]; [exact E|now apply H].
      * intros H q Hq. apply H. now right.
Qed.

(** X8.  After evidence assembly the sufficiency check depends on the
    reranked passages, the number of graph facts and the raw query only: it
    says safety_critical exactly when some passage mentions warning, caution,
    danger, ppe, lockout or hazard and the lowercased query contains a bypass
    keyword; sufficient exactly when that is not so, there is a passage, and
    passages and graph facts number at least two.  Without a passage it says
    insufficient, however many graph facts were found. *)
Theorem sufficiency_after_assembly (state : RetrievalState.t) :
  let passages := RetrievalState.reranked_evidence state in
  let facts := RetrievalState.graph_facts state in
  let route := Graph.evidence_sufficiency_check (Nodes.evidence_assembler_node state) in
  let flagged :=
    exists p kw pre post,
      In p passages /\ In kw Nodes.safety_keywords
      /\ Py.lower (VectorSearchResult.content p) = pre ++ kw ++ post in
  let asks_to_bypass :=
    exists kw pre post,
      In kw Graph.bypass_keywords
      /\ Py.lower (RetrievalState.query state) = pre ++ kw ++ post in
  (route = Graph.safety_critical <-> flagged /\ asks_to_bypass)
  /\ (route = Graph.sufficient
      <-> ~ (flagged /\ asks_to_bypass) /\ passages <> []
          /\ 2 <= length passages + length facts)
  /\ (passages = [] -> route = Graph.insufficient).
Proof.
  intros passages facts route flagged asks.
  assert (Hf : flagged <-> Nodes.extract_safety_rules passages <> []).
  { rewrite extract_safety_rules_nil. unfold flagged. split.
    - intros (p & kw & pre & post & Hp & Hkw & Heq) H.
      specialize (H p Hp). unfold Nodes.is_safety_passage in H.
      rewrite <- not_true_iff_false, any_in_spec in H. apply H.
      now exists kw, pre, post.
    - intros H.
      destruct (existsb Nodes.is_safety_passage passages) eqn:E.
      + apply existsb_exists in E as (p & Hp & E).
        unfold Nodes.is_safety_passage in E. apply any_in_spec in E.
        destruct E as (kw & pre & post & Hkw & Heq). now exists p, kw, pre, post.
      + exfalso. apply H. intros p Hp.
        destruct (Nodes.is_safety_passage p) eqn:Ep; [|reflexivity].
        rewrite <- E. symmetry. apply existsb_exists. now exists p. }
  assert (Ha : asks <-> Py.any_in Graph.bypass_keywords
                          (Py.lower (RetrievalState.query state)) = true).
  { unfold asks. now rewrite any_in_spec. }
  subst route. unfold Graph.evidence_sufficiency_check, Nodes.evidence_assembler_node.
  cbn [RetrievalState.evidence_pack RetrievalState.set_evidence_pack
       RetrievalState.query Nodes.assemble EvidencePack.safety_rules
       EvidencePack.passages EvidencePack.graph_facts EvidencePack.citations].
  fold passages facts.
  pose proof (is_nil_true (Nodes.extract_safety_rules passages)) as Hnil.
  pose proof (is_nil_true (Nodes.build_citations passages)) as Hcit.
  rewrite build_citations_nil in Hcit.
  destruct (Graph.is_nil (Nodes.extract_safety_rules passages)) eqn:E1;
    destruct (Py.any_in Graph.bypass_keywords _) eqn:E2; cbn [negb andb].
  1,2,4: destruct (Nat.ltb_spec (length passages + length facts) 2);
    destruct (Graph.is_nil (Nodes.build_citations passages)) eqn:E3;
    (split; [split; [discriminate|]|split; [split|]]);
    try discriminate; try reflexivity; try tauto; try lia;
    try (intros; exfalso; intuition congruence);
    try (intros; repeat split; intuition (try congruence; try lia)).
  split; [split; [intros _|reflexivity]|].
  - split; [apply Hf; intros H; apply Hnil in H; discriminate|now apply Ha].
  - split; [split; [discriminate|]|].
    + intros [H _]. exfalso. apply H. split; [|now apply Ha].
      apply Hf. intros Hn. apply Hnil in Hn. discriminate.
    + intros Hp. exfalso. rewrite Hp in E1. discriminate.
Qed.

(* ===================================================================== *)
(** * Graph facts and what answer synthesis reads of them *)
(* ===================================================================== *)

Lemma In_take {A} (n : nat) (l : list A) (x : A) : In x (take n l) -> In x l.
Proof.
  revert l. induction n as [|n IH]; intros [|y l]; simpl; try tauto.
  intros [->|H]; [now left|right; now apply IH].
Qed.

Lemma unseen_incl {A} (key : A -> string) (l : list A) (seen : gset string) (x : A) :
  In x (fst (Py.unseen key l seen)) -> In x l.
Proof.
  intros H. apply (kept_is_first key) in H. unfold Spec.first_with in H.
  now apply find_some in H.
Qed.

Lemma fact_of_path_shape (path : GraphPath.t) (f : GraphFact.t) (final : NodeProps.t) :
  Nodes.fact_of_path path = Some (f, final) ->
  GraphFact.source_nodes f = map Nodes.node_id_or_empty (GraphPath.nodes path)
  /\ 2 <= length (GraphPath.nodes path)
  /\ GraphFact.path f = path
  /\ GraphFact.confidence f = 0.9%Q
  /\ List.last (map Some (GraphPath.nodes path)) None = Some final.
Proof.
  unfold Nodes.fact_of_path.
  destruct (GraphPath.nodes path) as [|first [|second rest]] eqn:Hn;
    try discriminate.
  destruct (List.last (map Some (first :: second :: rest)) None) as [n|] eqn:Hl;
    [|discriminate].
  intros [= <- <-]. cbn [GraphFact.source_nodes GraphFact.path GraphFact.confidence].
  repeat split. cbn. lia.
Qed.

Section ExpansionFacts.
Context (env : Env.t).

Local Abbreviation well_formed :=
  (fun found : GraphFact.t * NodeProps.t =>
     GraphFact.source_nodes (fst found)
     = map Nodes.node_id_or_empty (GraphPath.nodes (GraphFact.path (fst found)))
     /\ 2 <= length (GraphFact.source_nodes (fst found))
     /\ GraphFact.confidence (fst found) = 0.9%Q
     /\ Env.validate_graph_fact env (fst found) = true
     /\ List.last (map Some (GraphPath.nodes (GraphFact.path (fst found)))) None
        = Some (snd found)).

Lemma facts_of_paths_well_formed (paths : list GraphPath.t) :
  Forall well_formed (Nodes.facts_of_paths (Env.validate_graph_fact env) paths).
Proof.
  induction paths as [|path paths IH]; simpl; [constructor|].
  destruct (Nodes.fact_of_path path) as [[f final]|] eqn:Hf; [|exact IH].
  destruct (Env.validate_graph_fact env f) eqn:Hv; [|constructor].
  constructor; [|exact IH].
  apply fact_of_path_shape in Hf as (Hs & Hlen & Hp & Hc & Hl). cbn [fst snd].
  rewrite Hp. repeat split; try assumption.
  rewrite Hs, length_map. exact Hlen.
Qed.

Lemma facts_of_paths_length (paths : list GraphPath.t) :
  length (Nodes.facts_of_paths (Env.validate_graph_fact env) paths) <= length paths.
Proof.
  induction paths as [|path paths IH]; simpl; [lia|].
  destruct (Nodes.fact_of_path path) as [[f final]|]; [|lia].
  destruct (Env.validate_graph_fact env f); simpl; lia.
Qed.

Lemma expand_entity_well_formed (config : list string * nat) (entity : ExtractedEntity.t) :
  Forall well_formed (Nodes.expand_entity env config entity).
Proof.
  unfold Nodes.expand_entity.
  destruct (Env.get_node_by_id env _) as [[node|]|]; try constructor.
  destruct (Env.traverse_from_node env _ _ _ _) as [paths|]; [|constructor].
  apply facts_of_paths_well_formed.
Qed.

Lemma graph_expander_node_found (state : RetrievalState.t) :
  exists found,
    Forall well_formed found
    /\ RetrievalState.graph_facts (Nodes.graph_expander_node env state) = map fst found
    /\ RetrievalState.expanded_context (Nodes.graph_expander_node env state)
       = map snd found
    /\ found = flat_map (Nodes.expand_entity env
                           (Nodes.traversal_config (RetrievalState.intent state)))
                        (take 10 (RetrievalState.extracted_entities state)).
Proof.
  eexists. split; [|repeat split].
  apply Forall_flat_map, Forall_forall. intros entity _.
  apply expand_entity_well_formed.
Qed.

End ExpansionFacts.

Lemma flat_map_length_le {A B} (f : A -> list B) (l : list A) (c : nat) :
  (forall x, length (f x) <= c) -> length (flat_map f l) <= length l * c.
Proof.
  intros H. induction l as [|x l IH]; simpl; [lia|].
  rewrite length_app. specialize (H x). lia.
Qed.

(** X9.  The graph expander records one context node per fact; every
    fact it appends has passed validation, has confidence 0.9 and lists the
    identifiers of the nodes of its path, of which there are at least two,
    the last one being the recorded context node.  The graph skip buffer is
    the first 15 facts.  Only the first ten entities are expanded, so a graph
    store that honours the limit of 20 paths yields at most 200 facts, and no
    entity yields no fact. *)
Theorem graph_expander_node_facts (env : Env.t) (state : RetrievalState.t) :
  let state' := Nodes.graph_expander_node env state in
  let facts := RetrievalState.graph_facts state' in
  Forall2
    (fun fact final =>
       GraphFact.source_nodes fact
       = map Nodes.node_id_or_empty (GraphPath.nodes (GraphFact.path fact))
       /\ 2 <= length (GraphFact.source_nodes fact)
       /\ GraphFact.confidence fact = 0.9%Q
       /\ Env.validate_graph_fact env fact = true
       /\ List.last (map Some (GraphPath.nodes (GraphFact.path fact))) None
          = Some final)
    facts (RetrievalState.expanded_context state')
  /\ length facts = length (RetrievalState.expanded_context state')
  /\ RetrievalState.skip_graph state' = take 15 facts
  /\ ((forall id edges hops limit paths,
          Env.traverse_from_node env id edges hops limit = Some paths ->
          length paths <= limit) ->
      length facts <= 200)
  /\ (RetrievalState.extracted_entities state = [] -> facts = []).
Proof.
  intros state' facts.
  destruct (graph_expander_node_found env state) as (found & Hwf & Hfacts & Hctx & Hfound).
  fold state' in Hfacts, Hctx. fold facts in Hfacts.
  assert (H2 : Forall2
                 (fun fact final =>
                    GraphFact.source_nodes fact
                    = map Nodes.node_id_or_empty (GraphPath.nodes (GraphFact.path fact))
                    /\ 2 <= length (GraphFact.source_nodes fact)
                    /\ GraphFact.confidence fact = 0.9%Q
                    /\ Env.validate_graph_fact env fact = true
                    /\ List.last (map Some (GraphPath.nodes (GraphFact.path fact))) None
                       = Some final)
                 facts (RetrievalState.expanded_context state')).
  { rewrite Hfacts, Hctx. clear Hfacts Hctx Hfound.
    induction Hwf as [|x found Hx Hwf IH]; simpl; constructor; assumption. }
  split; [exact H2|]. split; [exact (Forall2_length _ _ _ H2)|].
  split; [reflexivity|]. split.
  - intros Hlimit. rewrite Hfacts, length_map, Hfound.
    etransitivity; [apply (flat_map_length_le _ _ 20)|].
    + intros entity. unfold Nodes.expand_entity.
      destruct (Env.get_node_by_id env _) as [[node|]|]; simpl; try lia.
      destruct (Env.traverse_from_node env _ _ _ _) as [paths|] eqn:Ht; simpl; [|lia].
      etransitivity; [apply facts_of_paths_length|]. exact (Hlimit _ _ _ _ _ Ht).
    + pose proof (firstn_le_length 10 (RetrievalState.extracted_entities state)). lia.
  - intros Hnil. rewrite Hfacts, Hfound, Hnil. reflexivity.
Qed.

Lemma evidence_block_ok (items : list FusedItem.t) :
  Forall (fun item => FusedItem.nodes item <> Some []) items ->
  forall i, exists text, Nodes.evidence_block i items = Ok text.
Proof.
  induction 1 as [|item items Hitem _ IH]; intros i; simpl; [eauto|].
  destruct (IH (S i)) as [tail ->]. unfold Nodes.evidence_source.
  destruct (FusedItem.nodes item) as [[|n ns]|]; [congruence| |]; cbn; eauto.
Qed.

Lemma evidence_block_raises (items : list FusedItem.t) (i : nat) (e : Exn) :
  Nodes.evidence_block i items = Raise e ->
  e = IndexError /\ exists item, In item items /\ FusedItem.nodes item = Some [].
Proof.
  revert i. induction items as [|item items IH]; intros i; simpl; [discriminate|].
  unfold Nodes.evidence_source.
  destruct (FusedItem.nodes item) as [[|n ns]|] eqn:Hn; cbn.
  - intros [= <-]. split; [reflexivity|]. exists item. now split; [left|].
  - destruct (Nodes.evidence_block (S i) items) as [tail|e'] eqn:Ht; cbn; [discriminate|].
    intros [= <-]. destruct (IH _ Ht) as (-> & item' & Hin & Hnil).
    split; [reflexivity|]. exists item'. split; [now right|exact Hnil].
  - destruct (Nodes.evidence_block (S i) items) as [tail|e'] eqn:Ht; cbn; [discriminate|].
    intros [= <-]. destruct (IH _ Ht) as (-> & item' & Hin & Hnil).
    split; [reflexivity|]. exists item'. split; [now right|exact Hnil].
Qed.

Lemma evidence_block_index_error (items : list FusedItem.t) (item : FusedItem.t) :
  In item items -> FusedItem.nodes item = Some [] ->
  forall i, Nodes.evidence_block i items = Raise IndexError.
Proof.
  intros Hin Hnil. induction items as [|x items IH]; intros i; [destruct Hin|].
  simpl. unfold Nodes.evidence_source. destruct Hin as [Heq|Hin].
  - subst x. rewrite Hnil. reflexivity.
  - rewrite (IH Hin (S i)).
    destruct (FusedItem.nodes x) as [[|n ns]|]; reflexivity.
Qed.

Lemma fused_item_source (env : Env.t) (sv : list VectorSearchResult.t)
    (sg : list GraphFact.t) (sr : list VectorSearchResult.t) (item : FusedItem.t) :
  In item (Nodes.skip_fusion env sv sg sr) ->
  (exists x, In x sv /\ item = Nodes.fused_of_vector x)
  \/ (exists f, In f sg /\ item = Nodes.fused_of_graph f)
  \/ (exists x, In x sr /\ item = Nodes.fused_of_rerank x
                /\ ~ In (Spec.passage_hash env x) (map (Spec.passage_hash env) sv)).
Proof.
  unfold Nodes.skip_fusion. intros H. apply In_take in H.
  apply (Permutation_in _ (sort_desc_perm _ _)) in H.
  apply fused_entry_origin in H
    as [(x & Hx & ->)|[(_ & f & Hf & ->)|(Hnv & _ & x & Hx & ->)]].
  - left. exists x. split; [|reflexivity]. now apply find_some in Hx.
  - right. left. exists f. split; [|reflexivity]. now apply find_some in Hf.
  - right. right. exists x. split; [now apply find_some in Hx|]. split; [reflexivity|].
    exact Hnv.
Qed.

(** X10.  Answer synthesis raises an index error exactly when one of
    the first ten fused items is a graph entry without source node, and a
    gateway error when the evidence block is built and the language model
    fails.  After the down path and skip fusion no such entry exists, since
    every fact of the graph expander names at least two nodes: there answer
    synthesis fails only when the language model does. *)
Theorem synthesis_fails_only_with_language_model
    (env : Env.t) (calls : nat) (state : RetrievalState.t) :
  (Nodes.answer_synthesizer_node env calls state = Raise IndexError
   <-> exists item,
         In item (take 10 (RetrievalState.fused_evidence state))
         /\ FusedItem.nodes item = Some [])
  /\ (forall s0 s7,
         Graph.down_path env s0 = Ok s7 ->
         state = Nodes.skip_fusion_node env s7 ->
         (forall e, Nodes.answer_synthesizer_node env calls state = Raise e ->
                    e = GatewayError)
         /\ ((forall system user, Env.chat_completion env calls system user <> None) ->
             exists state', Nodes.answer_synthesizer_node env calls state = Ok state')).
Proof.
  assert (Hiff : forall st,
             (exists item, In item (take 10 (RetrievalState.fused_evidence st))
                           /\ FusedItem.nodes item = Some [])
             <-> Nodes.evidence_block 1 (take 10 (RetrievalState.fused_evidence st))
                 = Raise IndexError).
  { intros st. split.
    - intros (item & Hin & Hnil). now apply (evidence_block_index_error _ item).
    - intros Hb. now apply evidence_block_raises in Hb as [_ H]. }
  split.
  - rewrite Hiff. unfold Nodes.answer_synthesizer_node.
    destruct (Nodes.evidence_block 1 _) as [text|e]; cbn.
    + destruct (Env.chat_completion env calls _ _); cbn; split; discriminate.
    + split; intros [= ->]; reflexivity.
  - intros s0 s7 Hdown ->.
    assert (Hok : exists text,
               Nodes.evidence_block 1
                 (take 10 (RetrievalState.fused_evidence (Nodes.skip_fusion_node env s7)))
               = Ok text).
    { apply evidence_block_ok, List.Forall_forall. intros item Hin Hnil.
      apply In_take in Hin.
      apply fused_item_source in Hin
        as [(x & _ & ->)|[(f & Hf & ->)|(x & _ & -> & _)]]; try discriminate.
      destruct (down_path_shape env _ _ Hdown) as (s4 & -> & _).
      apply In_take in Hf.
      destruct (graph_expander_node_found env s4) as (found & Hwf & Hfacts & _).
      change (In f (RetrievalState.graph_facts (Nodes.graph_expander_node env s4))) in Hf.
      rewrite Hfacts in Hf. apply in_map_iff in Hf as (x & <- & Hx).
      rewrite List.Forall_forall in Hwf. destruct (Hwf x Hx) as (_ & Hlen & _).
      cbn in Hnil. injection Hnil as Hnil. rewrite Hnil in Hlen. simpl in Hlen. lia. }
    destruct Hok as [text Hok]. unfold Nodes.answer_synthesizer_node. rewrite Hok. cbn.
    split.
    + intros e. destruct (Env.chat_completion env calls _ _); cbn; congruence.
    + intros Hllm. destruct (Env.chat_completion env calls _ _) eqn:E; cbn; [eauto|].
      now apply Hllm in E.
Qed.

Lemma down_path_buffers (env : Env.t) (s0 s7 : RetrievalState.t) :
  Graph.down_path env s0 = Ok s7 ->
  RetrievalState.skip_vector s7 = take 10 (RetrievalState.vector_candidates s7)
  /\ RetrievalState.skip_rerank s7
     = take 5 (Nodes.rerank (RetrievalState.vector_candidates s7)
                            (RetrievalState.graph_facts s7))
  /\ RetrievalState.skip_graph s7 = take 15 (RetrievalState.graph_facts s7).
Proof.
  intros Hdown. destruct (down_path_shape env _ _ Hdown) as (s4 & -> & _ & _ & Hsv).
  pose proof (after_expansion_leaves (Nodes.graph_expander_node env s4))
    as (_ & _ & Hv & Hc & Hg & Hf & _ & Hr & _).
  pose proof (expansion_leaves env s4) as (_ & _ & Hv5 & Hc5 & Hg5).
  cbv zeta in *. rewrite Hv, Hc, Hr, Hg, Hf, Hv5, Hc5, Hg5. now split.
Qed.

(** X11.  After the down path, a fused item attributed to the
    rerank buffer is always a passage that the vector search ranked below its
    tenth result: the rerank buffer holds re-scored vector candidates, and
    those among the first ten are already fused from the vector buffer, with
    their vector score.  With at most ten recalled passages the rerank buffer
    therefore adds nothing, and every fused item is a vector or a graph
    entry. *)
Theorem rerank_buffer_adds_only_lower_ranked_passages
    (env : Env.t) (s0 s7 : RetrievalState.t) :
  Graph.down_path env s0 = Ok s7 ->
  let candidates := RetrievalState.vector_candidates s7 in
  let fused := RetrievalState.fused_evidence (Nodes.skip_fusion_node env s7) in
  (forall item,
      In item fused -> FusedItem.source item = "rerank" ->
      exists c,
        In c (drop 10 candidates)
        /\ FusedItem.content item = VectorSearchResult.content c
        /\ FusedItem.doc_id item = Some (VectorSearchResult.doc_id c)
        /\ ~ In (Nodes.content_hash env (VectorSearchResult.content c))
                (map (fun x => Nodes.content_hash env (VectorSearchResult.content x))
                     (take 10 candidates)))
  /\ (length candidates <= 10 ->
      forall item,
        In item fused ->
        FusedItem.source item = "vector" \/ FusedItem.source item = "graph").
Proof.
  intros Hdown candidates fused.
  destruct (down_path_buffers env _ _ Hdown) as (Hsv & Hsr & _).
  fold candidates in Hsv, Hsr.
  assert (Hrerank : forall item,
             In item fused -> FusedItem.source item = "rerank" ->
             exists c,
               In c (drop 10 candidates)
               /\ FusedItem.content item = VectorSearchResult.content c
               /\ FusedItem.doc_id item = Some (VectorSearchResult.doc_id c)
               /\ ~ In (Nodes.content_hash env (VectorSearchResult.content c))
                       (map (fun x => Nodes.content_hash env (VectorSearchResult.content x))
                            (take 10 candidates))).
  { intros item Hin Hsrc.
    apply fused_item_source in Hin
      as [(x & _ & ->)|[(f & _ & ->)|(x & Hx & -> & Hnv)]]; try discriminate.
    rewrite Hsr in Hx. apply In_take in Hx. unfold Nodes.rerank in Hx.
    apply In_take in Hx. apply (Permutation_in _ (sort_desc_perm _ _)) in Hx.
    apply in_map_iff in Hx as (c & <- & Hc).
    rewrite Hsv in Hnv. unfold Spec.passage_hash in Hnv.
    cbn [Nodes.rescore VectorSearchResult.content] in Hnv.
    exists c. split; [|repeat split; exact Hnv].
    rewrite <- (take_drop 10 candidates) in Hc. apply in_app_or in Hc as [Hc|Hc];
      [|exact Hc].
    exfalso. apply Hnv.
    exact (in_map (fun x => Nodes.content_hash env (VectorSearchResult.content x)) _ _ Hc). }
  split; [exact Hrerank|].
  intros Hlen item Hin.
  assert (Hsrc := Hin).
  apply fused_item_source in Hsrc
    as [(x & _ & ->)|[(f & _ & ->)|(x & _ & -> & _)]]; [now left|now right|].
  exfalso. destruct (Hrerank _ Hin eq_refl) as (c & Hc & _).
  rewrite drop_ge in Hc by exact Hlen. destruct Hc.
Qed.

Lemma rerank_buffer_adds_only_lower_ranked_passages_witness :
  exists s7,
    Graph.down_path Examples.env Examples.initial = Ok s7
    /\ forall item,
         In item (RetrievalState.fused_evidence (Nodes.skip_fusion_node Examples.env s7)) ->
         FusedItem.source item = "vector" \/ FusedItem.source item = "graph".
Proof.
  assert (H : exists s7, Graph.down_path Examples.env Examples.initial = Ok s7)
    by (eexists; vm_compute; reflexivity).
  destruct H as [s7 H]. exists s7. split; [exact H|].
  apply (rerank_buffer_adds_only_lower_ranked_passages Examples.env Examples.initial s7 H).
  revert H. vm_compute. intros [= <-]. cbn. lia.
Defined.

(* ===================================================================== *)
(** * Facts about [split], [join], [strip] and [lower] *)
(* ===================================================================== *)

Section StringFacts.

Lemma append_cons (c : ascii) (s t : string) : String c s ++ t = String c (s ++ t).
Proof. reflexivity. Qed.

Lemma append_nil_l (t : string) : "" ++ t = t.
Proof. reflexivity. Qed.

Lemma append_nil_r (s : string) : s ++ "" = s.
Proof. induction s as [|c s IH]; [reflexivity|]. now rewrite append_cons, IH. Qed.

Lemma append_assoc (a b c : string) : (a ++ b) ++ c = a ++ b ++ c.
Proof.
  induction a as [|x a IH]; rewrite ?append_cons, ?append_nil_l; congruence.
Qed.

Lemma is_empty_true (s : string) : Py.is_empty s = true <-> s = "".
Proof. destruct s; simpl; split; congruence. Qed.

Lemma all_chars_app (p : ascii -> bool) (a b : string) :
  Shape.all_chars p (a ++ b) = Shape.all_chars p a && Shape.all_chars p b.
Proof.
  induction a as [|c a IH]; rewrite ?append_cons, ?append_nil_l; simpl;
    [reflexivity|]. now rewrite IH, andb_assoc.
Qed.

(** [split] cuts at a whitespace character. *)
Lemma split_go_space (a b cur : string) (c : ascii) :
  Py.is_space c = true ->
  Py.split_go cur (a ++ String c b) = (Py.split_go cur a ++ Py.split_go "" b)%list.
Proof.
  intros Hc. revert cur.
  induction a as [|x a IH]; intros cur; rewrite ?append_cons, ?append_nil_l; simpl.
  - rewrite Hc. now destruct (Py.is_empty cur).
  - destruct (Py.is_space x); [|apply IH].
    destruct (Py.is_empty cur); simpl; now rewrite IH.
Qed.

(** A token is its own only word. *)
Lemma split_go_token (w cur : string) :
  Shape.all_chars Shape.not_space w = true ->
  Py.split_go cur w = if Py.is_empty (cur ++ w) then [] else [cur ++ w].
Proof.
  revert cur. induction w as [|c w IH]; intros cur; simpl.
  - now rewrite append_nil_r.
  - unfold Shape.not_space at 1. intros H. apply andb_true_iff in H as [Hc Hw].
    apply negb_true_iff in Hc.
    rewrite Hc, (IH _ Hw), append_assoc, append_cons, append_nil_l. reflexivity.
Qed.

Lemma split_token (w : string) : Shape.is_token w = true -> Py.split w = [w].
Proof.
  unfold Shape.is_token, Py.split. intros H. apply andb_true_iff in H as [He Hw].
  rewrite (split_go_token _ _ Hw), append_nil_l. apply negb_true_iff in He.
  now rewrite He.
Qed.

(** The words of [split] are tokens with the characters of the text. *)
Lemma split_go_tokens (p : ascii -> bool) (s cur : string) :
  Shape.all_chars Shape.not_space cur = true ->
  Shape.all_chars p cur = true ->
  Shape.all_chars p s = true ->
  Forall (fun w => Shape.is_token w = true /\ Shape.all_chars p w = true)
         (Py.split_go cur s).
Proof.
  revert cur. induction s as [|c s IH]; intros cur Hns Hp Hs; simpl.
  - destruct (Py.is_empty cur) eqn:E; constructor; [|constructor].
    unfold Shape.is_token. now rewrite E, Hns.
  - simpl in Hs. apply andb_true_iff in Hs as [Hc Hs].
    destruct (Py.is_space c) eqn:Ec.
    + destruct (Py.is_empty cur) eqn:E.
      * now apply IH.
      * constructor; [|now apply IH]. unfold Shape.is_token. now rewrite E, Hns.
    + apply IH; [| |exact Hs]; rewrite all_chars_app; simpl.
      * unfold Shape.not_space at 2. now rewrite Hns, Ec.
      * now rewrite Hp, Hc.
Qed.

Lemma split_tokens (p : ascii -> bool) (s : string) :
  Shape.all_chars p s = true ->
  Forall (fun w => Shape.is_token w = true /\ Shape.all_chars p w = true) (Py.split s).
Proof. now apply split_go_tokens. Qed.

(** [split] ignores leading and trailing whitespace. *)
Lemma split_lstrip (s : string) : Py.split (Py.lstrip s) = Py.split s.
Proof.
  unfold Py.split. induction s as [|c s IH]; simpl; [reflexivity|].
  destruct (Py.is_space c) eqn:Ec; [exact IH|]. simpl. now rewrite Ec.
Qed.

Lemma split_go_rstrip (s cur : string) :
  Py.split_go cur (Py.rstrip s) = Py.split_go cur s.
Proof.
  revert cur. induction s as [|c s IH]; intros cur; simpl; [reflexivity|].
  destruct (Py.is_space c) eqn:Ec; simpl.
  - destruct (Py.is_empty (Py.rstrip s)) eqn:Er; simpl.
    + apply is_empty_true in Er. rewrite <- (IH ""), Er. simpl.
      now destruct (Py.is_empty cur).
    + rewrite Ec. now rewrite IH.
  - rewrite Ec. apply IH.
Qed.

Lemma split_strip (s : string) : Py.split (Py.strip s) = Py.split s.
Proof.
  unfold Py.strip. unfold Py.split at 1. rewrite split_go_rstrip. apply split_lstrip.
Qed.

Lemma all_chars_lstrip (p : ascii -> bool) (s : string) :
  Shape.all_chars p s = true -> Shape.all_chars p (Py.lstrip s) = true.
Proof.
  induction s as [|c s IH]; simpl; [reflexivity|]. intros H.
  destruct (Py.is_space c); [|exact H]. apply andb_true_iff in H as [_ H]. now apply IH.
Qed.

Lemma all_chars_rstrip (p : ascii -> bool) (s : string) :
  Shape.all_chars p s = true -> Shape.all_chars p (Py.rstrip s) = true.
Proof.
  induction s as [|c s IH]; simpl; [reflexivity|]. intros H.
  apply andb_true_iff in H as [Hc H].
  destruct (Py.is_space c && Py.is_empty (Py.rstrip s)); simpl; [reflexivity|].
  now rewrite Hc, IH.
Qed.

Lemma all_chars_strip (p : ascii -> bool) (s : string) :
  Shape.all_chars p s = true -> Shape.all_chars p (Py.strip s) = true.
Proof. intros H. now apply all_chars_rstrip, all_chars_lstrip. Qed.

Lemma lower_char_not_upper (c : ascii) : Py.is_upper (Py.lower_char c) = false.
Proof.
  destruct c as [[] [] [] [] [] [] [] []]; reflexivity.
Qed.

Lemma lower_not_upper (s : string) : Shape.all_chars Shape.not_upper (Py.lower s) = true.
Proof.
  unfold Py.lower. induction s as [|c s IH]; simpl; [reflexivity|].
  unfold Shape.not_upper at 1. now rewrite lower_char_not_upper, IH.
Qed.

Lemma lower_fixed (s : string) :
  Shape.all_chars Shape.not_upper s = true -> Py.lower s = s.
Proof.
  unfold Py.lower. induction s as [|c s IH]; simpl; [reflexivity|]. intros H.
  apply andb_true_iff in H as [Hc H]. rewrite (IH H).
  unfold Py.lower_char. apply negb_true_iff in Hc. now rewrite Hc.
Qed.

(** Joining with a space and splitting again. *)
Lemma split_join (parts : list string) :
  Py.split (Py.join " " parts) = flat_map Py.split parts.
Proof.
  induction parts as [|p [|q rest] IH].
  - reflexivity.
  - simpl. now rewrite app_nil_r.
  - change (Py.join " " (p :: q :: rest)) with (p ++ String " " (Py.join " " (q :: rest))).
    unfold Py.split in *. rewrite split_go_space by reflexivity.
    now rewrite IH.
Qed.

Lemma join_app (a b : list string) :
  a <> [] -> b <> [] ->
  Py.join " " (a ++ b) = Py.join " " a ++ " " ++ Py.join " " b.
Proof.
  intros Ha Hb. induction a as [|x [|y a] IH]; [congruence| |].
  - destruct b; [congruence|]. reflexivity.
  - change (Py.join " " ((x :: y :: a) ++ b)%list)
      with (x ++ " " ++ Py.join " " ((y :: a) ++ b)%list).
    rewrite IH by discriminate.
    change (Py.join " " (x :: y :: a)) with (x ++ " " ++ Py.join " " (y :: a)).
    now rewrite !append_assoc.
Qed.

Lemma join_split_parts (parts : list string) :
  Forall (fun e => Py.split e <> [] /\ Py.join " " (Py.split e) = e) parts ->
  Py.join " " (flat_map Py.split parts) = Py.join " " parts.
Proof.
  induction 1 as [|e [|q rest] [Hne He] Hrest IH].
  - reflexivity.
  - simpl. now rewrite app_nil_r.
  - change (flat_map Py.split (e :: q :: rest))
      with (Py.split e ++ flat_map Py.split (q :: rest))%list.
    rewrite join_app, IH, He; [reflexivity|exact Hne|].
    inversion Hrest as [|? ? [Hq _] _]; subst. simpl.
    destruct (Py.split q); [congruence|discriminate].
Qed.

Lemma all_chars_join (p : ascii -> bool) (parts : list string) :
  p " "%char = true ->
  Forall (fun w => Shape.all_chars p w = true) parts ->
  Shape.all_chars p (Py.join " " parts) = true.
Proof.
  intros Hsp. induction 1 as [|w [|q rest] Hw Hrest IH]; [reflexivity|exact Hw|].
  change (Py.join " " (w :: q :: rest)) with (w ++ String " " (Py.join " " (q :: rest))).
  rewrite all_chars_app. cbn [Shape.all_chars]. now rewrite Hw, Hsp, IH.
Qed.

End StringFacts.

(* ===================================================================== *)
(** * Query normalization *)
(* ===================================================================== *)

(** An abbreviation is replaced by lowercase, single-spaced words none of
    which is an abbreviation; any other lowercase token is kept. *)
Lemma expansion_shape (w : string) :
  Shape.is_token w = true ->
  Shape.all_chars Shape.not_upper w = true ->
  let e := Py.table_get Nodes.abbreviations w w in
  Py.split e <> []
  /\ Py.join " " (Py.split e) = e
  /\ Shape.all_chars Shape.not_upper e = true
  /\ Forall (fun t => Py.table_get Nodes.abbreviations t t = t) (Py.split e).
Proof.
  intros Htok Hlow. unfold Nodes.abbreviations. simpl.
  repeat match goal with
         | |- context [String.eqb w ?k] =>
             destruct (String.eqb w k) eqn:?;
             [vm_compute; repeat split; try discriminate; repeat constructor|]
         end.
  rewrite (split_token _ Htok). split; [discriminate|]. split; [reflexivity|].
  split; [exact Hlow|]. constructor; [|constructor].
  simpl. repeat match goal with H : String.eqb w _ = false |- _ => rewrite H; clear H end.
  reflexivity.
Qed.

Lemma normalized_shape (query : string) :
  let words := Py.split (Py.lower (Py.strip query)) in
  let expanded := map (fun w => Py.table_get Nodes.abbreviations w w) words in
  Forall (fun e =>
            (Py.split e <> [] /\ Py.join " " (Py.split e) = e)
            /\ Shape.all_chars Shape.not_upper e = true
            /\ Forall (fun t => Py.table_get Nodes.abbreviations t t = t) (Py.split e))
         expanded.
Proof.
  intros words expanded. subst expanded. apply List.Forall_map.
  pose proof (split_tokens Shape.not_upper (Py.lower (Py.strip query))
                (lower_not_upper _)) as H.
  fold words in H. induction H as [|w ws [Htok Hlow] _ IH]; constructor; [|exact IH].
  destruct (expansion_shape w Htok Hlow) as (H1 & H2 & H3 & H4). tauto.
Qed.

Lemma normalized_not_upper (state : RetrievalState.t) :
  Shape.all_chars Shape.not_upper
    (RetrievalState.normalized_query (Nodes.query_normalizer_node state)) = true.
Proof.
  apply all_chars_join; [reflexivity|].
  eapply List.Forall_impl; [|exact (normalized_shape (RetrievalState.query state))].
  intros e (_ & H & _). exact H.
Qed.

(** X12.  The normalized query is in normal form: it holds no
    uppercase letter (so lowercasing it again, as the intent classifier does,
    changes nothing), its words are separated by single spaces with no
    whitespace at either end, none of its words is one of the seven
    abbreviations, and normalizing it again leaves it unchanged. *)
Theorem query_normalizer_normal_form (state : RetrievalState.t) :
  let normalized :=
    RetrievalState.normalized_query (Nodes.query_normalizer_node state) in
  Shape.all_chars Shape.not_upper normalized = true
  /\ Py.lower normalized = normalized
  /\ Py.join " " (Py.split normalized) = normalized
  /\ Forall (fun word => ~ In word (map fst Nodes.abbreviations)) (Py.split normalized)
  /\ (forall state2,
         RetrievalState.query state2 = normalized ->
         RetrievalState.normalized_query (Nodes.query_normalizer_node state2)
         = normalized).
Proof.
  intros normalized.
  set (words := Py.split (Py.lower (Py.strip (RetrievalState.query state)))).
  set (expanded := map (fun w => Py.table_get Nodes.abbreviations w w) words).
  assert (Hn : normalized = Py.join " " expanded) by reflexivity.
  pose proof (normalized_shape (RetrievalState.query state)) as Hshape.
  cbv zeta in Hshape. fold words expanded in Hshape.
  assert (Hlow : Shape.all_chars Shape.not_upper normalized = true)
    by apply normalized_not_upper.
  assert (Hsplit : Py.split normalized = flat_map Py.split expanded)
    by (rewrite Hn; apply split_join).
  assert (Hjoin : Py.join " " (Py.split normalized) = normalized).
  { rewrite Hsplit, Hn. apply join_split_parts.
    eapply List.Forall_impl; [|exact Hshape]. intros e (H & _). exact H. }
  assert (Hfixed : Forall (fun t => Py.table_get Nodes.abbreviations t t = t)
                          (Py.split normalized)).
  { rewrite Hsplit. apply Forall_flat_map.
    eapply List.Forall_impl; [|exact Hshape]. intros e (_ & _ & H). exact H. }
  split; [exact Hlow|]. split; [now apply lower_fixed|]. split; [exact Hjoin|].
  split.
  - eapply List.Forall_impl; [|exact Hfixed]. intros word Hword Hin.
    simpl in Hin.
    repeat (destruct Hin as [<-|Hin]; [revert Hword; vm_compute; discriminate|]).
    exact Hin.
  - intros state2 Hq. unfold Nodes.query_normalizer_node.
    cbn [RetrievalState.normalized_query RetrievalState.set_normalized_query].
    rewrite Hq, (lower_fixed (Py.strip normalized))
      by now apply all_chars_strip.
    rewrite split_strip.
    rewrite (List.map_ext_Forall _ id Hfixed), map_id. exact Hjoin.
Qed.

(* ===================================================================== *)
(** * Fallback entity extraction *)
(* ===================================================================== *)

Section TagFacts.

Lemma first_some_In {A B} (f : A -> option B) (l : list A) (b : B) :
  Nodes.first_some f l = Some b -> exists a, In a l /\ f a = Some b.
Proof.
  induction l as [|a l IH]; simpl; [discriminate|].
  destruct (f a) as [b'|] eqn:E.
  - intros [= ->]. exists a. split; [now left|exact E].
  - intros H. destruct (IH H) as (a' & Hin & Ha). exists a'. split; [now right|exact Ha].
Qed.

Lemma counts_down_In (hi lo k : nat) :
  In k (Nodes.counts_down hi lo) -> lo <= k <= hi.
Proof.
  unfold Nodes.counts_down. intros H. apply filter_In in H as [H Hlo].
  apply Nat.leb_le in Hlo. apply in_rev, in_seq in H. lia.
Qed.

Lemma span_bound (p : ascii -> bool) (hi : nat) (s : string) : Py.span p hi s <= hi.
Proof.
  revert s. induction hi as [|hi IH]; intros [|c s]; simpl; try lia.
  destruct (p c); [specialize (IH s)|]; lia.
Qed.

Lemma span_take (p : ascii -> bool) (hi k : nat) (s : string) :
  k <= Py.span p hi s ->
  Shape.all_chars p (Py.take k s) = true /\ String.length (Py.take k s) = k.
Proof.
  revert hi s. induction k as [|k IH]; intros hi s H; [now destruct s|].
  destruct hi as [|hi]; destruct s as [|c s]; simpl in H; try lia.
  destruct (p c) eqn:Ec; [|lia]. simpl. rewrite Ec.
  destruct (IH hi s) as [Ha Hl]; [lia|]. now rewrite Ha, Hl.
Qed.

Lemma take_add (a b : nat) (s : string) :
  Py.take (a + b) s = Py.take a s ++ Py.take b (Py.drop a s).
Proof.
  revert s. induction a as [|a IH]; intros s; simpl.
  - now destruct s.
  - destruct s as [|c s]; [now destruct b|]. now rewrite append_cons, IH.
Qed.

End TagFacts.

(** The text matched by a successful match of the asset pattern. *)
Lemma match_letters_tag (s : string) (n : nat) :
  Nodes.match_letters s = Some n ->
  exists letters digits suffix,
    Py.take n s = letters ++ "-" ++ digits ++ suffix
    /\ 1 <= String.length letters <= 3
    /\ Shape.all_chars Py.is_upper letters = true
    /\ 2 <= String.length digits <= 4
    /\ Shape.all_chars Py.is_digit digits = true
    /\ (suffix = "" \/ exists c, suffix = String c "" /\ Py.is_upper c = true).
Proof.
  unfold Nodes.match_letters. intros H.
  apply first_some_In in H as (k & Hk & H). apply counts_down_In in Hk.
  pose proof (span_bound Py.is_upper 3 s) as Hk3.
  destruct (Py.drop k s) as [|c s'] eqn:Hdrop; [discriminate|].
  destruct (Ascii.eqb_spec c "-") as [->|]; [|discriminate].
  destruct (Nodes.match_digits s') as [m'|] eqn:Hd; [|discriminate].
  injection H as <-. unfold Nodes.match_digits in Hd.
  apply first_some_In in Hd as (m & Hm & Hd). apply counts_down_In in Hm.
  pose proof (span_bound Py.is_digit 4 s') as Hm4.
  destruct (Nodes.match_suffix (Py.drop m s')) as [j|] eqn:Hs; [|discriminate].
  injection Hd as <-.
  destruct (span_take Py.is_upper 3 k s) as [Hup Hlen]; [lia|].
  destruct (span_take Py.is_digit 4 m s') as [Hdig Hlen']; [lia|].
  exists (Py.take k s), (Py.take m s'), (Py.take j (Py.drop m s')).
  split.
  - replace (k + 1 + (m + j)) with (k + S (m + j)) by lia.
    rewrite take_add, Hdrop. simpl. now rewrite take_add.
  - rewrite Hlen, Hlen'. repeat split; try lia; try assumption.
    unfold Nodes.match_suffix in Hs.
    destruct (Py.drop m s') as [|c r]; [injection Hs as <-; now left|].
    destruct (Py.is_upper c && Nodes.at_word_end r) eqn:E.
    + injection Hs as <-. right. exists c. apply andb_true_iff in E as [E _].
      split; [reflexivity|exact E].
    + destruct (Nodes.at_word_end (String c r)); [|discriminate].
      injection Hs as <-. now left.
Qed.

Lemma finditer_go_tags (s : string) :
  forall skip prev tag,
    In tag (Nodes.finditer_go skip prev s) ->
    exists s' n, Nodes.match_letters s' = Some n /\ tag = Py.take n s'.
Proof.
  induction s as [|c s IH]; intros skip prev tag; simpl; [tauto|].
  destruct skip as [|skip]; [|apply IH].
  destruct (Nodes.match_here prev (String c s)) as [[|k]|] eqn:Hm; try apply IH.
  intros [<-|Hin]; [|now apply (IH _ _ _ Hin)].
  exists (String c s), (S k). split; [|reflexivity].
  unfold Nodes.match_here in Hm. now destruct (match prev with Some _ => _ | None => _ end).
Qed.

(** A prefix without uppercase letter, ended by two line feeds, holds no
    match and does not affect the matches after it. *)
Lemma finditer_go_lower_prefix (a b : string) :
  Shape.all_chars Shape.not_upper a = true ->
  forall prev,
    Nodes.finditer_go 0 prev (a ++ Nodes.nl2 ++ b) = Nodes.finditer_go 0 None b.
Proof.
  induction a as [|c a IH]; intros H prev.
  - rewrite append_nil_l. unfold Nodes.nl2. rewrite !append_cons, append_nil_l.
    cbn [Nodes.finditer_go].
    replace (Nodes.match_here prev (String (ascii_of_nat 10) (String (ascii_of_nat 10) b)))
      with (@None nat)
      by (unfold Nodes.match_here; now destruct (match prev with Some _ => _ | None => _ end)).
    replace (Nodes.match_here (Some (ascii_of_nat 10)) (String (ascii_of_nat 10) b))
      with (@None nat) by reflexivity.
    destruct b as [|x b]; reflexivity.
  - rewrite append_cons. cbn [Nodes.finditer_go].
    simpl in H. apply andb_true_iff in H as [Hc Ha].
    replace (Nodes.match_here prev (String c (a ++ Nodes.nl2 ++ b))) with (@None nat).
    + now apply IH.
    + unfold Nodes.match_here.
      destruct (match prev with Some _ => _ | None => _ end); [reflexivity|].
      unfold Nodes.match_letters. simpl. unfold Shape.not_upper in Hc.
      apply negb_true_iff in Hc. now rewrite Hc.
Qed.

Lemma context_text (cands : list VectorSearchResult.t) (init : string) :
  fold_left
    (fun ctx result => ctx ++ Py.take 500 (VectorSearchResult.content result) ++ Nodes.nl2)
    cands init
  = init
    ++ fold_left
         (fun ctx result =>
            ctx ++ Py.take 500 (VectorSearchResult.content result) ++ Nodes.nl2)
         cands "".
Proof.
  revert init. induction cands as [|r cands IH]; intros init; simpl.
  - now rewrite append_nil_r.
  - rewrite IH, (IH ("" ++ _)), append_nil_l, append_assoc. reflexivity.
Qed.

(** X13.  When the language model fails, the entities extracted are the
    matches of the asset-tag pattern in the first 500 characters of each of
    the first five passages, in order, each as an ASSET of confidence 0.9: the
    normalized query, being lowercase, contributes none, whatever tags the
    user named.  Every match consists of one to three uppercase letters, a
    hyphen, two to four digits and at most one more uppercase letter. *)
Theorem fallback_extraction_reads_passages_only (env : Env.t) (state : RetrievalState.t) :
  (forall system user, Env.structured_output env system user = None) ->
  let passages_text :=
    fold_left
      (fun text result =>
         text ++ Py.take 500 (VectorSearchResult.content result) ++ Nodes.nl2)
      (take 5 (RetrievalState.vector_candidates state)) "" in
  let tags := Nodes.asset_pattern_finditer passages_text in
  RetrievalState.extracted_entities
    (Nodes.entity_extractor_node env (Nodes.query_normalizer_node state))
  = map (fun tag => ExtractedEntity.mk tag EntityType.ASSET 0.9%Q "" None) tags
  /\ (RetrievalState.vector_candidates state = [] -> tags = [])
  /\ forall tag,
       In tag tags ->
       exists letters digits suffix,
         tag = letters ++ "-" ++ digits ++ suffix
         /\ 1 <= String.length letters <= 3
         /\ Shape.all_chars Py.is_upper letters = true
         /\ 2 <= String.length digits <= 4
         /\ Shape.all_chars Py.is_digit digits = true
         /\ (suffix = "" \/ exists c, suffix = String c "" /\ Py.is_upper c = true).
Proof.
  intros Hllm passages_text tags. split; [|split].
  - unfold Nodes.entity_extractor_node. rewrite Hllm.
    cbn [RetrievalState.extracted_entities RetrievalState.set_extracted_entities].
    f_equal. rewrite context_text.
    change (RetrievalState.vector_candidates (Nodes.query_normalizer_node state))
      with (RetrievalState.vector_candidates state).
    fold passages_text. rewrite append_assoc.
    unfold Nodes.asset_pattern_finditer. apply finditer_go_lower_prefix.
    apply normalized_not_upper.
  - intros Hnil. subst tags passages_text. now rewrite Hnil.
  - intros tag Hin. apply finditer_go_tags in Hin as (s' & n & Hm & ->).
    now apply match_letters_tag.
Qed.

Lemma fallback_extraction_reads_passages_only_witness :
  map ExtractedEntity.name
      (RetrievalState.extracted_entities
         (Nodes.entity_extractor_node FallbackExamples.env
            (Nodes.query_normalizer_node FallbackExamples.state)))
  = ["V-201"].
Proof.
  rewrite (proj1 (fallback_extraction_reads_passages_only
                    FallbackExamples.env FallbackExamples.state
                    (fun _ _ => eq_refl))).
  vm_compute. reflexivity.
Defined.

(* ===================================================================== *)
(** * Further properties of entity resolution *)
(* ===================================================================== *)

Section ResolveFacts.
Context (self : Resolver.EntityResolver) (svc : Resolver.Services).

Lemma find_candidates_cases (normalized : Resolver.Normalized) (limit : nat) :
  Resolver.find_candidates svc normalized limit
  = match Resolver.exact_query svc (Resolver.canonical_name normalized) with
    | None => Raise GatewayError
    | Some (r :: rows) =>
        Ok (map (fun r => Resolver.mkCandidate r "exact" 1.0%Q) (take limit (r :: rows)))
    | Some [] =>
        Ok match Resolver.fuzzy_query svc (Resolver.canonical_name normalized) limit with
           | Some rows =>
               map (fun r => Resolver.mkCandidate (fst r) "fuzzy"
                               (Resolver.fuzzy_score (Resolver.canonical_name normalized)
                                                     (snd r)))
                   (take limit rows)
           | None => []
           end
    end.
Proof.
  unfold Resolver.find_candidates.
  destruct (Resolver.exact_query svc _) as [[|r rows]|]; cbn; try reflexivity.
  - destruct (Resolver.fuzzy_query svc _ limit) as [rows|]; [|now destruct limit].
    now rewrite firstn_map.
  - now rewrite <- firstn_map.
Qed.

Lemma resolve_raises (drawn : nat) (entity : ExtractedEntity.t) :
  Resolver.resolve self svc drawn entity
  = match Resolver.exact_query svc (Resolver.canonical_name_of entity) with
    | None => Raise GatewayError
    | Some _ =>
        Ok (Resolver.decide_action self svc drawn (Resolver.normalize svc entity) entity
              (map (Resolver.score_candidate self svc (Resolver.normalize svc entity))
                   match Resolver.find_candidates svc (Resolver.normalize svc entity) 5 with
                   | Ok candidates => candidates
                   | Raise _ => []
                   end))
    end.
Proof.
  unfold Resolver.resolve. rewrite find_candidates_cases.
  change (Resolver.canonical_name (Resolver.normalize svc entity))
    with (Resolver.canonical_name_of entity).
  destruct (Resolver.exact_query svc _) as [[|r rows]|]; reflexivity.
Qed.

(** What [resolve] draws: nothing on MERGE, one identifier otherwise. *)
Lemma decide_action_draws (drawn : nat) (normalized : Resolver.Normalized)
    (entity : ExtractedEntity.t) (scored : list Resolver.Scored) :
  let result := fst (Resolver.decide_action self svc drawn normalized entity scored) in
  let drawn' := snd (Resolver.decide_action self svc drawn normalized entity scored) in
  (Resolver.action result = Resolver.MERGE /\ drawn' = drawn)
  \/ (Resolver.action result <> Resolver.MERGE /\ drawn' = S drawn
      /\ Resolver.entity_id result = Resolver.uuid4 svc drawn).
Proof.
  unfold Resolver.decide_action.
  destruct (sort_desc _ _) as [|best rest]; cbn; [right; repeat split; discriminate|].
  destruct (Qle_bool (Resolver.merge_threshold self) _); cbn; [now left|].
  destruct (Qle_bool (Resolver.link_threshold self) _); cbn;
    right; repeat split; discriminate.
Qed.

End ResolveFacts.

(** X14.  Candidate search prefers exact matches: when the exact-match
    query returns rows, the candidates are the first [limit] of them, each
    with score 1.0, and the fuzzy query plays no part; when it returns none,
    the candidates are the first [limit] fuzzy rows, scored
    [1 - distance / max(len(name), 1)], and a failing fuzzy query counts as no
    row.  Only a failing exact-match query raises, and never more than
    [limit] candidates are returned. *)
Theorem find_candidates_prefers_exact_matches
    (svc : Resolver.Services) (normalized : Resolver.Normalized) (limit : nat) :
  let name := Resolver.canonical_name normalized in
  let found := Resolver.find_candidates svc normalized limit in
  (Resolver.exact_query svc name = None <-> exists e, found = Raise e)
  /\ (forall rows,
         Resolver.exact_query svc name = Some rows -> rows <> [] ->
         found = Ok (map (fun r => Resolver.mkCandidate r "exact" 1.0%Q)
                         (take limit rows)))
  /\ (Resolver.exact_query svc name = Some [] ->
      Resolver.fuzzy_query svc name limit = None -> found = Ok [])
  /\ (forall rows,
         Resolver.exact_query svc name = Some [] ->
         Resolver.fuzzy_query svc name limit = Some rows ->
         found = Ok (map (fun r => Resolver.mkCandidate (fst r) "fuzzy"
                                     (Resolver.fuzzy_score name (snd r)))
                         (take limit rows)))
  /\ (forall candidates, found = Ok candidates -> length candidates <= limit).
Proof.
  intros name found. subst found. rewrite find_candidates_cases. fold name.
  destruct (Resolver.exact_query svc name) as [[|r rows]|].
  - split; [split; [discriminate|intros [e H]; discriminate]|].
    split; [intros rows [= <-] H; congruence|].
    split; [now intros _ ->|]. split; [now intros rows _ ->|].
    intros candidates [= <-].
    destruct (Resolver.fuzzy_query svc name limit); [|simpl; lia].
    rewrite length_map. apply firstn_le_length.
  - split; [split; [discriminate|intros [e H]; discriminate]|].
    split; [now intros rows' [= <-] _|].
    split; [discriminate|]. split; [discriminate|].
    intros candidates [= <-]. rewrite length_map. apply firstn_le_length.
  - split; [split; [eauto|reflexivity]|].
    split; [discriminate|]. split; [discriminate|]. split; discriminate.
Qed.

(** X15.  [resolve] raises exactly when the exact-match query does.
    A result it returns is well formed: MERGE carries the identifier of a
    candidate, no new entity and the two scores, and draws no identifier, its
    confidence being at least the merge threshold; LINK and CREATE draw
    exactly one identifier and carry a new entity with that identifier, the
    canonical name, the mention as only original name, the mention's type and
    the embedding of the canonical name; only LINK names an entity linked to,
    by RELATED_TO, with a confidence of at least the link threshold; CREATE
    has confidence 1.0. *)
Theorem resolve_result_well_formed
    (self : Resolver.EntityResolver) (svc : Resolver.Services) (drawn : nat)
    (entity : ExtractedEntity.t) :
  let name := Resolver.canonical_name_of entity in
  let created :=
    ResolvedEntity.mk (Resolver.uuid4 svc drawn) name [ExtractedEntity.name entity]
                      (ExtractedEntity.type entity)
                      (Some (Resolver.embed_passage svc name)) in
  (Resolver.exact_query svc name = None
   <-> exists e, Resolver.resolve self svc drawn entity = Raise e)
  /\ forall result drawn',
       Resolver.resolve self svc drawn entity = Ok (result, drawn') ->
       match Resolver.action result with
       | Resolver.MERGE =>
           drawn' = drawn
           /\ Resolver.canonical result = None
           /\ Resolver.link_to result = None /\ Resolver.link_type result = None
           /\ Resolver.reasoning result <> None
           /\ (Resolver.merge_threshold self <= Resolver.confidence result)%Q
       | Resolver.LINK =>
           drawn' = S drawn
           /\ Resolver.entity_id result = Resolver.uuid4 svc drawn
           /\ Resolver.canonical result = Some created
           /\ Resolver.link_to result <> None
           /\ Resolver.link_type result = Some "RELATED_TO"
           /\ Resolver.reasoning result = None
           /\ (Resolver.link_threshold self <= Resolver.confidence result)%Q
           /\ ~ (Resolver.merge_threshold self <= Resolver.confidence result)%Q
       | Resolver.CREATE =>
           drawn' = S drawn
           /\ Resolver.entity_id result = Resolver.uuid4 svc drawn
           /\ Resolver.canonical result = Some created
           /\ Resolver.link_to result = None /\ Resolver.link_type result = None
           /\ Resolver.reasoning result = None
           /\ Resolver.confidence result = 1.0%Q
       end.
Proof.
  intros name created. rewrite resolve_raises. fold name.
  destruct (Resolver.exact_query svc name) as [rows|].
  2: { split; [split; [eauto|reflexivity]|discriminate]. }
  split; [split; [discriminate|intros [e H]; discriminate]|].
  intros result drawn'. unfold Resolver.decide_action.
  destruct (sort_desc _ _) as [|best rest].
  - intros [= <- <-]. cbn. repeat split.
  - destruct (Qle_bool (Resolver.merge_threshold self) _) eqn:Em.
    + intros [= <- <-]. cbn. apply Qle_bool_iff in Em. repeat split; [discriminate|exact Em].
    + destruct (Qle_bool (Resolver.link_threshold self) _) eqn:El.
      * intros [= <- <-]. cbn. apply Qle_bool_iff in El.
        repeat split; [discriminate|exact El|].
        rewrite <- Qle_bool_iff. congruence.
      * intros [= <- <-]. cbn. repeat split.
Qed.

(** X16.  [batch_resolve] resolves the entities one after the other and
    returns one result per entity, in order, or raises when the exact-match
    query of some entity does, in which case no result is returned.  It draws
    one identifier per result that is not a MERGE, so the identifiers of these
    results are consecutive draws. *)
Theorem batch_resolve_in_order
    (self : Resolver.EntityResolver) (svc : Resolver.Services)
    (entities : list ExtractedEntity.t) (drawn : nat) :
  let merged (r : Resolver.ResolutionResult) :=
    match Resolver.action r with Resolver.MERGE => true | _ => false end in
  match Resolver.batch_resolve self svc drawn entities with
  | Ok (results, drawn') =>
      Forall2
        (fun entity result =>
           exists d d', drawn <= d /\ d' <= drawn'
                        /\ Resolver.resolve self svc d entity = Ok (result, d'))
        entities results
      /\ drawn' = drawn + length (List.filter (fun r => negb (merged r)) results)
      /\ map Resolver.entity_id (List.filter (fun r => negb (merged r)) results)
         = map (Resolver.uuid4 svc) (seq drawn (drawn' - drawn))
  | Raise e =>
      e = GatewayError
      /\ exists entity,
           In entity entities
           /\ Resolver.exact_query svc (Resolver.canonical_name_of entity) = None
  end.
Proof.
  intros merged. revert drawn.
  induction entities as [|entity entities IH]; intros drawn.
  - cbn. split; [constructor|]. split; [lia|]. now rewrite Nat.sub_diag.
  - cbn [Resolver.batch_resolve].
    destruct (Resolver.resolve self svc drawn entity) as [[result d1]|e] eqn:Hres.
    2: { cbn. rewrite resolve_raises in Hres.
         destruct (Resolver.exact_query svc _) eqn:Hq; [discriminate|].
         injection Hres as <-. split; [reflexivity|]. exists entity. split; [now left|exact Hq]. }
    cbn. specialize (IH d1).
    assert (Hdraw := Hres). rewrite resolve_raises in Hdraw.
    destruct (Resolver.exact_query svc _); [|discriminate].
    injection Hdraw as Hdraw.
    pose proof (decide_action_draws self svc drawn (Resolver.normalize svc entity) entity
                  (map (Resolver.score_candidate self svc (Resolver.normalize svc entity))
                       match Resolver.find_candidates svc (Resolver.normalize svc entity) 5 with
                       | Ok candidates => candidates
                       | Raise _ => []
                       end)) as Hd.
    cbv zeta in Hd. rewrite Hdraw in Hd. cbn [fst snd] in Hd. clear Hdraw.
    destruct (Resolver.batch_resolve self svc d1 entities) as [[results d2]|e].
    + cbn. destruct IH as (Hall & Hd2 & Hids).
      assert (Hle : d1 <= d2) by lia.
      split; [|split].
      * constructor.
        -- exists drawn, d1. split; [lia|]. split; [exact Hle|exact Hres].
        -- eapply Forall2_impl; [exact Hall|]. cbn.
           intros e r (d & d' & H1 & H2 & H3). exists d, d'.
           split; [destruct Hd as [[_ ->]|(_ & -> & _)]; lia|]. now split.
      * cbn [List.filter]. destruct Hd as [[Hm ->]|(Hm & -> & Hid)].
        -- unfold merged at 1. rewrite Hm. cbn. exact Hd2.
        -- assert (Hnm : merged result = false)
             by (unfold merged; destruct (Resolver.action result); congruence).
           rewrite Hnm. cbn. lia.
      * cbn [List.filter]. destruct Hd as [[Hm ->]|(Hm & -> & Hid)].
        -- unfold merged at 1. rewrite Hm. cbn. exact Hids.
        -- assert (Hnm : merged result = false)
             by (unfold merged; destruct (Resolver.action result); congruence).
           rewrite Hnm. cbn [negb map]. rewrite Hid, Hids.
           replace (d2 - drawn) with (S (d2 - S drawn)) by lia. reflexivity.
    + cbn. destruct IH as (-> & entity' & Hin & Hq). split; [reflexivity|].
      exists entity'. split; [now right|exact Hq].
Qed.

Lemma zero_context_similarity (normalized : Resolver.Normalized)
    (candidate : Resolver.Candidate) :
  In (Resolver.row_type (Resolver.cand_row candidate)) ResolverExamples.cypher_labels ->
  (Resolver.compute_context_similarity normalized candidate == 0)%Q.
Proof.
  intros Hlabel. unfold Resolver.compute_context_similarity.
  destruct (String.eqb_spec (EntityType.value (Resolver.type normalized))
                            (Resolver.row_type (Resolver.cand_row candidate)))
    as [Heq|_]; [|reflexivity].
  exfalso. exact (labels_never_match _ _ Hlabel Heq).
Qed.

(** X17.  Under the default thresholds and weights, with a similarity
    that never exceeds 1 and candidate rows typed by the node labels the two
    candidate queries admit, every resolution that returns is a CREATE with a
    newly drawn identifier: the type test compares an entity-type value such
    as ASSET with a label such as Asset and never holds, so a candidate scores
    at most 0.6, below the link threshold 0.70. *)
Theorem default_resolver_always_creates
    (svc : Resolver.Services) (drawn drawn' : nat) (entity : ExtractedEntity.t)
    (result : Resolver.ResolutionResult) :
  (forall a b, (Resolver.cosine_similarity svc a b <= 1)%Q) ->
  (forall name rows,
      Resolver.exact_query svc name = Some rows ->
      Forall (fun r => In (Resolver.row_type r) ResolverExamples.cypher_labels) rows) ->
  (forall name limit rows,
      Resolver.fuzzy_query svc name limit = Some rows ->
      Forall (fun r => In (Resolver.row_type (fst r)) ResolverExamples.cypher_labels)
             rows) ->
  Resolver.resolve Resolver.default_resolver svc drawn entity = Ok (result, drawn') ->
  Resolver.action result = Resolver.CREATE
  /\ drawn' = S drawn
  /\ Resolver.entity_id result = Resolver.uuid4 svc drawn
  /\ Resolver.link_to result = None.
Proof.
  intros Hcos Hexact Hfuzzy. unfold Resolver.resolve.
  destruct (Resolver.find_candidates svc _ 5) as [candidates|e] eqn:Hfind;
    [|discriminate].
  assert (Hlabels : Forall (fun c => In (Resolver.row_type (Resolver.cand_row c))
                                        ResolverExamples.cypher_labels) candidates).
  { rewrite find_candidates_cases in Hfind.
    destruct (Resolver.exact_query svc _) as [[|r rows]|] eqn:Hq; [| |discriminate].
    - injection Hfind as <-.
      destruct (Resolver.fuzzy_query svc _ 5) as [rows|] eqn:Hf; [|constructor].
      apply List.Forall_map. cbn. apply List.Forall_forall. intros r Hr.
      apply In_take in Hr. specialize (Hfuzzy _ _ _ Hf).
      rewrite List.Forall_forall in Hfuzzy. now apply Hfuzzy.
    - remember (take 5 (r :: rows)) as l eqn:Hl in Hfind.
      injection Hfind as <-. apply List.Forall_map. cbn.
      apply List.Forall_forall. intros r' Hr. rewrite Hl in Hr. apply In_take in Hr.
      specialize (Hexact _ _ Hq). rewrite List.Forall_forall in Hexact.
      now apply Hexact. }
  cbn. intros H. injection H as H. unfold Resolver.decide_action in H.
  destruct (sort_desc _ _) as [|best rest] eqn:Hsort.
  - injection H as <- <-. now repeat split.
  - destruct (sort_desc_head _ _ _ _ Hsort) as (Hin & _ & _).
    apply in_map_iff in Hin as (c & <- & Hc).
    rewrite List.Forall_forall in Hlabels. specialize (Hlabels c Hc).
    assert (Hscore : (Resolver.final_score
                        (Resolver.score_candidate Resolver.default_resolver svc
                           (Resolver.normalize svc entity) c) <= 0.6)%Q).
    { cbn [Resolver.score_candidate Resolver.final_score
           Resolver.embedding_weight Resolver.context_weight
           Resolver.default_resolver].
      pose proof (zero_context_similarity (Resolver.normalize svc entity) c Hlabels)
        as Hctx.
      assert (Hemb : (Resolver.compute_embedding_similarity svc
                        (Resolver.embedding (Resolver.normalize svc entity))
                        (Resolver.row_embedding (Resolver.cand_row c)) <= 1)%Q).
      { unfold Resolver.compute_embedding_similarity.
        destruct (Resolver.embedding _); [|discriminate].
        destruct (Resolver.row_embedding _); [apply Hcos|discriminate]. }
      lra. }
    assert (Hm : Qle_bool 0.85 (Resolver.final_score
                   (Resolver.score_candidate Resolver.default_resolver svc
                      (Resolver.normalize svc entity) c)) = false).
    { apply not_true_iff_false. rewrite Qle_bool_iff. apply Qlt_not_le. lra. }
    assert (Hl : Qle_bool 0.70 (Resolver.final_score
                   (Resolver.score_candidate Resolver.default_resolver svc
                      (Resolver.normalize svc entity) c)) = false).
    { apply not_true_iff_false. rewrite Qle_bool_iff. apply Qlt_not_le. lra. }
    cbn [Resolver.merge_threshold Resolver.link_threshold Resolver.default_resolver] in H.
    rewrite Hm, Hl in H. injection H as <- <-. now repeat split.
Qed.

Lemma default_resolver_always_creates_witness :
  exists result,
    Resolver.resolve Resolver.default_resolver BoundedExamples.svc 0
                     ResolverExamples.mention = Ok (result, 1)
    /\ Resolver.action result = Resolver.CREATE.
Proof.
  assert (H : exists result,
             Resolver.resolve Resolver.default_resolver BoundedExamples.svc 0
                              ResolverExamples.mention = Ok (result, 1))
    by (eexists; vm_compute; reflexivity).
  destruct H as [result H]. exists result. split; [exact H|].
  refine (proj1 (default_resolver_always_creates BoundedExamples.svc 0 1
                   ResolverExamples.mention result _ _ _ H)).
  - intros a b. apply Q.le_min_r.
  - intros name rows [= <-]. destruct (String.eqb name "P-101"); repeat constructor.
  - intros name limit rows [= <-]. constructor.
Defined.

(* ===================================================================== *)
(** * Canonical names *)
(* ===================================================================== *)

Section NameFacts.

Lemma all_chars_impl (p q : ascii -> bool) (s : string) :
  (forall c, p c = true -> q c = true) ->
  Shape.all_chars p s = true -> Shape.all_chars q s = true.
Proof.
  intros Hpq. induction s as [|c s IH]; simpl; [reflexivity|].
  intros H. apply andb_true_iff in H as [Hc Hs]. now rewrite (Hpq _ Hc), IH.
Qed.

Lemma all_chars_filter_chars (p q : ascii -> bool) (s : string) :
  Shape.all_chars q s = true -> Shape.all_chars q (Resolver.filter_chars p s) = true.
Proof.
  induction s as [|c s IH]; simpl; [reflexivity|].
  intros H. apply andb_true_iff in H as [Hc Hs].
  destruct (p c); simpl; [now rewrite Hc, IH|now apply IH].
Qed.

Lemma filter_chars_kept (p : ascii -> bool) (s : string) :
  Shape.all_chars p (Resolver.filter_chars p s) = true.
Proof.
  induction s as [|c s IH]; simpl; [reflexivity|].
  destruct (p c) eqn:E; simpl; [now rewrite E|exact IH].
Qed.

Lemma all_chars_collapse (q : ascii -> bool) (s : string) (in_run : bool) :
  q " "%char = true ->
  Shape.all_chars q s = true -> Shape.all_chars q (Resolver.collapse_go in_run s) = true.
Proof.
  intros Hsp. revert in_run. induction s as [|c s IH]; intros in_run; simpl;
    [reflexivity|].
  intros H. apply andb_true_iff in H as [Hc Hs].
  destruct (Py.is_space c); [destruct in_run|]; simpl;
    rewrite ?Hsp, ?Hc; now apply IH.
Qed.

Lemma collapse_name_chars (s : string) (in_run : bool) :
  Shape.all_chars (fun c => Py.is_word c || Py.is_space c || Ascii.eqb c "-") s = true ->
  Shape.all_chars Shape.name_char (Resolver.collapse_go in_run s) = true.
Proof.
  revert in_run. induction s as [|c s IH]; intros in_run; simpl; [reflexivity|].
  intros H. apply andb_true_iff in H as [Hc Hs].
  destruct (Py.is_space c) eqn:Esp; [destruct in_run|]; simpl; try now apply IH.
  rewrite (IH _ Hs), andb_true_r. unfold Shape.name_char.
  rewrite orb_false_r in Hc. apply orb_true_iff in Hc as [->| ->];
    [reflexivity|apply orb_true_r].
Qed.

Lemma upper_char_of_lower (c : ascii) :
  Py.is_lower c = true -> Py.is_upper (Py.upper_char c) = true.
Proof. destruct c as [[] [] [] [] [] [] [] []]; try discriminate; reflexivity. Qed.

Lemma upper_of_lower (s : string) :
  Shape.all_chars Py.is_lower s = true -> Shape.all_chars Py.is_upper (Py.upper s) = true.
Proof.
  unfold Py.upper. induction s as [|c s IH]; simpl; [reflexivity|].
  intros H. apply andb_true_iff in H as [Hc Hs].
  now rewrite (upper_char_of_lower _ Hc), IH.
Qed.

Lemma length_map_chars (f : ascii -> ascii) (s : string) :
  String.length (Py.map_chars f s) = String.length s.
Proof. induction s as [|c s IH]; simpl; congruence. Qed.

(** The tag built for an asset name. *)
Lemma asset_tag_shape (name tag : string) :
  Resolver.asset_tag name = Some tag ->
  exists letters digits suffix,
    tag = letters ++ "-" ++ digits ++ suffix
    /\ 1 <= String.length letters
    /\ Shape.all_chars Py.is_upper letters = true
    /\ 1 <= String.length digits
    /\ Shape.all_chars Py.is_digit digits = true
    /\ (suffix = "" \/ exists c, suffix = String c "" /\ Py.is_upper c = true).
Proof.
  unfold Resolver.asset_tag.
  destruct (Py.span Py.is_lower (Py.len name) name) as [|k] eqn:Hk; [discriminate|].
  set (rest := Py.lstrip match Py.lstrip (Py.drop (S k) name) with
                         | String c r =>
                             if Ascii.eqb c "-" || Ascii.eqb c "_" then r
                             else Py.lstrip (Py.drop (S k) name)
                         | EmptyString => Py.lstrip (Py.drop (S k) name)
                         end).
  destruct (Py.span Py.is_digit (Py.len rest) rest) as [|m] eqn:Hm; [discriminate|].
  intros H.
  destruct (span_take Py.is_lower (Py.len name) (S k) name) as [Hlow Hlen]; [lia|].
  destruct (span_take Py.is_digit (Py.len rest) (S m) rest) as [Hdig Hlen']; [lia|].
  set (suffix := match Py.lstrip (Py.drop (S m) rest) with
                 | String c _ => if Py.is_lower c then String c "" else ""
                 | EmptyString => ""
                 end) in H.
  exists (Py.upper (Py.take (S k) name)), (Py.take (S m) rest), (Py.upper suffix).
  split; [congruence|].
  split; [unfold Py.upper; rewrite length_map_chars, Hlen; lia|].
  split; [now apply upper_of_lower|]. split; [lia|]. split; [exact Hdig|].
  subst suffix. destruct (Py.lstrip (Py.drop (S m) rest)) as [|c r]; [now left|].
  destruct (Py.is_lower c) eqn:Ec; [|now left].
  right. exists (Py.upper_char c). split; [reflexivity|now apply upper_char_of_lower].
Qed.

Lemma abbreviation_not_upper (w : string) :
  Shape.all_chars Shape.not_upper w = true ->
  Shape.all_chars Shape.not_upper (Py.table_get Resolver.abbreviation_map w w) = true.
Proof.
  intros H. unfold Resolver.abbreviation_map. simpl.
  repeat match goal with
         | |- context [String.eqb w ?k] => destruct (String.eqb w k); [reflexivity|]
         end.
  exact H.
Qed.

End NameFacts.

(** X18.  A canonical name consists of letters, digits, underscores,
    hyphens and spaces only.  It either holds no uppercase letter, or the
    entity is an ASSET and the name is a tag: uppercase letters, a hyphen,
    digits and at most one more uppercase letter.  The normalized entity keeps
    the mention's name and type and carries the embedding of the canonical
    name. *)
Theorem canonical_name_characters (svc : Resolver.Services) (entity : ExtractedEntity.t) :
  let normalized := Resolver.normalize svc entity in
  let name := Resolver.canonical_name normalized in
  Shape.all_chars Shape.name_char name = true
  /\ (Shape.all_chars Shape.not_upper name = true
      \/ (ExtractedEntity.type entity = EntityType.ASSET
          /\ exists letters digits suffix,
               name = letters ++ "-" ++ digits ++ suffix
               /\ 1 <= String.length letters
               /\ Shape.all_chars Py.is_upper letters = true
               /\ 1 <= String.length digits
               /\ Shape.all_chars Py.is_digit digits = true
               /\ (suffix = "" \/ exists c, suffix = String c "" /\ Py.is_upper c = true)))
  /\ Resolver.original_name normalized = ExtractedEntity.name entity
  /\ Resolver.type normalized = ExtractedEntity.type entity
  /\ Resolver.embedding normalized = Some (Resolver.embed_passage svc name).
Proof.
  intros normalized name.
  set (joined := Py.join " "
         (map (fun w => Py.table_get Resolver.abbreviation_map w w)
              (Py.split (Py.strip (Py.lower (ExtractedEntity.name entity)))))).
  set (plain := Py.strip (Resolver.collapse_whitespace (Resolver.remove_special joined))).
  assert (Hname : name = match ExtractedEntity.type entity with
                         | EntityType.ASSET =>
                             match Resolver.asset_tag plain with
                             | Some tag => tag
                             | None => plain
                             end
                         | _ => plain
                         end) by reflexivity.
  assert (Hchars : Shape.all_chars Shape.name_char plain = true).
  { apply all_chars_strip, collapse_name_chars, filter_chars_kept. }
  assert (Hlow : Shape.all_chars Shape.not_upper plain = true).
  { apply all_chars_strip, all_chars_collapse; [reflexivity|].
    apply all_chars_filter_chars, all_chars_join; [reflexivity|].
    apply List.Forall_map.
    eapply List.Forall_impl;
      [|apply (split_tokens Shape.not_upper), all_chars_strip, lower_not_upper].
    intros w [_ Hw]. now apply abbreviation_not_upper. }
  assert (Htag : forall tag,
             Resolver.asset_tag plain = Some tag ->
             Shape.all_chars Shape.name_char tag = true).
  { intros tag Ht.
    apply asset_tag_shape in Ht as (l & d & s & -> & _ & Hl & _ & Hd & Hs).
    rewrite !all_chars_app.
    rewrite (all_chars_impl Py.is_upper Shape.name_char l), 
            (all_chars_impl Py.is_digit Shape.name_char d); try assumption.
    - destruct Hs as [->|(c & -> & Hc)]; [reflexivity|].
      simpl. unfold Shape.name_char, Py.is_word. now rewrite Hc.
    - intros c Hc. unfold Shape.name_char, Py.is_word. rewrite Hc.
      now rewrite !orb_true_r.
    - intros c Hc. unfold Shape.name_char, Py.is_word. now rewrite Hc. }
  split; [|split; [|repeat split]].
  - rewrite Hname. destruct (ExtractedEntity.type entity); try exact Hchars.
    destruct (Resolver.asset_tag plain) eqn:Ht; [now apply Htag|exact Hchars].
  - rewrite Hname. destruct (ExtractedEntity.type entity) eqn:Hty; try (now left).
    destruct (Resolver.asset_tag plain) as [tag|] eqn:Ht; [|now left].
    right. split; [reflexivity|]. now apply asset_tag_shape in Ht.
Qed.

(* ===================================================================== *)
(** * Further properties of graph expansion *)
(* ===================================================================== *)

Section ExpandFacts.
Context (session : Expander.Session).

(** The intent is read only to compare it with ["people"]. *)
Lemma expand_entity_intent (intent1 intent2 : string) (acc : Expander.Acc)
    (entity_record : Expander.EntityRecord) :
  String.eqb intent1 "people" = String.eqb intent2 "people" ->
  Expander.expand_entity session intent1 acc entity_record
  = Expander.expand_entity session intent2 acc entity_record.
Proof. unfold Expander.expand_entity. now intros ->. Qed.

Lemma expand_entities_intent (intent1 intent2 : string)
    (entities : list Expander.EntityRecord) :
  String.eqb intent1 "people" = String.eqb intent2 "people" ->
  forall acc,
    Expander.expand_entities session intent1 acc entities
    = Expander.expand_entities session intent2 acc entities.
Proof.
  intros H. induction entities as [|e entities IH]; intros acc; simpl; [reflexivity|].
  rewrite (expand_entity_intent intent1 intent2 acc e H).
  destruct (Expander.expand_entity session intent2 acc e) as [acc' []];
    [apply IH|reflexivity].
Qed.

Lemma discovered_intent (intent1 intent2 : string) (seed_chunks : list string) :
  String.eqb intent1 "people" = String.eqb intent2 "people" ->
  Expander.discovered session seed_chunks intent1
  = Expander.discovered session seed_chunks intent2.
Proof.
  intros H. unfold Expander.discovered.
  generalize (Expander.mkAcc [] [] []).
  induction (take 5 seed_chunks) as [|c l IH]; intros acc; simpl; [reflexivity|].
  rewrite IH. f_equal. unfold Expander.expand_chunk.
  destruct (Expander.mentions session c); [|reflexivity].
  now apply expand_entities_intent.
Qed.

(** Facts are only ever appended. *)
Lemma people_facts_prefix (entity_id entity_name : string)
    (people : list Expander.PersonRecord) :
  forall acc,
    Expander.acc_facts acc
      `prefix_of` Expander.acc_facts (Expander.people_facts entity_id entity_name acc people).
Proof.
  unfold Expander.people_facts.
  induction people as [|p people IH]; intros acc; simpl; [reflexivity|].
  etransitivity; [|apply IH]. cbn. now apply prefix_app_r.
Qed.

Lemma connection_facts_prefix (ent : NodeProps.t) (entity_id entity_name entity_label : string)
    (conns : list Expander.Connection) :
  forall seen acc,
    Expander.acc_facts acc
      `prefix_of` Expander.acc_facts
                    (Expander.connection_facts ent entity_id entity_name entity_label
                                               seen acc conns).
Proof.
  induction conns as [|conn conns IH]; intros seen acc; simpl; [reflexivity|].
  destruct (String.eqb _ "Chunk"); [apply IH|].
  destruct (decide (_ ∈ seen)); [apply IH|].
  etransitivity; [|apply IH]. cbn. now apply prefix_app_r.
Qed.

Lemma expand_entity_prefix (intent : string) (acc : Expander.Acc)
    (entity_record : Expander.EntityRecord) :
  Expander.acc_facts acc
    `prefix_of` Expander.acc_facts
                  (fst (Expander.expand_entity session intent acc entity_record)).
Proof.
  unfold Expander.expand_entity.
  destruct (NodeProps.id _) as [[|c id]|]; cbn [fst]; try reflexivity.
  destruct (String.eqb intent "people" && _).
  - destruct (Expander.responsible session _) as [people|]; cbn [fst]; [|reflexivity].
    destruct (Expander.connections session _ _) as [conns|]; cbn [fst].
    + etransitivity; [apply people_facts_prefix|apply connection_facts_prefix].
    + apply people_facts_prefix.
  - destruct (Expander.connections session _ _) as [conns|]; cbn [fst];
      [apply connection_facts_prefix|reflexivity].
Qed.

Lemma expand_entities_prefix (intent : string) (entities : list Expander.EntityRecord) :
  forall acc,
    Expander.acc_facts acc
      `prefix_of` Expander.acc_facts (Expander.expand_entities session intent acc entities).
Proof.
  induction entities as [|e entities IH]; intros acc; simpl; [reflexivity|].
  pose proof (expand_entity_prefix intent acc e) as H.
  destruct (Expander.expand_entity session intent acc e) as [acc' []]; cbn [fst] in H.
  - etransitivity; [exact H|apply IH].
  - exact H.
Qed.

Lemma expand_chunk_prefix (intent : string) (acc : Expander.Acc) (chunk_id : string) :
  Expander.acc_facts acc
    `prefix_of` Expander.acc_facts (Expander.expand_chunk session intent acc chunk_id).
Proof.
  unfold Expander.expand_chunk.
  destruct (Expander.mentions session chunk_id); [apply expand_entities_prefix|reflexivity].
Qed.

Lemma expand_chunks_prefix (intent : string) (chunks : list string) :
  forall acc,
    Expander.acc_facts acc
      `prefix_of` Expander.acc_facts
                    (fold_left (Expander.expand_chunk session intent) chunks acc).
Proof.
  induction chunks as [|c chunks IH]; intros acc; simpl; [reflexivity|].
  etransitivity; [apply expand_chunk_prefix|apply IH].
Qed.

End ExpandFacts.

(** X19.  Graph expansion reads the intent only to compare it with
    people: for any two intents other than people, known or unknown, it
    returns the same facts, nodes and paths, so the intent-specific traversal
    configurations have no effect; and [max_hops] only sets the [total_hops]
    field of the result. *)
Theorem expand_ignores_traversal_config
    (session : Expander.Session) (seed_chunks : list string)
    (intent1 intent2 : string) (max_hops1 max_hops2 : nat) :
  intent1 <> "people" -> intent2 <> "people" ->
  let a := Expander.expand session seed_chunks intent1 max_hops1 in
  let b := Expander.expand session seed_chunks intent2 max_hops2 in
  Expander.facts a = Expander.facts b
  /\ Expander.nodes a = Expander.nodes b
  /\ Expander.paths a = Expander.paths b
  /\ Expander.total_hops a = max_hops1
  /\ Expander.total_hops b = max_hops2.
Proof.
  intros H1 H2 a b. subst a b. unfold Expander.expand.
  rewrite (discovered_intent session intent1 intent2).
  - cbn. repeat split.
  - apply String.eqb_neq in H1, H2. congruence.
Qed.

Lemma expand_ignores_traversal_config_witness :
  Expander.facts (Expander.expand ExpanderExamples.session ExpanderExamples.seeds
                                  "procedure" 2)
  = Expander.facts (Expander.expand ExpanderExamples.session ExpanderExamples.seeds
                                    "safety" 3).
Proof.
  assert (H1 : "procedure" <> "people") by discriminate.
  assert (H2 : "safety" <> "people") by discriminate.
  exact (proj1 (expand_ignores_traversal_config
                  ExpanderExamples.session ExpanderExamples.seeds
                  "procedure" "safety" 2 3 H1 H2)).
Defined.

(** X20.  Graph expansion only ever appends facts, and a failing query
    costs no fact found before it: a seed chunk whose mention query raises
    contributes nothing, yet counts among the five chunks expanded, and a
    query that raises for one entity keeps the facts found so far and ends
    its chunk only.  Seed chunks beyond the fifth are not looked at. *)
Theorem expand_keeps_facts_found_before_a_failure
    (session : Expander.Session) (intent : string) :
  (forall acc chunk_id,
      Expander.acc_facts acc
        `prefix_of` Expander.acc_facts (Expander.expand_chunk session intent acc chunk_id))
  /\ (forall acc entity_record,
         Expander.acc_facts acc
           `prefix_of` Expander.acc_facts
                         (fst (Expander.expand_entity session intent acc entity_record)))
  /\ (forall first rest,
         length (first ++ rest)%list <= 5 ->
         Expander.acc_facts (Expander.discovered session first intent)
           `prefix_of` Expander.acc_facts
                         (Expander.discovered session (first ++ rest)%list intent))
  /\ (forall chunk_id seed_chunks,
         Expander.mentions session chunk_id = None ->
         Expander.discovered session (chunk_id :: seed_chunks) intent
         = Expander.discovered session (take 4 seed_chunks) intent)
  /\ (forall seed_chunks,
         Expander.discovered session seed_chunks intent
         = Expander.discovered session (take 5 seed_chunks) intent).
Proof.
  split; [intros; apply expand_chunk_prefix|].
  split; [intros; apply expand_entity_prefix|].
  split; [|split].
  - intros first rest Hlen. unfold Expander.discovered.
    rewrite (take_ge (first ++ rest)%list) by exact Hlen.
    rewrite take_ge by (rewrite length_app in Hlen; lia).
    rewrite fold_left_app. apply expand_chunks_prefix.
  - intros chunk_id seed_chunks Hfail. unfold Expander.discovered.
    cbn [take fold_left]. unfold Expander.expand_chunk at 2. rewrite Hfail.
    now rewrite take_take.
  - intros seed_chunks. unfold Expander.discovered. now rewrite take_take.
Qed.

Lemma Forall_sublist {A} (P : A -> Prop) (l1 l2 : list A) :
  l1 `sublist_of` l2 -> Forall P l2 -> Forall P l1.
Proof.
  induction 1 as [|x l1 l2 _ IH|x l1 l2 _ IH]; intros H; [constructor| |].
  - apply Forall_cons in H as [Hx H]. constructor; [exact Hx|now apply IH].
  - apply Forall_cons in H as [_ H]. now apply IH.
Qed.

Section ExpandShape.
Context (session : Expander.Session).

Local Abbreviation one_hop :=
  (fun f : Expander.Fact =>
     Expander.hops f = 1 /\ Expander.confidence f = 0.9%Q
     /\ length (Expander.source_nodes f) = 2).

Local Abbreviation two_hops :=
  (fun f : Expander.Fact =>
     Expander.hops f = 2 /\ Expander.confidence f = 0.95%Q
     /\ length (Expander.source_nodes f) = 3).

Local Abbreviation aligned :=
  (fun acc : Expander.Acc =>
     length (Expander.acc_paths acc) = length (Expander.acc_facts acc)
     /\ length (Expander.acc_nodes acc)
        = length (List.filter (fun f => (Expander.hops f =? 1)%nat) (Expander.acc_facts acc))
     /\ Forall (fun f => one_hop f \/ two_hops f) (Expander.acc_facts acc)).

Lemma people_facts_aligned (entity_id entity_name : string)
    (people : list Expander.PersonRecord) :
  forall acc, aligned acc -> aligned (Expander.people_facts entity_id entity_name acc people).
Proof.
  unfold Expander.people_facts.
  induction people as [|p people IH]; intros acc Hacc; simpl; [exact Hacc|].
  apply IH. destruct Hacc as (Hp & Hn & Hf). cbn.
  rewrite !length_app, List.filter_app, length_app. cbn.
  split; [lia|]. split; [lia|].
  apply Forall_app. split; [exact Hf|]. constructor; [|constructor].
  right. now repeat split.
Qed.

Lemma connection_facts_aligned (ent : NodeProps.t)
    (entity_id entity_name entity_label : string) (conns : list Expander.Connection) :
  forall seen acc,
    aligned acc ->
    aligned (Expander.connection_facts ent entity_id entity_name entity_label
                                       seen acc conns).
Proof.
  induction conns as [|conn conns IH]; intros seen acc Hacc; simpl; [exact Hacc|].
  destruct (String.eqb _ "Chunk"); [now apply IH|].
  destruct (decide (_ ∈ seen)); [now apply IH|].
  apply IH. destruct Hacc as (Hp & Hn & Hf). cbn.
  rewrite !length_app, List.filter_app, length_app. cbn.
  split; [lia|]. split; [lia|].
  apply Forall_app. split; [exact Hf|]. constructor; [|constructor].
  left. now repeat split.
Qed.

Lemma expand_entity_aligned (intent : string) (acc : Expander.Acc)
    (entity_record : Expander.EntityRecord) :
  aligned acc -> aligned (fst (Expander.expand_entity session intent acc entity_record)).
Proof.
  intros Hacc. unfold Expander.expand_entity.
  destruct (NodeProps.id _) as [[|c id]|]; cbn [fst]; try exact Hacc.
  destruct (String.eqb intent "people" && _).
  - destruct (Expander.responsible session _) as [people|]; cbn [fst]; [|exact Hacc].
    destruct (Expander.connections session _ _) as [conns|]; cbn [fst].
    + now apply connection_facts_aligned, people_facts_aligned.
    + now apply people_facts_aligned.
  - destruct (Expander.connections session _ _) as [conns|]; cbn [fst];
      [now apply connection_facts_aligned|exact Hacc].
Qed.

Lemma discovered_aligned (intent : string) (seed_chunks : list string) :
  aligned (Expander.discovered session seed_chunks intent).
Proof.
  unfold Expander.discovered.
  assert (H0 : aligned (Expander.mkAcc [] [] [])) by (cbn; repeat split; constructor).
  revert H0. generalize (Expander.mkAcc [] [] []).
  induction (take 5 seed_chunks) as [|c chunks IH]; intros acc Hacc; simpl; [exact Hacc|].
  apply IH. unfold Expander.expand_chunk.
  destruct (Expander.mentions session c) as [entities|]; [|exact Hacc].
  clear IH. revert acc Hacc.
  induction entities as [|e entities IHe]; intros acc Hacc; simpl; [exact Hacc|].
  pose proof (expand_entity_aligned intent acc e Hacc) as H.
  destruct (Expander.expand_entity session intent acc e) as [acc' []]; cbn [fst] in H.
  - now apply IHe.
  - exact H.
Qed.

(** Without the people intent every fact is a one-hop fact. *)
Lemma connection_facts_one_hop (ent : NodeProps.t)
    (entity_id entity_name entity_label : string) (conns : list Expander.Connection) :
  forall seen acc,
    Forall (fun f => Expander.hops f = 1) (Expander.acc_facts acc) ->
    Forall (fun f => Expander.hops f = 1)
           (Expander.acc_facts
              (Expander.connection_facts ent entity_id entity_name entity_label
                                         seen acc conns)).
Proof.
  induction conns as [|conn conns IH]; intros seen acc Hacc; simpl; [exact Hacc|].
  destruct (String.eqb _ "Chunk"); [now apply IH|].
  destruct (decide (_ ∈ seen)); [now apply IH|].
  apply IH. cbn. apply Forall_app. split; [exact Hacc|]. now repeat constructor.
Qed.

Lemma discovered_one_hop (intent : string) (seed_chunks : list string) :
  intent <> "people" ->
  Forall (fun f => Expander.hops f = 1)
         (Expander.acc_facts (Expander.discovered session seed_chunks intent)).
Proof.
  intros Hintent. apply String.eqb_neq in Hintent. unfold Expander.discovered.
  assert (H0 : Forall (fun f => Expander.hops f = 1)
                      (Expander.acc_facts (Expander.mkAcc [] [] []))) by constructor.
  revert H0. generalize (Expander.mkAcc [] [] []).
  induction (take 5 seed_chunks) as [|c chunks IH]; intros acc Hacc; simpl; [exact Hacc|].
  apply IH. unfold Expander.expand_chunk.
  destruct (Expander.mentions session c) as [entities|]; [|exact Hacc].
  clear IH. revert acc Hacc.
  induction entities as [|e entities IHe]; intros acc Hacc; simpl; [exact Hacc|].
  assert (H : Forall (fun f => Expander.hops f = 1)
                     (Expander.acc_facts (fst (Expander.expand_entity session intent acc e)))).
  { unfold Expander.expand_entity. rewrite Hintent. cbn [andb].
    destruct (NodeProps.id _) as [[|ch id]|]; cbn [fst]; try exact Hacc.
    destruct (Expander.connections session _ _) as [conns|]; cbn [fst];
      [now apply connection_facts_one_hop|exact Hacc]. }
  destruct (Expander.expand_entity session intent acc e) as [acc' []]; cbn [fst] in H.
  - now apply IHe.
  - exact H.
Qed.

End ExpandShape.

(** X21.  During graph expansion every fact appended comes with a
    path, and every one-hop fact with a node, so before the final caps there
    are as many paths as facts and as many nodes as one-hop facts.  A fact is
    either a one-hop fact of confidence 0.9 naming two source nodes or a
    two-hop fact of confidence 0.95 naming three; two-hop facts arise for the
    people intent only.  The result holds the first 50 of these nodes and the
    first 20 of these paths. *)
Theorem expand_records_a_path_per_fact
    (session : Expander.Session) (seed_chunks : list string) (intent : string)
    (max_hops : nat) :
  let acc := Expander.discovered session seed_chunks intent in
  let context := Expander.expand session seed_chunks intent max_hops in
  let well_formed f :=
    (Expander.hops f = 1 /\ Expander.confidence f = 0.9%Q
     /\ length (Expander.source_nodes f) = 2)
    \/ (Expander.hops f = 2 /\ Expander.confidence f = 0.95%Q
        /\ length (Expander.source_nodes f) = 3) in
  length (Expander.acc_paths acc) = length (Expander.acc_facts acc)
  /\ length (Expander.acc_nodes acc)
     = length (List.filter (fun f => (Expander.hops f =? 1)%nat) (Expander.acc_facts acc))
  /\ Forall well_formed (Expander.acc_facts acc)
  /\ Forall well_formed (Expander.facts context)
  /\ (intent <> "people" ->
      Forall (fun f => Expander.hops f = 1) (Expander.facts context)
      /\ length (Expander.acc_nodes acc) = length (Expander.acc_facts acc))
  /\ Expander.nodes context = take 50 (Expander.acc_nodes acc)
  /\ Expander.paths context = take 20 (Expander.acc_paths acc)
  /\ length (Expander.paths context) <= 20.
Proof.
  intros acc context well_formed.
  destruct (discovered_aligned session intent seed_chunks) as (Hp & Hn & Hf).
  fold acc in Hp, Hn, Hf.
  assert (Hsub : Expander.facts context `sublist_of` Expander.acc_facts acc).
  { unfold context, Expander.expand. cbn [Expander.facts]. fold acc.
    unfold Expander.unique_facts. rewrite unseen_empty.
    etransitivity; [apply sublist_take|apply first_occurrences_sublist]. }
  split; [exact Hp|]. split; [exact Hn|]. split; [exact Hf|].
  split; [exact (Forall_sublist _ _ _ Hsub Hf)|].
  split; [|split; [reflexivity|split; [reflexivity|]]].
  - intros Hintent.
    pose proof (discovered_one_hop session intent seed_chunks Hintent) as H1.
    fold acc in H1. split; [exact (Forall_sublist _ _ _ Hsub H1)|].
    rewrite Hn. f_equal. clear -H1.
    induction H1 as [|f l Hf _ IH]; simpl; [reflexivity|].
    rewrite Hf. cbn. now rewrite IH.
  - unfold context, Expander.expand. cbn [Expander.paths]. apply firstn_le_length.
Qed.

(* ===================================================================== *)
(** * Further properties of session memory *)
(* ===================================================================== *)

Lemma last_n_nil {A} (n : nat) (l : list A) : 0 < n -> Py.last_n n l = [] -> l = [].
Proof.
  unfold Py.last_n. intros Hn H. apply (f_equal (@length A)) in H.
  rewrite length_skipn in H. simpl in H. destruct l; [reflexivity|simpl in H; lia].
Qed.

Lemma last_app_nonempty {A} (a b : list A) (d : A) :
  b <> [] -> List.last (a ++ b)%list d = List.last b d.
Proof.
  intros Hb. induction a as [|x a IH]; [reflexivity|].
  simpl. rewrite IH. destruct (a ++ b)%list eqn:E; [|reflexivity].
  apply app_eq_nil in E as [_ ->]. congruence.
Qed.

Lemma last_of_last_n {A} (n : nat) (l : list A) :
  0 < n -> l <> [] ->
  List.last (map Some (Py.last_n n l)) None = List.last (map Some l) None.
Proof.
  intros Hn Hl. unfold Py.last_n.
  rewrite <- (firstn_skipn (length l - n) l) at 3. rewrite map_app.
  symmetry. apply last_app_nonempty. intros H. apply map_eq_nil in H.
  apply (f_equal (@length A)) in H. rewrite length_skipn in H. simpl in H.
  destruct l; [congruence|simpl in H; lia].
Qed.

(** X22.  The query handed to the pipeline is the raw query unless the
    session has a history and some whitespace-separated word of the
    lowercased query is a reference word; then it is the raw query preceded
    by a context block built from the last two exchanges only, with each
    answer cut to 100 characters.  Older exchanges never reach the
    pipeline. *)
Theorem enhance_query_reads_last_two_exchanges
    (query : string) (history : list Session.Exchange.t) :
  let refers :=
    exists word, In word Session.reference_words /\ In word (Py.split (Py.lower query)) in
  Session.enhance_query query history
  = Session.enhance_query query (Py.last_n 2 history)
  /\ (history = [] \/ ~ refers -> Session.enhance_query query history = query)
  /\ (history <> [] -> refers ->
      Session.enhance_query query history
      = "Context: "
        ++ Py.join Nodes.nl
             (map (fun ex => "Previous: " ++ Session.Exchange.query ex ++ " -> "
                             ++ Py.take 100 (Session.Exchange.answer ex))
                  (Py.last_n 2 history))
        ++ Nodes.nl2 ++ "Current question: " ++ query).
Proof.
  intros refers.
  assert (Href : refers
                 <-> existsb (fun word => Session.in_list word (Py.split (Py.lower query)))
                             Session.reference_words = true).
  { unfold refers. rewrite existsb_exists. split.
    - intros (w & Hw & Hin). exists w. split; [exact Hw|].
      unfold Session.in_list. apply existsb_exists. exists w.
      split; [exact Hin|apply String.eqb_refl].
    - intros (w & Hw & Hin). exists w. split; [exact Hw|].
      unfold Session.in_list in Hin. apply existsb_exists in Hin as (w' & Hin & Heq).
      apply String.eqb_eq in Heq. now subst w'. }
  assert (Hrecent : forall h : list Session.Exchange.t,
             (if (2 <=? length h)%nat then Py.last_n 2 h else h) = Py.last_n 2 h).
  { intros h. destruct (Nat.leb_spec 2 (length h)); [reflexivity|].
    symmetry. apply last_n_short. lia. }
  unfold Session.enhance_query. split; [|split].
  - destruct history as [|ex history]; [reflexivity|].
    rewrite Hrecent.
    pose proof (last_n_length 2 (ex :: history)) as Hlen.
    destruct (Py.last_n 2 (ex :: history)) as [|ex' recent] eqn:Hl.
    + apply last_n_nil in Hl; [discriminate|lia].
    + destruct (existsb _ _); [|reflexivity].
      now rewrite Hrecent, (last_n_short 2 (ex' :: recent)) by exact Hlen.
  - intros [->|Hn]; [reflexivity|]. destruct history; [reflexivity|].
    destruct (existsb _ _); [|reflexivity]. exfalso. apply Hn, Href. reflexivity.
  - intros Hne Hr. destruct history as [|ex history]; [congruence|].
    apply Href in Hr. rewrite Hr, Hrecent. reflexivity.
Qed.

(** X23.  A call whose pipeline raises returns no result and leaves the
    history of every session as it was; the session it names is initialised
    when it was unknown.  A call whose pipeline returns stores the raw query,
    not the enhanced one, with the answer and the intent of the result. *)
Theorem failed_call_leaves_histories
    (pipeline : string -> string -> option Session.RetrievalResult)
    (query session_id : string) (store : gmap string (list Session.Exchange.t)) :
  let enhanced :=
    Session.enhance_query query (Session.get_session_history session_id store) in
  let after := Session.run_full_retrieval pipeline query session_id store in
  snd after = pipeline enhanced session_id
  /\ (pipeline enhanced session_id = None ->
      (forall other,
          Session.get_session_history other (fst after)
          = Session.get_session_history other store)
      /\ fst after !! session_id
         = Some (Session.get_session_history session_id store))
  /\ (forall result,
         pipeline enhanced session_id = Some result ->
         List.last (map Some (Session.get_session_history session_id (fst after))) None
         = Some (Session.Exchange.mk query (Session.result_answer result)
                                     (Session.result_intent result))).
Proof.
  intros enhanced after. split; [|split].
  - subst after enhanced. unfold Session.run_full_retrieval, Session.get_session_history.
    assert (H0 : default [] (match store !! session_id with
                             | Some _ => store
                             | None => <[session_id := []]> store
                             end !! session_id)
                 = default [] (store !! session_id)).
    { destruct (store !! session_id) eqn:E; [now rewrite E|].
      now rewrite lookup_insert_eq. }
    rewrite H0. destruct (pipeline _ session_id); reflexivity.
  - intros Hfail. split.
    + intros other. subst after. rewrite history_after_call. fold enhanced.
      rewrite Hfail. now destruct (decide (other = session_id)) as [->|].
    + subst after enhanced. unfold Session.run_full_retrieval, Session.get_session_history in *.
      assert (H0 : default [] (match store !! session_id with
                               | Some _ => store
                               | None => <[session_id := []]> store
                               end !! session_id)
                   = default [] (store !! session_id)).
      { destruct (store !! session_id) eqn:E; [now rewrite E|].
        now rewrite lookup_insert_eq. }
      rewrite H0 in *. rewrite Hfail. cbn [fst].
      destruct (store !! session_id) eqn:E; [now rewrite E|].
      now rewrite lookup_insert_eq.
  - intros result Hres. subst after. rewrite history_after_call. fold enhanced.
    rewrite decide_True by reflexivity. rewrite Hres.
    rewrite last_of_last_n; [apply last_snoc|lia|now destruct (Session.get_session_history _ _)].
Qed.

(** X24.  Clearing a session empties its history and touches no other
    session; clearing an unknown session changes nothing.  The next call of
    the cleared session sees no history: the pipeline gets the raw query,
    reference words or not, and the history restarts with that exchange. *)
Theorem clear_session_forgets_one_session
    (session_id : string) (store : gmap string (list Session.Exchange.t)) :
  let cleared := Session.clear_session session_id store in
  Session.get_session_history session_id cleared = []
  /\ (forall other, other <> session_id ->
        Session.get_session_history other cleared
        = Session.get_session_history other store)
  /\ (store !! session_id = None -> cleared = store)
  /\ Session.clear_session session_id cleared = cleared
  /\ forall pipeline query result,
       pipeline query session_id = Some result ->
       Session.get_session_history session_id
         (fst (Session.run_full_retrieval pipeline query session_id cleared))
       = [Session.Exchange.mk query (Session.result_answer result)
                              (Session.result_intent result)].
Proof.
  intros cleared. subst cleared. unfold Session.clear_session, Session.get_session_history.
  split; [now rewrite lookup_delete_eq|].
  split; [intros other Hne; now rewrite lookup_delete_ne by congruence|].
  split; [apply delete_id|].
  split; [apply delete_delete_eq|].
  intros pipeline query result Hres.
  pose proof (history_after_call pipeline query session_id session_id
                (delete session_id store)) as H.
  unfold Session.get_session_history in H. rewrite H, decide_True by reflexivity.
  rewrite lookup_delete_eq. cbn [default Session.enhance_query]. rewrite Hres.
  reflexivity.
Qed.

(* ===================================================================== *)
(** * LLM reranking *)
(* ===================================================================== *)

(** A ratio of two counts, the divisor raised to 1. *)
Lemma count_ratio (a b : nat) :
  a <= b ->
  let r := (inject_Z (Z.of_nat a) / inject_Z (Z.of_nat (Nat.max b 1)))%Q in
  (0 <= r <= 1)%Q /\ ((r == 1)%Q <-> a = b /\ 1 <= b) /\ ((r == 0)%Q <-> a = 0).
Proof.
  intros Hab r. subst r.
  destruct (Nat.max b 1) as [|m] eqn:Hm; [lia|].
  rewrite (Nat2Z.inj_succ m), <- Zpos_P_of_succ_nat, <- Qmake_Qdiv.
  unfold Qle, Qeq. cbn [Qnum Qden]. rewrite Zpos_P_of_succ_nat. lia.
Qed.

Lemma words_overlap (query content : string) :
  size (Reranker.words query ∩ Reranker.words content) <= size (Reranker.words query).
Proof. apply subseteq_size. set_solver. Qed.

Lemma keyword_overlap_ratio (query content : string) :
  (Reranker.keyword_overlap query content
   == inject_Z (Z.of_nat (size (Reranker.words query ∩ Reranker.words content)))
      / inject_Z (Z.of_nat (Nat.max (size (Reranker.words query)) 1)))%Q.
Proof.
  unfold Reranker.keyword_overlap. apply Q.min_l.
  destruct (count_ratio _ _ (words_overlap query content)) as ((_ & H) & _).
  apply Qle_trans with 1%Q; [exact H|discriminate].
Qed.

(** X25.  When the relevance model fails, the relevance of a content
    is the fraction of the distinct lowercased words of the query that are
    also whitespace-separated words of the lowercased content: a value
    between 0 and 1 (the cap at 1.0 never applies), 1 exactly when the query
    has a word and the content has all its words, 0 exactly when they share
    none, in particular for a query without a word.  A JSON answer without a
    score counts as 0.5. *)
Theorem keyword_overlap_is_a_fraction (query content : string) :
  let query_words := Reranker.words query in
  let content_words := Reranker.words content in
  let relevance := Reranker.keyword_overlap query content in
  (relevance
   == inject_Z (Z.of_nat (size (query_words ∩ content_words)))
      / inject_Z (Z.of_nat (Nat.max (size query_words) 1)))%Q
  /\ (0 <= relevance <= 1)%Q
  /\ ((relevance == 1)%Q <-> query_words <> ∅ /\ query_words ⊆ content_words)
  /\ ((relevance == 0)%Q <-> query_words ∩ content_words = ∅)
  /\ (forall llm n,
         Reranker._score_relevance llm n query content
         = match llm n query (Py.take 500 content) with
           | Some (Some score) => score
           | Some None => 0.5%Q
           | None => relevance
           end).
Proof.
  intros query_words content_words relevance.
  pose proof (keyword_overlap_ratio query content) as Hr.
  fold query_words content_words relevance in Hr.
  destruct (count_ratio _ _ (words_overlap query content)) as (Hrange & Hone & Hzero).
  fold query_words content_words in Hrange, Hone, Hzero.
  split; [exact Hr|]. split; [now rewrite Hr|]. split; [|split; [|reflexivity]].
  - rewrite Hr, Hone. split.
    + intros [Hsize Hpos]. split.
      * intros Hempty. rewrite Hempty, size_empty in Hpos. lia.
      * assert (Heq : query_words ∩ content_words ≡ query_words).
        { apply set_subseteq_size_equiv; [set_solver|lia]. }
        set_solver.
    + intros [Hne Hsub]. split.
      * f_equal. apply leibniz_equiv. set_solver.
      * destruct (decide (size query_words = 0)) as [H0|H0]; [|lia].
        apply size_empty_iff, leibniz_equiv in H0. congruence.
  - rewrite Hr, Hzero. rewrite size_empty_iff. split.
    + apply leibniz_equiv.
    + intros ->. reflexivity.
Qed.

Lemma rank_all_length (llm : Reranker.Llm) (query : string)
    (candidates : list Reranker.Candidate.t) :
  forall n, length (Reranker.rank_all llm n query candidates) = length candidates.
Proof. induction candidates as [|c l IH]; intros n; simpl; [reflexivity|]. now rewrite IH. Qed.

Lemma rank_all_In (llm : Reranker.Llm) (query : string)
    (candidates : list Reranker.Candidate.t) (r : Reranker.RankedChunk.t) :
  forall n,
    In r (Reranker.rank_all llm n query candidates) ->
    exists i candidate,
      nth_error candidates i = Some candidate
      /\ r = Reranker.rank_candidate llm (n + i) query candidate.
Proof.
  induction candidates as [|c l IH]; intros n; simpl; [tauto|].
  intros [<-|Hin].
  - exists 0, c. split; [reflexivity|]. now rewrite Nat.add_0_r.
  - destruct (IH _ Hin) as (i & c' & Hi & ->). exists (S i), c'.
    split; [exact Hi|]. now rewrite Nat.add_succ_r.
Qed.

(** X26.  The reranker scores the first 20 candidates only, in order,
    each with 0.4 times its original score plus 0.6 times its relevance, and
    returns the first [top_k] of them in descending order of that score,
    candidates of equal score keeping their order.  Candidates after the
    twentieth never appear, whatever their score; a failing relevance model
    does not make reranking fail. *)
Theorem rerank_scores_first_twenty
    (llm : Reranker.Llm) (query : string) (candidates : list Reranker.Candidate.t)
    (top_k : nat) :
  let ranked := Reranker.rerank llm query candidates top_k in
  let scored := Reranker.rank_all llm 0 query (take 20 candidates) in
  (exists sorted,
      Spec.stable_descending_sort Reranker.RankedChunk.score scored sorted
      /\ ranked = take top_k sorted)
  /\ length ranked = Nat.min top_k (Nat.min 20 (length candidates))
  /\ Reranker.rerank llm query (take 20 candidates) top_k = ranked
  /\ forall r,
       In r ranked ->
       exists i candidate,
         i < 20 /\ nth_error candidates i = Some candidate
         /\ r = Reranker.rank_candidate llm i query candidate
         /\ (Reranker.RankedChunk.score r
             == 0.4 * Reranker.RankedChunk.original_score r
                + 0.6 * Reranker._score_relevance llm i query
                          (Reranker.RankedChunk.content r))%Q.
Proof.
  intros ranked scored.
  assert (Hranked : ranked = take top_k (sort_desc Reranker.RankedChunk.score scored)).
  { subst ranked scored. unfold Reranker.rerank.
    destruct candidates; [now destruct top_k|reflexivity]. }
  split; [|split; [|split]].
  - exists (sort_desc Reranker.RankedChunk.score scored).
    split; [apply sort_desc_stable|exact Hranked].
  - rewrite Hranked, length_take.
    rewrite (Permutation_length (sort_desc_perm _ scored)).
    subst scored. now rewrite rank_all_length, length_take.
  - rewrite Hranked. subst scored. unfold Reranker.rerank.
    destruct (take 20 candidates) eqn:E; [now destruct top_k|].
    now rewrite <- E, take_take.
  - intros r Hr. rewrite Hranked in Hr. apply In_take in Hr.
    apply (Permutation_in _ (sort_desc_perm _ _)) in Hr.
    subst scored. apply rank_all_In in Hr as (i & c & Hi & ->). cbn [Nat.add].
    exists i, c.
    rewrite nth_error_firstn in Hi.
    destruct (Nat.ltb_spec i 20) as [Hlt|_]; [|discriminate].
    split; [exact Hlt|]. split; [exact Hi|]. split; reflexivity.
Qed.

(* ===================================================================== *)
(** * The retrieval pipeline behind the session memory *)
(* ===================================================================== *)

Lemma fuse_parts (sg : list Expander.Fact) (sr : list Reranker.RankedChunk.t)
    (sv : list Pipeline.VectorCandidate) :
  let s1 : gset string := list_to_set (map Pipeline.graph_key sg) ∪ ∅ in
  let s2 : gset string := list_to_set (map Pipeline.rerank_key sr) ∪ s1 in
  Pipeline.fuse sg sr sv
  = (map (fun fact => Pipeline.mkEvidence (Pipeline.graph_key fact) "graph" 0.4%Q)
         (fst (Py.unseen Pipeline.graph_key sg ∅))
     ++ map (fun item => Pipeline.mkEvidence (Pipeline.rerank_key item) "rerank" 0.35%Q)
            (fst (Py.unseen Pipeline.rerank_key sr s1))
     ++ map (fun item => Pipeline.mkEvidence (Pipeline.vector_key item) "vector" 0.25%Q)
            (fst (Py.unseen Pipeline.vector_key sv s2)))%list.
Proof.
  intros s1 s2. unfold Pipeline.fuse.
  pose proof (unseen_snd Pipeline.graph_key sg ∅) as H1.
  destruct (Py.unseen Pipeline.graph_key sg ∅) as [kg t1]. cbn [fst snd] in *.
  subst t1. fold s1.
  pose proof (unseen_snd Pipeline.rerank_key sr s1) as H2.
  destruct (Py.unseen Pipeline.rerank_key sr s1) as [kr t2]. cbn [fst snd] in *.
  subst t2. fold s2.
  destruct (Py.unseen Pipeline.vector_key sv s2) as [kv t3]. reflexivity.
Qed.

Lemma unseen_length {A} (key : A -> string) (l : list A) (seen : gset string) :
  length (fst (Py.unseen key l seen)) <= length l.
Proof.
  revert seen. induction l as [|x l IH]; intros seen; simpl; [lia|].
  destruct (decide (key x ∈ seen)); [specialize (IH seen); lia|].
  specialize (IH ({[key x]} ∪ seen)).
  destruct (Py.unseen key l ({[key x]} ∪ seen)). simpl in *. lia.
Qed.

(** X27.  Context fusion in the live pipeline keys every item by its
    text (a graph fact by its fact text, a chunk by the first 300 characters
    of its content) and goes through the graph facts, the reranked chunks and
    the vector results in that order.  The fused list holds each text found
    once, graph entries first, then rerank entries, then vector entries, with
    the weights 0.4, 0.35 and 0.25; a text found in two buffers is attributed
    to the one processed first, so a chunk of both the rerank and the vector
    buffer is kept as a rerank entry. *)
Theorem context_fusion_keeps_each_text_once
    (skip_graph : list Expander.Fact) (skip_rerank : list Reranker.RankedChunk.t)
    (skip_vector : list Pipeline.VectorCandidate) :
  let fused := Pipeline.fuse skip_graph skip_rerank skip_vector in
  let in_graph text := In text (map Pipeline.graph_key skip_graph) in
  let in_rerank text := In text (map Pipeline.rerank_key skip_rerank) in
  let in_vector text := In text (map Pipeline.vector_key skip_vector) in
  NoDup (map Pipeline.evidence_content fused)
  /\ (forall text,
         In text (map Pipeline.evidence_content fused)
         <-> in_graph text \/ in_rerank text \/ in_vector text)
  /\ (exists from_graph from_rerank from_vector,
         fused = (from_graph ++ from_rerank ++ from_vector)%list
         /\ Forall (fun e => Pipeline.evidence_source e = "graph"
                             /\ Pipeline.weight e = 0.4%Q
                             /\ in_graph (Pipeline.evidence_content e)) from_graph
         /\ Forall (fun e => Pipeline.evidence_source e = "rerank"
                             /\ Pipeline.weight e = 0.35%Q
                             /\ in_rerank (Pipeline.evidence_content e)
                             /\ ~ in_graph (Pipeline.evidence_content e)) from_rerank
         /\ Forall (fun e => Pipeline.evidence_source e = "vector"
                             /\ Pipeline.weight e = 0.25%Q
                             /\ in_vector (Pipeline.evidence_content e)
                             /\ ~ in_graph (Pipeline.evidence_content e)
                             /\ ~ in_rerank (Pipeline.evidence_content e)) from_vector)
  /\ length fused <= length skip_graph + length skip_rerank + length skip_vector.
Proof.
  intros fused in_graph in_rerank in_vector. subst fused. rewrite fuse_parts.
  set (s1 := (list_to_set (map Pipeline.graph_key skip_graph) ∪ ∅ : gset string)).
  set (s2 := (list_to_set (map Pipeline.rerank_key skip_rerank) ∪ s1 : gset string)).
  assert (Hs1 : forall t, t ∈ s1 <-> in_graph t).
  { intros t. unfold in_graph. rewrite <- list_elem_of_In. subst s1. set_solver. }
  assert (Hs2 : forall t, t ∈ s2 <-> in_rerank t \/ in_graph t).
  { intros t. unfold in_rerank. rewrite <- list_elem_of_In, <- Hs1. subst s2. set_solver. }
  assert (Hcontent :
    map Pipeline.evidence_content
        (map (fun fact => Pipeline.mkEvidence (Pipeline.graph_key fact) "graph" 0.4%Q)
             (fst (Py.unseen Pipeline.graph_key skip_graph ∅))
         ++ map (fun item => Pipeline.mkEvidence (Pipeline.rerank_key item) "rerank" 0.35%Q)
                (fst (Py.unseen Pipeline.rerank_key skip_rerank s1))
         ++ map (fun item => Pipeline.mkEvidence (Pipeline.vector_key item) "vector" 0.25%Q)
                (fst (Py.unseen Pipeline.vector_key skip_vector s2)))%list
    = (map Pipeline.graph_key (fst (Py.unseen Pipeline.graph_key skip_graph ∅))
       ++ map Pipeline.rerank_key (fst (Py.unseen Pipeline.rerank_key skip_rerank s1))
       ++ map Pipeline.vector_key (fst (Py.unseen Pipeline.vector_key skip_vector s2)))%list).
  { rewrite !map_app, !map_map. reflexivity. }
  split; [|split; [|split]].
  - rewrite Hcontent. apply NoDup_app. split; [apply kept_keys_NoDup|]. split.
    + intros t Hg Hrest. apply list_elem_of_In in Hg, Hrest.
      apply kept_key_in in Hg as [Hg _]. apply in_app_or in Hrest as [Hr|Hv].
      * apply kept_key_in in Hr as [_ Hr]. now apply Hr, Hs1.
      * apply kept_key_in in Hv as [_ Hv]. apply Hv, Hs2. now right.
    + apply NoDup_app. split; [apply kept_keys_NoDup|]. split; [|apply kept_keys_NoDup].
      intros t Hr Hv. apply list_elem_of_In in Hr, Hv.
      apply kept_key_in in Hr as [Hr _]. apply kept_key_in in Hv as [_ Hv].
      apply Hv, Hs2. now left.
  - intros text. rewrite Hcontent, !in_app_iff, !kept_key_in, Hs1, Hs2.
    fold (in_graph text) (in_rerank text) (in_vector text).
    assert (Hempty : text ∉ (∅ : gset string)) by set_solver.
    destruct (In_dec String.string_dec text (map Pipeline.graph_key skip_graph)) as [Hg|Hg];
      [tauto|].
    destruct (In_dec String.string_dec text (map Pipeline.rerank_key skip_rerank)) as [Hr|Hr];
      unfold in_graph, in_rerank, in_vector in *; tauto.
  - eexists _, _, _. split; [reflexivity|]. split; [|split].
    + apply List.Forall_map, List.Forall_forall. intros fact Hf. cbn.
      repeat split. unfold in_graph. apply in_map. now apply unseen_incl in Hf.
    + apply List.Forall_map, List.Forall_forall. intros item Hi. cbn.
      assert (Hk : In (Pipeline.rerank_key item)
                      (map Pipeline.rerank_key
                           (fst (Py.unseen Pipeline.rerank_key skip_rerank s1))))
        by now apply in_map.
      apply kept_key_in in Hk as [Hk Hn]. rewrite Hs1 in Hn. now repeat split.
    + apply List.Forall_map, List.Forall_forall. intros item Hi. cbn.
      assert (Hk : In (Pipeline.vector_key item)
                      (map Pipeline.vector_key
                           (fst (Py.unseen Pipeline.vector_key skip_vector s2))))
        by now apply in_map.
      apply kept_key_in in Hk as [Hk Hn]. rewrite Hs2 in Hn.
      repeat split; try assumption; tauto.
  - rewrite !length_app, !length_map.
    pose proof (unseen_length Pipeline.graph_key skip_graph ∅).
    pose proof (unseen_length Pipeline.rerank_key skip_rerank s1).
    pose proof (unseen_length Pipeline.vector_key skip_vector s2). lia.
Qed.

Section ConfidenceFacts.



End ConfidenceFacts.



Lemma expand_fact_texts_NoDup (session : Expander.Session) (seed_chunks : list string)
    (intent : string) (max_hops n : nat) :
  NoDup (map Expander.fact
             (take n (Expander.facts
                        (Expander.expand session seed_chunks intent max_hops)))).
Proof.
  unfold Expander.expand, Expander.unique_facts. cbn [Expander.facts].
  eapply sublist_NoDup; [apply (kept_keys_NoDup Expander.fact)|].
  apply fmap_sublist. etransitivity; apply sublist_take.
Qed.

(** X29.  The live pipeline raises exactly when the intent classifier,
    the vector search, the graph session or the answer generation raises; a
    failing relevance model or a failing graph query does not stop it, and
    the session identifier is not read.  A result carries the classifier's
    intent, at most five sources (the first five reranked chunks, their text
    cut to 200 characters plus the ellipsis marker) and the texts of the
    first ten graph facts, which are pairwise distinct. *)
Theorem run_full_retrieval_needs_four_gateways
    (svc : Pipeline.Services) (query session_id : string) :
  match Pipeline.run_full_retrieval svc query session_id with
  | Raise e =>
      e = GatewayError
      /\ (Pipeline.classify svc query = None
          \/ Pipeline.search svc ("query: " ++ query) 20 = None
          \/ Pipeline.graph svc = None
          \/ exists system user, Pipeline.generate svc system user = None)
  | Ok result =>
      exists intent points session,
        Pipeline.classify svc query = Some intent
        /\ Pipeline.search svc ("query: " ++ query) 20 = Some points
        /\ Pipeline.graph svc = Some session
        /\ let candidates := map Pipeline.candidate_of_point points in
           let reranked :=
             Reranker.rerank (Pipeline.relevance svc) query
                             (map Pipeline.as_candidate candidates) 10 in
           let context :=
             Expander.expand session (map Pipeline.chunk_id (take 10 candidates))
                             intent 2 in
           Pipeline.intent result = intent
           /\ Pipeline.sources result = map Pipeline.source_of (take 5 reranked)
           /\ length (Pipeline.sources result) <= 5
           /\ Pipeline.graph_facts result
              = map Expander.fact (take 10 (Expander.facts context))
           /\ length (Pipeline.graph_facts result) <= 10
           /\ NoDup (Pipeline.graph_facts result)
           /\ Pipeline.confidence result
              = Pipeline.overall_confidence candidates reranked (Expander.facts context)
  end
  /\ (forall other,
         Pipeline.run_full_retrieval svc query other
         = Pipeline.run_full_retrieval svc query session_id)
  /\ (Pipeline.classify svc query <> None ->
      Pipeline.search svc ("query: " ++ query) 20 <> None ->
      Pipeline.graph svc <> None ->
      (forall system user, Pipeline.generate svc system user <> None) ->
      exists result, Pipeline.run_full_retrieval svc query session_id = Ok result).
Proof.
  unfold Pipeline.run_full_retrieval.
  destruct (Pipeline.classify svc query) as [intent|]; cbn [call mbind Result_bind].
  2: { split; [split; [reflexivity|now left]|]. split; [reflexivity|congruence]. }
  destruct (Pipeline.search svc _ 20) as [points|]; cbn [call mbind Result_bind].
  2: { split; [split; [reflexivity|right; now left]|]. split; [reflexivity|congruence]. }
  destruct (Pipeline.graph svc) as [session|]; cbn [call mbind Result_bind].
  2: { split; [split; [reflexivity|right; right; now left]|].
       split; [reflexivity|congruence]. }
  destruct (Pipeline.generate svc _ _) as [answer|] eqn:Hgen; cbn [call mbind Result_bind].
  2: { split; [split; [reflexivity|right; right; right; eauto]|].
       split; [reflexivity|]. intros _ _ _ H. now apply H in Hgen. }
  split; [|split; [reflexivity|eauto]].
  exists intent, points, session. repeat split.
  - cbn [Pipeline.sources]. rewrite length_map. apply firstn_le_length.
  - cbn [Pipeline.graph_facts]. rewrite length_map. apply firstn_le_length.
  - cbn [Pipeline.graph_facts]. apply expand_fact_texts_NoDup.
Qed.

Lemma run_full_retrieval_intent (svc : Pipeline.Services) (query session_id : string)
    (result : Pipeline.RetrievalResult) :
  Pipeline.run_full_retrieval svc query session_id = Ok result ->
  Pipeline.classify svc query = Some (Pipeline.intent result).
Proof.
  unfold Pipeline.run_full_retrieval.
  destruct (Pipeline.classify svc query) as [intent|]; [|discriminate].
  destruct (Pipeline.search svc _ 20) as [points|]; [|discriminate].
  destruct (Pipeline.graph svc) as [session|]; [|discriminate].
  cbn [call mbind Result_bind].
  destruct (Pipeline.generate svc _ _) as [answer|]; [|discriminate].
  now intros [= <-].
Qed.

(** X30.  With the live pipeline behind it, the session memory runs
    the pipeline on the enhanced query, context block included, and stores
    the raw query with the answer and with the intent the classifier gave for
    the enhanced query, keeping the last ten exchanges; other sessions are
    left alone.  When the pipeline raises, the call returns nothing and every
    history stays as it was. *)
Theorem session_memory_over_live_pipeline
    (svc : Pipeline.Services) (query session_id : string)
    (store : gmap string (list Session.Exchange.t)) :
  let history := Session.get_session_history session_id store in
  let enhanced := Session.enhance_query query history in
  let after :=
    Session.run_full_retrieval (Pipeline.for_session svc) query session_id store in
  match Pipeline.run_full_retrieval svc enhanced session_id with
  | Ok result =>
      snd after
      = Some (Session.mkRetrievalResult (Pipeline.answer result) (Pipeline.intent result))
      /\ Session.get_session_history session_id (fst after)
         = Py.last_n 10
             (history ++ [Session.Exchange.mk query (Pipeline.answer result)
                                              (Pipeline.intent result)])%list
      /\ Pipeline.classify svc enhanced = Some (Pipeline.intent result)
      /\ (forall other, other <> session_id ->
            Session.get_session_history other (fst after)
            = Session.get_session_history other store)
  | Raise _ =>
      snd after = None
      /\ forall other,
           Session.get_session_history other (fst after)
           = Session.get_session_history other store
  end.
Proof.
  intros history enhanced after.
  assert (Hsnd : snd after = Pipeline.for_session svc enhanced session_id).
  { subst after enhanced history.
    unfold Session.run_full_retrieval, Session.get_session_history.
    assert (H0 : default [] (match store !! session_id with
                             | Some _ => store
                             | None => <[session_id := []]> store
                             end !! session_id)
                 = default [] (store !! session_id)).
    { destruct (store !! session_id) eqn:E; [now rewrite E|].
      now rewrite lookup_insert_eq. }
    rewrite H0. destruct (Pipeline.for_session svc _ session_id); reflexivity. }
  assert (Hhist : forall other,
             Session.get_session_history other (fst after)
             = if decide (other = session_id)
               then match Pipeline.for_session svc enhanced session_id with
                    | Some result =>
                        Py.last_n 10
                          (history ++ [Session.Exchange.mk query
                                         (Session.result_answer result)
                                         (Session.result_intent result)])%list
                    | None => history
                    end
               else Session.get_session_history other store)
    by (intros other; apply history_after_call).
  unfold Pipeline.for_session in Hsnd, Hhist.
  destruct (Pipeline.run_full_retrieval svc enhanced session_id) as [result|e] eqn:Hrun.
  - split; [exact Hsnd|]. split; [|split].
    + rewrite Hhist, decide_True by reflexivity. reflexivity.
    + exact (run_full_retrieval_intent _ _ _ _ Hrun).
    + intros other Hne. rewrite Hhist. now rewrite decide_False by exact Hne.
  - split; [exact Hsnd|]. intros other. rewrite Hhist.
    now destruct (decide (other = session_id)) as [->|].
Qed.
